(** * Retroactive payroll adjustments: period segmentation and calculation

    A shallow embedding of the business logic of [src/App.jsx]
    ([FACTORS], [getDaysInMonth], [getPeriods], [calculateRetroactive])
    together with the JavaScript built-ins that code relies on, and the
    properties of the specification checked against it.

    Modelling conventions.
    - A JavaScript Number is a value of [number]: [NaN], the two
      infinities, or a finite value carried as the rational it denotes.
      Arithmetic on finite values is exact: the rounding of binary64 and
      the sign of zero are not modelled.  On integers below 2^53, which is
      where every date component of a well-formed date lives, the two
      coincide.
    - A JavaScript string is a [string] of bytes.
    - An input row is a finite map from column names to cell texts; a
      missing key is JavaScript's [undefined].
    - The [while] loop of [getPeriods] takes a fuel argument and returns
      [None] when the fuel runs out. *)

From Stdlib Require Import ZArith QArith Qround Qreduction Qcanon.
From Stdlib Require Import Ascii String DecimalString Sorted Lia.
From Stdlib Require Floats.
From stdpp Require Import gmap strings list fin_maps.

Local Open Scope Z_scope.

(** ** JavaScript numbers *)

Module JSNumber.

Inductive number : Set :=
| NaN
| PInf
| NInf
| Fin (q : Q).

(** Finite results are kept in lowest terms. *)
Definition fin (q : Q) : number := Fin (Qred q).

Definition of_Z (z : Z) : number := Fin (inject_Z z).

Definition Qltb (a b : Q) : bool := negb (Qle_bool b a).

Definition Qsign (q : Q) : Z := Z.sgn (Qnum q).

Definition isNaN (n : number) : bool :=
  match n with NaN => true | _ => false end.

(** [!n] is [negb (truthy n)]: zero and [NaN] are the falsy numbers. *)
Definition truthy (n : number) : bool :=
  match n with
  | NaN => false
  | Fin q => negb (Qeq_bool q 0)
  | _ => true
  end.

Definition num_neg (n : number) : number :=
  match n with
  | NaN => NaN
  | PInf => NInf
  | NInf => PInf
  | Fin q => fin (- q)
  end.

Definition num_add (a b : number) : number :=
  match a, b with
  | NaN, _ | _, NaN => NaN
  | PInf, NInf | NInf, PInf => NaN
  | PInf, _ | _, PInf => PInf
  | NInf, _ | _, NInf => NInf
  | Fin x, Fin y => fin (x + y)
  end.

Definition num_sub (a b : number) : number := num_add a (num_neg b).

Definition signed_inf (s : Z) : number :=
  match s with
  | Z0 => NaN
  | Zpos _ => PInf
  | Zneg _ => NInf
  end.

Definition num_sign (n : number) : Z :=
  match n with
  | NaN => 0
  | PInf => 1
  | NInf => -1
  | Fin q => Qsign q
  end.

Definition num_mul (a b : number) : number :=
  match a, b with
  | NaN, _ | _, NaN => NaN
  | Fin x, Fin y => fin (x * y)
  | _, _ => signed_inf (num_sign a * num_sign b)
  end.

(** Division by a zero yields an infinity whose sign is that of the
    dividend (the zero is taken as positive). *)
Definition num_div (a b : number) : number :=
  match a, b with
  | NaN, _ | _, NaN => NaN
  | Fin x, Fin y =>
      if Qeq_bool y 0 then signed_inf (Qsign x) else fin (x / y)
  | Fin _, _ => Fin 0
  | _, Fin y => signed_inf (num_sign a * (if Qeq_bool y 0 then 1 else Qsign y))
  | _, _ => NaN
  end.

Definition num_lt (a b : number) : bool :=
  match a, b with
  | NaN, _ | _, NaN => false
  | _, NInf => false
  | NInf, _ => true
  | PInf, _ => false
  | _, PInf => true
  | Fin x, Fin y => Qltb x y
  end.

Definition num_gt (a b : number) : bool := num_lt b a.

(** Strict equality [===] on numbers. *)
Definition num_eq (a b : number) : bool :=
  match a, b with
  | PInf, PInf | NInf, NInf => true
  | Fin x, Fin y => Qeq_bool x y
  | _, _ => false
  end.

Definition num_le (a b : number) : bool := num_lt a b || num_eq a b.

(** [a || b] on numbers. *)
Definition num_or (a b : number) : number := if truthy a then a else b.

(** [Math.round]: the nearest integer, ties towards plus infinity. *)
Definition Math_round (n : number) : number :=
  match n with
  | Fin q => of_Z (Qfloor (q + (1 # 2)))
  | _ => n
  end.

(** [ToIntegerOrInfinity] on a finite value: truncation towards zero. *)
Definition trunc (q : Q) : Z := Z.quot (Qnum q) (Zpos (Qden q)).

End JSNumber.
Export JSNumber.

(** ** JavaScript strings and the conversions between strings and numbers *)

Module JSString.

Definition code (c : ascii) : Z := Z.of_N (N_of_ascii c).

Definition chr (c : ascii) : string := String c EmptyString.

Definition hyphen : ascii := "-"%char.
Definition slash : ascii := "/"%char.

(** [str.includes(c)] for a one-character needle. *)
Fixpoint includes (c : ascii) (s : string) : bool :=
  match s with
  | EmptyString => false
  | String x s' => Ascii.eqb x c || includes c s'
  end.

(** [str.split(c)] for a one-character separator. *)
Fixpoint split (sep : ascii) (s : string) : list string :=
  match s with
  | EmptyString => [EmptyString]
  | String c s' =>
      if Ascii.eqb c sep then EmptyString :: split sep s'
      else match split sep s' with
           | h :: t => String c h :: t
           | [] => [chr c]
           end
  end.

Fixpoint repeat_char (c : ascii) (n : nat) : string :=
  match n with
  | O => EmptyString
  | S k => String c (repeat_char c k)
  end.

(** [s.padStart(n, c)] for a one-character filler. *)
Definition padStart (n : nat) (c : ascii) (s : string) : string :=
  repeat_char c (n - String.length s) +:+ s.

(** *** Scanning numeric literals *)

Definition digit_value (c : ascii) : option Z :=
  let n := code c in
  if (48 <=? n) && (n <=? 57) then Some (n - 48)
  else if (97 <=? n) && (n <=? 102) then Some (n - 87)
  else if (65 <=? n) && (n <=? 70) then Some (n - 55)
  else None.

(** The longest prefix of digits below [radix]: its value on top of
    [acc], the number of digits read on top of [count], and the rest. *)
Fixpoint scan_digits (radix acc : Z) (count : nat) (s : string)
  : Z * nat * string :=
  match s with
  | EmptyString => (acc, count, s)
  | String c s' =>
      match digit_value c with
      | Some d =>
          if d <? radix then scan_digits radix (acc * radix + d) (S count) s'
          else (acc, count, s)
      | None => (acc, count, s)
      end
  end.

Definition pow10 (e : Z) : Q :=
  if 0 <=? e then inject_Z (10 ^ e) else / inject_Z (10 ^ (- e)).

(** An [ExponentPart], read only when it is complete. *)
Definition scan_exponent (s : string) : Z * string :=
  match s with
  | String c s1 =>
      if Ascii.eqb c "e" || Ascii.eqb c "E" then
        let '(sgn, s2) :=
          match s1 with
          | String x r =>
              if Ascii.eqb x "+" then (1, r)
              else if Ascii.eqb x "-" then (-1, r)
              else (1, s1)
          | EmptyString => (1, s1)
          end in
        let '(v, cnt, s3) := scan_digits 10 0 0 s2 in
        match cnt with
        | O => (0, s)
        | S _ => (sgn * v, s3)
        end
      else (0, s)
  | EmptyString => (0, s)
  end.

Fixpoint strip_prefix (p s : string) : option string :=
  match p, s with
  | EmptyString, _ => Some s
  | String a p', String b s' =>
      if Ascii.eqb a b then strip_prefix p' s' else None
  | String _ _, EmptyString => None
  end.

(** The longest prefix that is a [StrUnsignedDecimalLiteral]. *)
Definition scan_unsigned_decimal (s : string) : option (number * string) :=
  match strip_prefix "Infinity" s with
  | Some r => Some (PInf, r)
  | None =>
      let '(ip, ni, r1) := scan_digits 10 0 0 s in
      let '(m, nf, r2, dot) :=
        match r1 with
        | String c r =>
            if Ascii.eqb c "." then
              let '(m, nf, r2) := scan_digits 10 ip 0 r in (m, nf, r2, true)
            else (ip, O, r1, false)
        | EmptyString => (ip, O, r1, false)
        end in
      match ni, nf with
      | O, O => None
      | _, _ =>
          let '(e, r3) := scan_exponent r2 in
          Some (fin (inject_Z m * pow10 (e - Z.of_nat nf)), r3)
      end
  end.

(** The longest prefix that is a [StrDecimalLiteral]. *)
Definition scan_decimal (s : string) : option (number * string) :=
  match s with
  | String c r =>
      if Ascii.eqb c "+" then scan_unsigned_decimal r
      else if Ascii.eqb c "-" then
        match scan_unsigned_decimal r with
        | Some (v, r') => Some (num_neg v, r')
        | None => None
        end
      else scan_unsigned_decimal s
  | EmptyString => None
  end.

(** White space: the ASCII members of [StrWhiteSpaceChar]. *)
Definition is_space (c : ascii) : bool :=
  let n := code c in ((9 <=? n) && (n <=? 13)) || (n =? 32).

Fixpoint trim_start (s : string) : string :=
  match s with
  | String c s' => if is_space c then trim_start s' else s
  | EmptyString => s
  end.

Fixpoint trim_end (s : string) : string :=
  match s with
  | String c s' =>
      match trim_end s' with
      | EmptyString => if is_space c then EmptyString else chr c
      | t => String c t
      end
  | EmptyString => s
  end.

Definition trim (s : string) : string := trim_end (trim_start s).

(** A [NonDecimalIntegerLiteral]: [0x], [0o] or [0b] and digits. *)
Definition scan_radix (s : string) : option number :=
  match s with
  | String z (String x r) =>
      let radix :=
        if Ascii.eqb x "x" || Ascii.eqb x "X" then 16
        else if Ascii.eqb x "o" || Ascii.eqb x "O" then 8
        else if Ascii.eqb x "b" || Ascii.eqb x "B" then 2
        else 0 in
      if Ascii.eqb z "0" && (0 <? radix) then
        match scan_digits radix 0 0 r with
        | (v, S _, EmptyString) => Some (of_Z v)
        | _ => None
        end
      else None
  | _ => None
  end.

(** [Number(s)]: the whole trimmed string has to be a numeric literal;
    the empty string is zero. *)
Definition Number (s : string) : number :=
  match trim s with
  | EmptyString => of_Z 0
  | t =>
      match scan_decimal t with
      | Some (v, EmptyString) => v
      | _ =>
          match scan_radix t with
          | Some v => v
          | None => NaN
          end
      end
  end.

(** [parseFloat(s)]: the longest decimal literal after leading white
    space, [NaN] when there is none. *)
Definition parseFloat (s : string) : number :=
  match scan_decimal (trim_start s) with
  | Some (v, _) => v
  | None => NaN
  end.

End JSString.
Export JSString.

(** ** [Number::toString] *)

Module JSToString.

(** Decimal digits of a non-negative integer. *)
Definition digits (z : Z) : string :=
  NilEmpty.string_of_uint (N.to_uint (Z.to_N z)).

(** The least [j], at most [fuel] above the start, at which [b] divides
    [a * 10^j]. *)
Fixpoint decimal_scale (fuel : nat) (j a b : Z) : option Z :=
  if a mod b =? 0 then Some j
  else match fuel with
       | O => None
       | S f => decimal_scale f (j + 1) (a * 10) b
       end.

Fixpoint strip_zeros (fuel : nat) (s t : Z) : Z * Z :=
  match fuel with
  | O => (s, t)
  | S f => if s mod 10 =? 0 then strip_zeros f (s / 10) (t + 1) else (s, t)
  end.

(** The least [i], at most [fuel] above the start, at which
    [10^i * a >= b]. *)
Fixpoint leading_scale (fuel : nat) (i a b : Z) : Z :=
  if b <=? a then i
  else match fuel with
       | O => i
       | S f => leading_scale f (i + 1) (a * 10) b
       end.

(** The text of the value [ds * 10^(n - k)], where [ds] has [k] digits
    and no trailing zero. *)
Definition format_decimal (ds : string) (k n : Z) : string :=
  if (k <=? n) && (n <=? 21) then
    ds +:+ repeat_char "0" (Z.to_nat (n - k))
  else if (0 <? n) && (n <=? 21) then
    substring 0 (Z.to_nat n) ds +:+ "." +:+
    substring (Z.to_nat n) (Z.to_nat (k - n)) ds
  else if (-6 <? n) && (n <=? 0) then
    "0." +:+ repeat_char "0" (Z.to_nat (- n)) +:+ ds
  else
    let e := n - 1 in
    let es := (if 0 <=? e then "+" else "-") +:+ digits (Z.abs e) in
    if k =? 1 then ds +:+ "e" +:+ es
    else substring 0 1 ds +:+ "." +:+
         substring 1 (Z.to_nat (k - 1)) ds +:+ "e" +:+ es.

Definition format_scaled (s0 j : Z) : string :=
  let '(s, t) := strip_zeros (String.length (digits s0)) s0 0 in
  let ds := digits s in
  let k := Z.of_nat (String.length ds) in
  format_decimal ds k (k + t - j).

(** A positive rational [a / b].  An integer below 10^21 is printed as
    its digits, and any other value with a finite decimal expansion is
    printed exactly.  The remaining values are printed to 17
    significant digits; the program never prints one, as every number
    it prints is a parsed decimal literal plus an integer. *)
Definition positive_to_string (a b : Z) : string :=
  match decimal_scale (S (Z.to_nat (Z.log2 b))) 0 a b with
  | Some j =>
      if (j =? 0) && (a / b <? 10 ^ 21) then digits (a / b)
      else format_scaled (a * 10 ^ j / b) j
  | None =>
      let n :=
        if b <=? a then Z.of_nat (String.length (digits (a / b)))
        else 1 - leading_scale (S (Z.to_nat (Z.log2 b))) 0 a b in
      let j := 17 - n in
      let scaled :=
        if 0 <=? j then (2 * a * 10 ^ j + b) / (2 * b)
        else (2 * a + b * 10 ^ (- j)) / (2 * b * 10 ^ (- j)) in
      format_scaled scaled j
  end.

Definition number_to_string (n : number) : string :=
  match n with
  | NaN => "NaN"
  | PInf => "Infinity"
  | NInf => "-Infinity"
  | Fin q =>
      match Qnum q with
      | Z0 => "0"
      | Zpos a => positive_to_string (Zpos a) (Zpos (Qden q))
      | Zneg a => "-" +:+ positive_to_string (Zpos a) (Zpos (Qden q))
      end
  end.

End JSToString.
Export JSToString.

(** ** The part of [Date] that [getDaysInMonth] uses *)

Module JSDate.

(** [MakeFullYear]: the years 0 to 99 stand for 1900 to 1999. *)
Definition MakeFullYear (y : Z) : Z :=
  if (0 <=? y) && (y <=? 99) then 1900 + y else y.

Definition InLeapYear (y : Z) : bool :=
  ((y mod 4 =? 0) && negb (y mod 100 =? 0)) || (y mod 400 =? 0).

(** Days of the month with index [m] (0 is January) in year [y]. *)
Definition DaysInMonth (y m : Z) : Z :=
  if m =? 1 then (if InLeapYear y then 29 else 28)
  else if (m =? 3) || (m =? 5) || (m =? 8) || (m =? 10) then 30
  else 31.

(** Day number of the first of January of [y], counted from 1970. *)
Definition DayFromYear (y : Z) : Z :=
  365 * (y - 1970) + (y - 1969) / 4 - (y - 1901) / 100 + (y - 1601) / 400.

Fixpoint days_before (y : Z) (m : nat) : Z :=
  match m with
  | O => 0
  | S k => days_before y k + DaysInMonth y (Z.of_nat k)
  end.

(** [MakeDay year month date] for integer arguments. *)
Definition MakeDay (year month date : Z) : Z :=
  let ym := year + month / 12 in
  let mn := month mod 12 in
  DayFromYear ym + days_before ym (Z.to_nat mn) + date - 1.

(** [TimeClip]: a time value is at most 8.64e15 ms, that is 10^8 days,
    away from the epoch (the offset of the local time zone, less than
    a day, is left out). *)
Definition in_time_range (day : Z) : bool := Z.abs day <=? 100000000.

(** [new Date(year, month, 0).getDate()].  Day 0 of a month is the last
    day of the month before it, so the day of the month read back is
    the length of that month. *)
Definition last_day_before (year month : number) : number :=
  match year, month with
  | Fin y, Fin m =>
      let yr := MakeFullYear (trunc y) in
      let mi := trunc m in
      if in_time_range (MakeDay yr mi 0) then
        let ym := yr + (mi - 1) / 12 in
        let mn := (mi - 1) mod 12 in
        of_Z (DaysInMonth ym mn)
      else NaN
  | _, _ => NaN
  end.

End JSDate.
Export JSDate.

(** ** The business logic of [App.jsx] *)

Record factors := {
  HED : number;
  HEN : number;
  HEFD : number;
  HEFN : number;
  RN : number
}.

Definition FACTORS : factors := {|
  HED := Fin (5 # 4);
  HEN := Fin (7 # 4);
  HEFD := Fin (41 # 20);
  HEFN := Fin (51 # 20);
  RN := Fin (7 # 20)
|}.

Definition getDaysInMonth (year month : number) : number :=
  last_day_before year (num_add month (of_Z 1)).

(** ['mensual' | 'quincenal'] *)
Inductive payroll_type : Set := mensual | quincenal.

(** A period object [{start, end}]; the field [end] is spelled [end_]. *)
Record period := { start : string; end_ : string }.

(** [parts[i]].  A missing element is [undefined]; every use of a date
    component below ([!], [isNaN], [-], [<], [>]) treats [undefined] the
    way it treats [NaN], which stands for it here. *)
Definition idx (parts : list number) (i : nat) : number := nth i parts NaN.

(** The helper [parseDate] of [getPeriods].  Its argument is a string by
    typing, so the [typeof] guard is never taken. *)
Definition parseDate (str : string) : list number :=
  if includes hyphen str then
    let parts := map Number (split hyphen str) in
    if num_gt (idx parts 0) (of_Z 1000) then parts
    else [idx parts 2; idx parts 1; idx parts 0]
  else if includes slash str then
    let parts := map Number (split slash str) in
    [idx parts 2; idx parts 1; idx parts 0]
  else [of_Z 0; of_Z 0; of_Z 0].

(** The helper [fmt] of the loop, closed over [currentY] and [currentM]. *)
Definition fmt (currentY currentM d : number) : string :=
  number_to_string currentY +:+ "-" +:+
  padStart 2 "0" (number_to_string (num_add currentM (of_Z 1))) +:+ "-" +:+
  padStart 2 "0" (number_to_string d).

Section MonthWalk.

Variable type : payroll_type.
Variables sY startMonthIndex sD : number.
Variables eY endMonthIndex eD : number.

(** The condition of the [while]. *)
Definition walk_cond (currentY currentM : number) : bool :=
  num_lt currentY eY || (num_eq currentY eY && num_le currentM endMonthIndex).

Definition at_start (currentY currentM : number) : bool :=
  num_eq currentY sY && num_eq currentM startMonthIndex.

Definition at_end (currentY currentM : number) : bool :=
  num_eq currentY eY && num_eq currentM endMonthIndex.

(** The periods pushed by one pass through a month. *)
Definition walk_body (currentY currentM : number) (periods : list period)
  : list period :=
  let daysInMonth := getDaysInMonth currentY currentM in
  match type with
  | mensual =>
      let isFull := true in
      let isFull :=
        if at_start currentY currentM && num_gt sD (of_Z 1) then false
        else isFull in
      let isFull :=
        if at_end currentY currentM && num_lt eD daysInMonth then false
        else isFull in
      if isFull then
        periods ++ [{| start := fmt currentY currentM (of_Z 1);
                       end_ := fmt currentY currentM daysInMonth |}]
      else periods
  | quincenal =>
      let q1Valid := true in
      let q1Valid :=
        if at_start currentY currentM && num_gt sD (of_Z 1) then false
        else q1Valid in
      let q1Valid :=
        if at_end currentY currentM && num_lt eD (of_Z 15) then false
        else q1Valid in
      let periods :=
        if q1Valid then
          periods ++ [{| start := fmt currentY currentM (of_Z 1);
                         end_ := fmt currentY currentM (of_Z 15) |}]
        else periods in
      let q2Valid := true in
      let q2Valid :=
        if at_start currentY currentM && num_gt sD (of_Z 16) then false
        else q2Valid in
      let q2Valid :=
        if at_end currentY currentM && num_lt eD daysInMonth then false
        else q2Valid in
      if q2Valid then
        periods ++ [{| start := fmt currentY currentM (of_Z 16);
                       end_ := fmt currentY currentM daysInMonth |}]
      else periods
  end.

(** [currentM++], and the carry into [currentY]. *)
Definition advance (currentY currentM : number) : number * number :=
  let currentM := num_add currentM (of_Z 1) in
  if num_gt currentM (of_Z 11) then (num_add currentY (of_Z 1), of_Z 0)
  else (currentY, currentM).

Fixpoint walk (fuel : nat) (currentY currentM : number)
  (periods : list period) : option (list period) :=
  if walk_cond currentY currentM then
    match fuel with
    | O => None
    | S f =>
        let periods := walk_body currentY currentM periods in
        let '(y, m) := advance currentY currentM in
        walk f y m periods
    end
  else Some periods.

End MonthWalk.

(** A string is falsy when it is missing or empty. *)
Definition str_truthy (o : option string) : bool :=
  match o with
  | Some (String _ _) => true
  | _ => false
  end.

Definition getPeriods (fuel : nat) (startStr endStr : option string)
  (type : payroll_type) : option (list period) :=
  if negb (str_truthy startStr) || negb (str_truthy endStr) then Some []
  else
    let ps := parseDate (default "" startStr) in
    let pe := parseDate (default "" endStr) in
    let sY := idx ps 0 in let sM := idx ps 1 in let sD := idx ps 2 in
    let eY := idx pe 0 in let eM := idx pe 1 in let eD := idx pe 2 in
    if negb (truthy sY) || negb (truthy eY) || isNaN sY || isNaN eY
    then Some []
    else
      let startMonthIndex := num_sub sM (of_Z 1) in
      let endMonthIndex := num_sub eM (of_Z 1) in
      walk type sY startMonthIndex sD eY endMonthIndex eD
        fuel sY startMonthIndex [].

(** *** [calculateRetroactive] *)

(** The values held by the fields of the output objects. *)
Inductive value : Set :=
| VUndefined
| VString (s : string)
| VNumber (n : number).

(** A cell of the input row as a value. *)
Definition cell (o : option string) : value :=
  match o with
  | Some s => VString s
  | None => VUndefined
  end.

(** [parseFloat(data.X)]: a missing cell is converted to the text
    "undefined" first. *)
Definition parseFloat_cell (o : option string) : number :=
  parseFloat (default "undefined" o).

Record detail := {
  CEDULA : value;
  NOMBRE : value;
  CONCEPTO : string;
  DETALLE : string;
  VALOR_A_PAGAR : number
}.

Record ot_type := {
  key : string;
  factor : number;
  label : string;
  reportValKey : string;
  reportQtyKey : string
}.

Definition otMapping : list ot_type := [
  {| key := "HED_CANTIDAD";
     factor := HED FACTORS;
     label := "Retroactivo HE diurna";
     reportValKey := "Devengos Prestacionales - Hora Extra Diurna Ordinaria (1.25)";
     reportQtyKey := "Comprobante - Hora Extra Diurna Ordinaria (1.25)" |};
  {| key := "HEN_CANTIDAD";
     factor := HEN FACTORS;
     label := "Retroactivo HE nocturna";
     reportValKey := "Devengos Prestacionales - Hora Extra Nocturna (1.75)";
     reportQtyKey := "Comprobante - Hora Extra Nocturna (1.75)" |};
  {| key := "HEFD_CANTIDAD";
     factor := HEFD FACTORS;
     label := "Retroactivo HE festiva diurna";
     reportValKey := "Devengos Prestacionales - Hora Extra Diurna Dominical Y Festivos (2.05)";
     reportQtyKey := "Comprobante - Hora Extra Diurna Dominical y Festivos (2.05)" |};
  {| key := "HEFN_CANTIDAD";
     factor := HEFN FACTORS;
     label := "Retroactivo HE festiva nocturna";
     reportValKey := "Devengos Prestacionales - Hora Extra Nocturna Dominical Y Festivos (2.55)";
     reportQtyKey := "Comprobante - Hora Extra Nocturna Dominical Y Festivos (2.55)" |}
].

(** [array.forEach((x, index) => ...)] over a state that the callback
    updates. *)
Fixpoint forEach {A St : Type} (f : A → nat → St → St) (l : list A)
  (index : nat) (st : St) : St :=
  match l with
  | [] => st
  | x :: l' => forEach f l' (S index) (f x index st)
  end.

(** An element of a destructured array inside a template literal: a
    missing element prints as "undefined". *)
Definition part (parts : list string) (i : nat) : string :=
  nth i parts "undefined".

(** [formattedStartDate] of a period. *)
Definition formattedStartDate (p : period) : string :=
  let parts := split hyphen (start p) in
  let pY := part parts 0 in
  let pM := part parts 1 in
  let pD := part parts 2 in
  pD +:+ "/" +:+ pM +:+ "/" +:+ pY.

Section Calculate.

Variable data : gmap string string.
Variable payrollType : payroll_type.

Definition oldSalary : number :=
  num_or (parseFloat_cell (data !! "SUELDO_ANTERIOR")) (of_Z 0).

Definition newSalary : number :=
  num_or (parseFloat_cell (data !! "SUELDO_NUEVO")) (of_Z 0).

Definition baseDiff : number := num_sub newSalary oldSalary.

Definition salaryFactor : number :=
  match payrollType with
  | mensual => of_Z 1
  | quincenal => Fin (1 # 2)
  end.

Definition retroSalaryPerPeriod : number := num_mul baseDiff salaryFactor.

Definition hourlyDiff : number := num_div baseDiff (of_Z 240).

(** The object literal [summary] as it is created for a period. *)
Definition new_summary (p : period) : gmap string value :=
  <["Comprobante - Hora Extra Nocturna Dominical Y Festivos (2.55)" := VNumber (of_Z 0)]>
  (<["Devengos Prestacionales - Hora Extra Nocturna Dominical Y Festivos (2.55)" := VNumber (of_Z 0)]>
  (<["Comprobante - Hora Extra Nocturna (1.75)" := VNumber (of_Z 0)]>
  (<["Devengos Prestacionales - Hora Extra Nocturna (1.75)" := VNumber (of_Z 0)]>
  (<["Comprobante - Hora Extra Diurna Ordinaria (1.25)" := VNumber (of_Z 0)]>
  (<["Devengos Prestacionales - Hora Extra Diurna Ordinaria (1.25)" := VNumber (of_Z 0)]>
  (<["Comprobante - Hora Extra Diurna Dominical y Festivos (2.05)" := VNumber (of_Z 0)]>
  (<["Devengos Prestacionales - Hora Extra Diurna Dominical Y Festivos (2.05)" := VNumber (of_Z 0)]>
  (<["Devengos Prestacionales - Salario" := VNumber (of_Z 0)]>
  (<["Colaborador - Código de Ficha" :=
       VString (if str_truthy (data !! "CODIGO_FICHA_COLABORADOR")
                then default "" (data !! "CODIGO_FICHA_COLABORADOR")
                else "")]>
  (<["Colaborador - Número de Documento" := cell (data !! "CEDULA")]>
  (<["Colaborador - Nombre Completo" := cell (data !! "NOMBRE")]>
  (<["Comprobante - Período" := VString (formattedStartDate p)]> ∅)))))))))))).

(** The callback of [otMapping.forEach]. *)
Definition ot_step (type : ot_type) (_ : nat)
  (st : gmap string value * list detail) : gmap string value * list detail :=
  let '(summary, details) := st in
  let qty := num_or (parseFloat_cell (data !! key type)) (of_Z 0) in
  if num_gt qty (of_Z 0) then
    let value := num_mul (num_mul hourlyDiff (factor type)) qty in
    if num_gt value (of_Z 0) then
      let roundedVal := Math_round value in
      let summary :=
        if str_truthy (Some (reportValKey type)) then
          <[reportQtyKey type := VNumber qty]>
            (<[reportValKey type := VNumber roundedVal]> summary)
        else summary in
      (summary,
       details ++ [{| CEDULA := cell (data !! "CEDULA");
                      NOMBRE := cell (data !! "NOMBRE");
                      CONCEPTO := label type;
                      DETALLE := number_to_string qty +:+ " horas";
                      VALOR_A_PAGAR := roundedVal |}])
    else st
  else st.

(** The callback of [periods.forEach]. *)
Definition period_step (p : period) (index : nat)
  (st : list detail * list (gmap string value))
  : list detail * list (gmap string value) :=
  let '(details, summaries) := st in
  let summary := new_summary p in
  let '(summary, details) :=
    if num_gt retroSalaryPerPeriod (of_Z 0) then
      let val := Math_round retroSalaryPerPeriod in
      (<["Devengos Prestacionales - Salario" := VNumber val]> summary,
       details ++ [{| CEDULA := cell (data !! "CEDULA");
                      NOMBRE := cell (data !! "NOMBRE");
                      CONCEPTO := "Retroactivo sueldo";
                      DETALLE := "Periodo " +:+ formattedStartDate p;
                      VALOR_A_PAGAR := val |}])
    else (summary, details) in
  let '(summary, details) :=
    if Nat.eqb index 0 then forEach ot_step otMapping 0%nat (summary, details)
    else (summary, details) in
  (details, summaries ++ [summary]).

Definition calculateRetroactive (fuel : nat)
  : option (list detail * list (gmap string value)) :=
  match getPeriods fuel (data !! "FECHA_INICIO") (data !! "FECHA_FIN")
          payrollType with
  | None => None
  | Some periods =>
      if Nat.eqb (length periods) 0 then Some ([], [])
      else Some (forEach period_step periods 0%nat ([], []))
  end.

End Calculate.

(** ** Vocabulary of the specification *)

(** The code's own parser reads [s] as the date [y]-[m]-[d]. *)
Definition parses_as (s : string) (y m d : Z) : Prop :=
  parseDate s = [of_Z y; of_Z m; of_Z d].

(** Four-digit years and the twelve months. *)
Definition valid_month (y m : Z) : Prop := 1 ≤ y ≤ 9999 ∧ 1 ≤ m ≤ 12.

(** Last calendar day of month [m] (1 is January) of year [y]. *)
Definition last_day (y m : Z) : Z := DaysInMonth y (m - 1).

Definition valid_date (y m d : Z) : Prop :=
  valid_month y m ∧ 1 ≤ d ≤ last_day y m.

Definition next_month (ym : Z * Z) : Z * Z :=
  let '(y, m) := ym in if m =? 12 then (y + 1, 1) else (y, m + 1).

(** [n] consecutive calendar months, the first being [ym]. *)
Fixpoint months_from (n : nat) (ym : Z * Z) : list (Z * Z) :=
  match n with
  | O => []
  | S k => ym :: months_from k (next_month ym)
  end.

(** Number of calendar months from the start month to the end month,
    both included; none when the end month comes first. *)
Definition months_spanned (sy sm ey em : Z) : nat :=
  Z.to_nat ((ey - sy) * 12 + (em - sm) + 1).

Definition months_between (sy sm ey em : Z) : list (Z * Z) :=
  months_from (months_spanned sy sm ey em) (sy, sm).

(** The text of the date [y]-[m]-[d] as [fmt] writes it. *)
Definition iso (y m d : Z) : string := fmt (of_Z y) (of_Z (m - 1)) (of_Z d).

(** A period inside one calendar month. *)
Record cal_period := {
  cp_year : Z;
  cp_month : Z;
  cp_first : Z;
  cp_last : Z
}.

Definition render (c : cal_period) : period :=
  {| start := iso (cp_year c) (cp_month c) (cp_first c);
     end_ := iso (cp_year c) (cp_month c) (cp_last c) |}.

Definition whole_month (ym : Z * Z) : cal_period :=
  {| cp_year := ym.1; cp_month := ym.2;
     cp_first := 1; cp_last := last_day ym.1 ym.2 |}.

Definition first_half (ym : Z * Z) : cal_period :=
  {| cp_year := ym.1; cp_month := ym.2; cp_first := 1; cp_last := 15 |}.

Definition second_half (ym : Z * Z) : cal_period :=
  {| cp_year := ym.1; cp_month := ym.2;
     cp_first := 16; cp_last := last_day ym.1 ym.2 |}.

(** Dates in chronological order. *)
Definition date_lt (a b : Z * Z * Z) : Prop :=
  let '(y1, m1, d1) := a in
  let '(y2, m2, d2) := b in
  y1 < y2 ∨ (y1 = y2 ∧ (m1 < m2 ∨ (m1 = m2 ∧ d1 < d2))).

Definition cp_start (c : cal_period) : Z * Z * Z :=
  (cp_year c, cp_month c, cp_first c).

Definition cp_end (c : cal_period) : Z * Z * Z :=
  (cp_year c, cp_month c, cp_last c).



(** The period stays on one side of the 15th/16th boundary. *)
Definition within_half (c : cal_period) : Prop :=
  (1 ≤ cp_first c ∧ cp_last c ≤ 15) ∨
  (16 ≤ cp_first c ∧ cp_last c ≤ last_day (cp_year c) (cp_month c)).

(** What one pass of the loop pushes for the calendar month [ym], for a
    range from month [sm] of [sy] to month [em] of [ey]. *)
Definition emitted (type : payroll_type) (sy sm : Z) (sD : number)
  (ey em : Z) (eD : number) (ym : Z * Z) : list period :=
  walk_body type (of_Z sy) (of_Z (sm - 1)) sD (of_Z ey) (of_Z (em - 1)) eD
    (of_Z ym.1) (of_Z (ym.2 - 1)) [].

Definition is_month (y m : Z) (ym : Z * Z) : bool :=
  (ym.1 =? y) && (ym.2 =? m).


(** Monthly cycle: the range does not start after the first day of the
    month [ym] nor end before its last day. *)
Definition whole_month_kept (sy sm sd ey em ed : Z) (ym : Z * Z) : bool :=
  negb (is_month sy sm ym && (1 <? sd)) &&
  negb (is_month ey em ym && (ed <? last_day ym.1 ym.2)).

(** Semi-monthly cycle: the two candidates of the month [ym]. *)
Definition first_half_kept (sy sm sd ey em ed : Z) (ym : Z * Z) : bool :=
  negb ((is_month sy sm ym && (1 <? sd)) || (is_month ey em ym && (ed <? 15))).

Definition second_half_kept (sy sm sd ey em ed : Z) (ym : Z * Z) : bool :=
  negb ((is_month sy sm ym && (16 <? sd)) ||
        (is_month ey em ym && (ed <? last_day ym.1 ym.2))).

Definition halves (sy sm sd ey em ed : Z) (ym : Z * Z) : list cal_period :=
  (if first_half_kept sy sm sd ey em ed ym then [first_half ym] else []) ++
  (if second_half_kept sy sm sd ey em ed ym then [second_half ym] else []).

(** The periods of the month [ym] that the range keeps, per cycle. *)
Definition kept (type : payroll_type) (sy sm sd ey em ed : Z) (ym : Z * Z)
  : list cal_period :=
  match type with
  | mensual =>
      if whole_month_kept sy sm sd ey em ed ym then [whole_month ym] else []
  | quincenal => halves sy sm sd ey em ed ym
  end.

(** Position of a month on the time line. *)
Definition month_index (ym : Z * Z) : Z := ym.1 * 12 + ym.2.


(** *** The outputs of [calculateRetroactive], piece by piece *)

Section Pieces.

Variable data : gmap string string.
Variable payrollType : payroll_type.

(** The parsed worked quantity of an overtime category. *)
Definition qty (t : ot_type) : number :=
  num_or (parseFloat_cell (data !! key t)) (of_Z 0).

(** The overtime differential of a category before rounding. *)
Definition ot_value (t : ot_type) : number :=
  num_mul (num_mul (hourlyDiff data) (factor t)) (qty t).

(** The two guards in front of an overtime line. *)
Definition ot_emits (t : ot_type) : bool :=
  num_gt (qty t) (of_Z 0) && num_gt (ot_value t) (of_Z 0).

Definition ot_line (t : ot_type) : detail :=
  {| CEDULA := cell (data !! "CEDULA");
     NOMBRE := cell (data !! "NOMBRE");
     CONCEPTO := label t;
     DETALLE := number_to_string (qty t) +:+ " horas";
     VALOR_A_PAGAR := Math_round (ot_value t) |}.

Definition ot_lines : list detail :=
  flat_map (λ t, if ot_emits t then [ot_line t] else []) otMapping.

(** The fields an overtime category writes into a summary row. *)
Definition ot_fields (summary : gmap string value) (t : ot_type)
  : gmap string value :=
  if ot_emits t then
    if str_truthy (Some (reportValKey t)) then
      <[reportQtyKey t := VNumber (qty t)]>
        (<[reportValKey t := VNumber (Math_round (ot_value t))]> summary)
    else summary
  else summary.

(** The guard in front of a salary line. *)
Definition salary_emits : bool :=
  num_gt (retroSalaryPerPeriod data payrollType) (of_Z 0).

Definition salary_line (p : period) : detail :=
  {| CEDULA := cell (data !! "CEDULA");
     NOMBRE := cell (data !! "NOMBRE");
     CONCEPTO := "Retroactivo sueldo";
     DETALLE := "Periodo " +:+ formattedStartDate p;
     VALOR_A_PAGAR := Math_round (retroSalaryPerPeriod data payrollType) |}.

Definition salary_lines (p : period) : list detail :=
  if salary_emits then [salary_line p] else [].

(** The summary row of a period once its salary field is set. *)
Definition salary_summary (p : period) : gmap string value :=
  if salary_emits then
    <["Devengos Prestacionales - Salario" :=
        VNumber (Math_round (retroSalaryPerPeriod data payrollType))]>
      (new_summary data p)
  else new_summary data p.

Definition first_summary (p : period) : gmap string value :=
  fold_left ot_fields otMapping (salary_summary p).

End Pieces.


(** The currency and quantity fields of a summary row. *)
Definition amount_fields : list string :=
  "Devengos Prestacionales - Salario" ::
  flat_map (λ t, [reportValKey t; reportQtyKey t]) otMapping.

(** [DD/MM/YYYY] for a calendar date. *)
Definition dd_mm_yyyy (date : Z * Z * Z) : string :=
  let '(y, m, d) := date in
  padStart 2 "0" (digits d) +:+ "/" +:+ padStart 2 "0" (digits m) +:+ "/" +:+
  digits y.

(** *** Reading back the text of a date *)

Definition number_eqb (a b : number) : bool :=
  match a, b with
  | NaN, NaN | PInf, PInf | NInf, NInf => true
  | Fin x, Fin y => (Qnum x =? Qnum y) && Pos.eqb (Qden x) (Qden y)
  | _, _ => false
  end.

(** [Number] reads the digits of [z] back as [z], zero-padded or not. *)
Definition reads_back (z : Z) : bool :=
  number_eqb (Number (digits z)) (of_Z z) &&
  number_eqb (Number (padStart 2 "0" (digits z))) (of_Z z).

(** *** Sample rows *)

(** A raise of 100000 from January to February 2024, ten hours of day
    overtime and four of holiday night overtime. *)
Definition raise_of_100000 : gmap string string :=
  <["CEDULA" := "1"]> (<["NOMBRE" := "A"]>
  (<["SUELDO_ANTERIOR" := "1000000"]> (<["SUELDO_NUEVO" := "1100000"]>
  (<["FECHA_INICIO" := "2024-01-01"]> (<["FECHA_FIN" := "2024-02-29"]>
  (<["HED_CANTIDAD" := "10"]> (<["HEFN_CANTIDAD" := "4"]> ∅))))))).

(** A raise of 50 for January 2024 and one hour of day overtime. *)
Definition raise_of_50 : gmap string string :=
  <["CEDULA" := "1"]> (<["NOMBRE" := "A"]>
  (<["SUELDO_ANTERIOR" := "1000000"]> (<["SUELDO_NUEVO" := "1000050"]>
  (<["FECHA_INICIO" := "2024-01-01"]> (<["FECHA_FIN" := "2024-01-31"]>
  (<["HED_CANTIDAD" := "1"]> ∅)))))).


(** No raise, no overtime, January and February 2024. *)
Definition no_raise : gmap string string :=
  <["CEDULA" := "1"]> (<["NOMBRE" := "A"]>
  (<["SUELDO_ANTERIOR" := "1000000"]> (<["SUELDO_NUEVO" := "1000000"]>
  (<["FECHA_INICIO" := "2024-01-01"]> (<["FECHA_FIN" := "2024-02-29"]> ∅))))).

(** Dates written with month names, the start a year before the end. *)
Definition month_names : gmap string string :=
  <["CEDULA" := "1"]> (<["NOMBRE" := "A"]>
  (<["SUELDO_ANTERIOR" := "1000000"]> (<["SUELDO_NUEVO" := "1100000"]>
  (<["FECHA_INICIO" := "01-Dec-2023"]> (<["FECHA_FIN" := "31-Jan-2024"]>
  ∅))))).

(** *** The two small amounts in binary64 arithmetic

    The products that the sample rows [raise_of_50] and
    [raise_of_one_half] lead to, computed with the floating-point
    operations of the JavaScript engine. *)

Module Binary64.

Import Floats.

Definition ot_value_raise_of_50 : float :=
  ((1000050 - 1000000) / 240 * 1.25 * 1)%float.

Definition per_period_raise_of_one_half : float :=
  ((1000000.5 - 1000000) * 0.5)%float.

(** [Math.round] gives 0 on a value that is positive and below 0.5. *)
Definition rounds_to_zero (x : float) : bool :=
  (PrimFloat.ltb 0 x && PrimFloat.ltb x 0.5)%bool.

End Binary64.

(** ** The first revision of the calculator

    The file opens with an earlier revision of the business logic: a
    number of months instead of a date range, five overtime categories
    and no summary rows.  Its rows come from the form (texts) or from a
    sheet read without formatting (texts and numbers). *)

Module Revision1.

Definition FACTORS : factors := {|
  HED := Fin (5 # 4);
  HEN := Fin (7 # 4);
  HEFD := of_Z 2;
  HEFN := Fin (5 # 2);
  RN := Fin (7 # 20)
|}.

(** [ToString] on the values a cell can hold. *)
Definition ToString (v : value) : string :=
  match v with
  | VUndefined => "undefined"
  | VString s => s
  | VNumber n => number_to_string n
  end.

(** [data.X]: the value of a field, [undefined] when it is missing. *)
Definition field (o : option value) : value := default VUndefined o.

(** [parseFloat(data.X)] *)
Definition parseFloat_field (o : option value) : number :=
  parseFloat (ToString (field o)).

Record line := {
  CEDULA : value;
  NOMBRE : value;
  CONCEPTO : string;
  VALOR_A_PAGAR : number
}.

Record ot_kind := {
  key : string;
  factor : number;
  label : string
}.

Definition otTypes : list ot_kind := [
  {| key := "HED_CANTIDAD"; factor := HED FACTORS;
     label := "Retroactivo HE diurna" |};
  {| key := "HEN_CANTIDAD"; factor := HEN FACTORS;
     label := "Retroactivo HE nocturna" |};
  {| key := "HEFD_CANTIDAD"; factor := HEFD FACTORS;
     label := "Retroactivo HE festiva diurna" |};
  {| key := "HEFN_CANTIDAD"; factor := HEFN FACTORS;
     label := "Retroactivo HE festiva nocturna" |};
  {| key := "RN_CANTIDAD"; factor := RN FACTORS;
     label := "Retroactivo recargo nocturno" |}
].

Section Calculate.

Variable data : gmap string value.

Definition oldSalary : number :=
  num_or (parseFloat_field (data !! "SUELDO_ANTERIOR")) (of_Z 0).

Definition newSalary : number :=
  num_or (parseFloat_field (data !! "SUELDO_NUEVO")) (of_Z 0).

Definition months : number :=
  num_or (parseFloat_field (data !! "MESES_RETRO")) (of_Z 0).

Definition baseDiff : number := num_sub newSalary oldSalary.

Definition retroSalary : number := num_mul baseDiff months.

Definition hourlyDiff : number := num_div baseDiff (of_Z 240).

(** The callback of [otTypes.forEach]. *)
Definition ot_step (type : ot_kind) (_ : nat) (results : list line)
  : list line :=
  let qty := num_or (parseFloat_field (data !! key type)) (of_Z 0) in
  if num_gt qty (of_Z 0) then
    let value := num_mul (num_mul hourlyDiff (factor type)) qty in
    if num_gt value (of_Z 0) then
      results ++ [{| CEDULA := field (data !! "CEDULA");
                     NOMBRE := field (data !! "NOMBRE");
                     CONCEPTO := label type;
                     VALOR_A_PAGAR := Math_round value |}]
    else results
  else results.

Definition calculateRetroactive : list line :=
  let results := [] in
  let results :=
    if num_gt retroSalary (of_Z 0) then
      results ++ [{| CEDULA := field (data !! "CEDULA");
                     NOMBRE := field (data !! "NOMBRE");
                     CONCEPTO := "Retroactivo sueldo";
                     VALOR_A_PAGAR := Math_round retroSalary |}]
    else results in
  forEach ot_step otTypes 0%nat results.

End Calculate.

(** The lines of [calculateRetroactive], piece by piece. *)

Section Pieces.

Variable data : gmap string value.

Definition qty (t : ot_kind) : number :=
  num_or (parseFloat_field (data !! key t)) (of_Z 0).

Definition ot_value (t : ot_kind) : number :=
  num_mul (num_mul (hourlyDiff data) (factor t)) (qty t).

Definition ot_emits (t : ot_kind) : bool :=
  num_gt (qty t) (of_Z 0) && num_gt (ot_value t) (of_Z 0).

Definition ot_line (t : ot_kind) : line :=
  {| CEDULA := field (data !! "CEDULA");
     NOMBRE := field (data !! "NOMBRE");
     CONCEPTO := label t;
     VALOR_A_PAGAR := Math_round (ot_value t) |}.

Definition salary_emits : bool := num_gt (retroSalary data) (of_Z 0).

Definition salary_line : line :=
  {| CEDULA := field (data !! "CEDULA");
     NOMBRE := field (data !! "NOMBRE");
     CONCEPTO := "Retroactivo sueldo";
     VALOR_A_PAGAR := Math_round (retroSalary data) |}.

End Pieces.



End Revision1.

(** ** The handlers of the application

    The state of [App] that the handlers write, and the handlers as
    functions from the state before to the state after.  What the XLSX
    library makes of the chosen file is an input of
    [handleFileUpload]. *)

Module App.

Record state := {
  results : list detail;
  reportData : list (gmap string value);
  isProcessing : bool;
  error : option string;
  fieldErrors : gmap string bool
}.

(** The initial values of the [useState] hooks. *)
Definition initial : state := {|
  results := [];
  reportData := [];
  isProcessing := false;
  error := None;
  fieldErrors := ∅
|}.

(** [if (!formData.X) newErrors.X = true] *)
Definition require_field (formData : gmap string string) (k : string)
  (newErrors : gmap string bool) : gmap string bool :=
  if negb (str_truthy (formData !! k)) then <[k := true]> newErrors
  else newErrors.

(** [handleIndividualCalculate].  [calculateRetroactive] raises nothing, so
    the [catch] of the handler is never entered. *)
Definition handleIndividualCalculate (formData : gmap string string)
  (payrollType : payroll_type) (fuel : nat) (st : state) : option state :=
  let newErrors := ∅ in
  let newErrors := require_field formData "SUELDO_ANTERIOR" newErrors in
  let newErrors := require_field formData "SUELDO_NUEVO" newErrors in
  let newErrors := require_field formData "FECHA_INICIO" newErrors in
  let newErrors := require_field formData "FECHA_FIN" newErrors in
  if (0 <? size newErrors)%nat then
    Some {| results := results st; reportData := reportData st;
            isProcessing := isProcessing st; error := error st;
            fieldErrors := newErrors |}
  else
    match calculateRetroactive
            (<["CODIGO_FICHA_COLABORADOR" := "-"]>
               (<["NOMBRE" := "Simulación"]> (<["CEDULA" := "-"]> formData)))
            payrollType fuel with
    | None => None
    | Some (details, summaries) =>
        if Nat.eqb (length details) 0 then
          Some {| results := []; reportData := [];
                  isProcessing := isProcessing st;
                  error := Some "No se generaron resultados. Verifique que las fechas cubran periodos cerrados completos.";
                  fieldErrors := newErrors |}
        else
          Some {| results := details; reportData := summaries;
                  isProcessing := isProcessing st;
                  error := None;
                  fieldErrors := newErrors |}
    end.

(** What becomes of the chosen file before the rows are looked at. *)
Inductive file_outcome :=
| NoFile
| ReadError (message : string)
| Rows (jsonData : list (gmap string string)).

Definition requiredKeys : list string :=
  ["FECHA_INICIO"; "FECHA_FIN"; "SUELDO_ANTERIOR"; "SUELDO_NUEVO"].

(** [array.join(sep)] *)
Fixpoint join (sep : string) (l : list string) : string :=
  match l with
  | [] => ""
  | [x] => x
  | x :: l' => x +:+ sep +:+ join sep l'
  end.

(** [key in row] *)
Definition has_key (row : gmap string string) (k : string) : bool :=
  bool_decide (is_Some (row !! k)).

(** [jsonData.forEach(row => ...)]: the rows in order, the detail lines
    and the summary rows of each one pushed onto the two arrays. *)
Fixpoint each_row (payrollType : payroll_type) (fuel : nat)
  (jsonData : list (gmap string string))
  (all : list detail * list (gmap string value))
  : option (list detail * list (gmap string value)) :=
  match jsonData with
  | [] => Some all
  | row :: rest =>
      match calculateRetroactive row payrollType fuel with
      | None => None
      | Some (details, summaries) =>
          each_row payrollType fuel rest
            (all.1 ++ details, all.2 ++ summaries)
      end
  end.

(** The body of the [try] once the sheet is read: the message of the
    error thrown, or the two arrays and the message set. *)
Definition process (payrollType : payroll_type) (fuel : nat)
  (jsonData : list (gmap string string))
  : option (string + list detail * list (gmap string value)) :=
  if Nat.eqb (length jsonData) 0 then
    Some (inl "El archivo parece estar vacío o no se pudieron leer datos.")
  else if (10000 <? Z.of_nat (length jsonData)) then
    Some (inl "El archivo excede el límite de 10.000 filas.")
  else
    let firstRow := default ∅ (head jsonData) in
    let missingKeys :=
      List.filter (λ k, negb (has_key firstRow k)) requiredKeys in
    if (0 <? length missingKeys)%nat then
      Some (inl ("Faltan columnas requeridas en el archivo: " +:+
                 join ", " missingKeys +:+ ". Por favor use la plantilla."))
    else
      match each_row payrollType fuel jsonData ([], []) with
      | None => None
      | Some all => Some (inr all)
      end.

(** [err.message || "Error al procesar el archivo."] *)
Definition message_or_default (m : string) : string :=
  if str_truthy (Some m) then m else "Error al procesar el archivo.".

(** [handleFileUpload], from the state before to the state once the
    [finally] has run. *)
Definition handleFileUpload (file : file_outcome)
  (payrollType : payroll_type) (fuel : nat) (st : state) : option state :=
  match file with
  | NoFile => Some st
  | ReadError m =>
      Some {| results := []; reportData := []; isProcessing := false;
              error := Some (message_or_default m);
              fieldErrors := fieldErrors st |}
  | Rows jsonData =>
      match process payrollType fuel jsonData with
      | None => None
      | Some (inl m) =>
          Some {| results := []; reportData := []; isProcessing := false;
                  error := Some (message_or_default m);
                  fieldErrors := fieldErrors st |}
      | Some (inr (allDetails, allSummaries)) =>
          if Nat.eqb (length allDetails) 0 then
            Some {| results := []; reportData := []; isProcessing := false;
                    error := Some "El archivo se procesó pero no se generaron resultados. Verifique que las fechas tengan el formato correcto (AAAA-MM-DD o DD/MM/AAAA) y cubran periodos válidos.";
                    fieldErrors := fieldErrors st |}
          else
            Some {| results := allDetails; reportData := allSummaries;
                    isProcessing := false; error := None;
                    fieldErrors := fieldErrors st |}
      end
  end.



(** The columns of the template that [downloadTemplate] writes. *)
Definition templateHeaders : list string :=
  ["CEDULA"; "NOMBRE"; "CODIGO_FICHA_COLABORADOR"; "SUELDO_ANTERIOR";
   "SUELDO_NUEVO"; "FECHA_INICIO"; "FECHA_FIN"; "HED_CANTIDAD";
   "HEN_CANTIDAD"; "HEFD_CANTIDAD"; "HEFN_CANTIDAD"].




End App.

(** ** The calendar of the form

    [CustomCalendar.jsx], and the two [onChange] callbacks that [App]
    hands to it. *)

Module Calendar.

(** A [Date] as the component reads it: the year, the month index (0 is
    January) and the day of the month, in local time. *)
Record date := { getFullYear : Z; getMonth : Z; getDate : Z }.

(** The text of the payroll cycle held by the state of [App]. *)
Definition payroll_text (t : payroll_type) : string :=
  match t with
  | mensual => "mensual"
  | quincenal => "quincenal"
  end.

(** [checkPayrollValidation]: whether the day may be chosen.  The two
    blocks return inside; [None] stands for falling through. *)
Definition checkPayrollValidation (payrollType dateType : option string)
  (d : date) : bool :=
  if negb (str_truthy payrollType) || negb (str_truthy dateType) then true
  else
    let payrollType := default "" payrollType in
    let dateType := default "" dateType in
    let day := of_Z (getDate d) in
    let year := of_Z (getFullYear d) in
    let month := of_Z (getMonth d) in
    let lastDay := last_day_before year (num_add month (of_Z 1)) in
    let mensual_block :=
      if String.eqb payrollType "mensual" then
        if String.eqb dateType "start" then Some (num_eq day (of_Z 1))
        else if String.eqb dateType "end" then Some (num_eq day lastDay)
        else None
      else None in
    match mensual_block with
    | Some b => b
    | None =>
        let quincenal_block :=
          if String.eqb payrollType "quincenal" then
            if String.eqb dateType "start"
            then Some (num_eq day (of_Z 1) || num_eq day (of_Z 16))
            else if String.eqb dateType "end"
            then Some (num_eq day (of_Z 15) || num_eq day lastDay)
            else None
          else None in
        match quincenal_block with
        | Some b => b
        | None => true
        end
    end.

(** The text that the [onChange] callbacks of [App] store in
    [FECHA_INICIO] and [FECHA_FIN] for the day chosen. *)
Definition date_text (d : date) : string :=
  let year := of_Z (getFullYear d) in
  let month :=
    padStart 2 "0"
      (number_to_string (num_add (of_Z (getMonth d)) (of_Z 1))) in
  let day := padStart 2 "0" (number_to_string (of_Z (getDate d))) in
  number_to_string year +:+ "-" +:+ month +:+ "-" +:+ day.

(** A day of the calendar with a four-digit year that the parser of
    [getPeriods] reads year first. *)
Definition on_calendar (d : date) : Prop :=
  1000 < getFullYear d ≤ 9999 ∧ 0 ≤ getMonth d ≤ 11 ∧
  1 ≤ getDate d ≤ DaysInMonth (getFullYear d) (getMonth d).

(** The day as year, month (1 is January) and day of the month. *)
Definition ymd (d : date) : Z * Z * Z :=
  (getFullYear d, getMonth d + 1, getDate d).

(** [a] is the same day as [b] or an earlier one. *)
Definition not_after (a b : date) : Prop :=
  ymd a = ymd b ∨ date_lt (ymd a) (ymd b).

End Calendar.

(** ** Vocabulary of the further properties *)

(** An amount to pay: a whole number that is not negative, or
    [Infinity]. *)
Definition whole_amount (n : number) : Prop :=
  n = PInf ∨ ∃ z : Z, 0 ≤ z ∧ n = of_Z z.

(** The concepts a detail line can carry. *)
Definition concepts : list string :=
  "Retroactivo sueldo" :: map label otMapping.

(** A number that is not above zero: [NaN], minus infinity, zero or a
    negative value. *)
Definition not_positive (n : number) : Prop := num_gt n (of_Z 0) = false.

(** *** Further sample rows *)

(** A pay cut over January 2024, with ten hours of day overtime. *)
Definition pay_cut : gmap string string :=
  <["CEDULA" := "1"]> (<["NOMBRE" := "A"]>
  (<["SUELDO_ANTERIOR" := "1100000"]> (<["SUELDO_NUEVO" := "1000000"]>
  (<["FECHA_INICIO" := "2024-01-01"]> (<["FECHA_FIN" := "2024-01-31"]>
  (<["HED_CANTIDAD" := "10"]> ∅)))))).

(** A sheet of [n] copies of a row. *)
Definition sheet_of (n : nat) (row : gmap string string)
  : list (gmap string string) := repeat row n.

(** A row without the key of the end date. *)
Definition no_end_date : gmap string string :=
  <["CEDULA" := "1"]> (<["NOMBRE" := "A"]>
  (<["SUELDO_ANTERIOR" := "1000000"]> (<["SUELDO_NUEVO" := "1100000"]>
  (<["FECHA_INICIO" := "2024-01-01"]> ∅)))).


(** The row that [handleIndividualCalculate] builds from the form. *)
Definition form_row (formData : gmap string string) : gmap string string :=
  <["CODIGO_FICHA_COLABORADOR" := "-"]>
    (<["NOMBRE" := "Simulación"]> (<["CEDULA" := "-"]> formData)).

(** The days that open a period of the cycle, and those that close one
    in month [m] (1 is January) of year [y]. *)
Definition aligned_start (type : payroll_type) (d : Z) : Prop :=
  match type with
  | mensual => d = 1
  | quincenal => d = 1 ∨ d = 16
  end.

Definition aligned_end (type : payroll_type) (y m d : Z) : Prop :=
  match type with
  | mensual => d = last_day y m
  | quincenal => d = 15 ∨ d = last_day y m
  end.

(** ** The grid of the calendar

    The cells that [CustomCalendar] computes for the month on view.  A
    [Date] built from integers, [new Date(year, month, date)], is carried
    as the number of its day, counted from 1970 in local time; the month
    on view is a month of the years that [Date] covers. *)

Module CalendarGrid.

(** [new Date(year, month, date)] *)
Definition new_Date (year month date : Z) : Z :=
  MakeDay (MakeFullYear year) month date.

(** [getDay()]: the day of the week, 0 for Sunday. *)
Definition getDay (day : Z) : Z := (day + 4) mod 7.

(** [new Date(year, month, 0).getDate()]: day 0 of a month is the last
    day of the month before it. *)
Definition getDate_of_day_0 (year month : Z) : Z :=
  let yr := MakeFullYear year in
  DaysInMonth (yr + (month - 1) / 12) ((month - 1) mod 12).

Record day := { date : Z; isCurrentMonth : bool }.

(** [for (let i = n; i >= 0; i--)] *)
Definition count_down (n : Z) : list Z :=
  map (λ k, n - Z.of_nat k) (seq 0 (Z.to_nat (n + 1))).

(** [for (let i = 1; i <= n; i++)] *)
Definition count_up (n : Z) : list Z :=
  map (λ k, 1 + Z.of_nat k) (seq 0 (Z.to_nat n)).

(** The memoised [days] for the view on month [month] of [year]. *)
Definition days (year month : Z) : list day :=
  let firstDay := new_Date year month 1 in
  let lastDay_getDate := getDate_of_day_0 year (month + 1) in
  let daysInPrevMonth := getDay firstDay in
  let prevMonthLastDay := getDate_of_day_0 year month in
  let prevMonthDays :=
    map (λ i, {| date := new_Date year (month - 1) (prevMonthLastDay - i);
                 isCurrentMonth := false |})
      (count_down (daysInPrevMonth - 1)) in
  let currentMonthDays :=
    map (λ i, {| date := new_Date year month i; isCurrentMonth := true |})
      (count_up lastDay_getDate) in
  let totalDays :=
    Z.of_nat (length prevMonthDays) + Z.of_nat (length currentMonthDays) in
  let daysNeeded := 42 - totalDays in
  let nextMonthDays :=
    map (λ i, {| date := new_Date year (month + 1) i;
                 isCurrentMonth := false |})
      (count_up daysNeeded) in
  prevMonthDays ++ currentMonthDays ++ nextMonthDays.

(** The Sunday on which the week of a day begins. *)
Definition week_start (d : Z) : Z := d - getDay d.

(** Six weeks from a Sunday on, the days from [first] to [last] marked
    as those of the month on view. *)
Definition six_weeks (sunday first last : Z) : list day :=
  map (λ k, let d := sunday + Z.of_nat k in
            {| date := d; isCurrentMonth := (first <=? d) && (d <=? last) |})
    (seq 0 42).

End CalendarGrid.

(** ** Numbers that are integers *)

Section IntegerNumbers.

Lemma Qred_inject_Z (z : Z) : Qred (inject_Z z) = inject_Z z.
Proof. apply Qred_identity. simpl. apply Z.gcd_1_r. Qed.

Lemma num_add_of_Z (a b : Z) : num_add (of_Z a) (of_Z b) = of_Z (a + b).
Proof.
  unfold num_add, of_Z, fin. f_equal.
  rewrite <- (Qred_inject_Z (a + b)).
  apply Qred_complete. rewrite inject_Z_plus. reflexivity.
Qed.

Lemma num_sub_of_Z (a b : Z) : num_sub (of_Z a) (of_Z b) = of_Z (a - b).
Proof.
  unfold num_sub. change (num_neg (of_Z b)) with (fin (- inject_Z b)).
  unfold fin. rewrite <- inject_Z_opp, Qred_inject_Z.
  apply (num_add_of_Z a (- b)).
Qed.

Lemma num_lt_of_Z (a b : Z) : num_lt (of_Z a) (of_Z b) = (a <? b).
Proof.
  unfold num_lt, of_Z, Qltb, Qle_bool. simpl. rewrite !Z.mul_1_r.
  rewrite Z.ltb_antisym. reflexivity.
Qed.

Lemma num_gt_of_Z (a b : Z) : num_gt (of_Z a) (of_Z b) = (b <? a).
Proof. apply num_lt_of_Z. Qed.

Lemma num_eq_of_Z (a b : Z) : num_eq (of_Z a) (of_Z b) = (a =? b).
Proof.
  unfold num_eq, of_Z, Qeq_bool. simpl. rewrite !Z.mul_1_r. reflexivity.
Qed.

Lemma num_le_of_Z (a b : Z) : num_le (of_Z a) (of_Z b) = (a <=? b).
Proof.
  unfold num_le. rewrite num_lt_of_Z, num_eq_of_Z.
  destruct (Z.ltb_spec a b), (Z.eqb_spec a b), (Z.leb_spec a b);
    simpl; try reflexivity; lia.
Qed.

Lemma truthy_of_Z (a : Z) : truthy (of_Z a) = negb (a =? 0).
Proof.
  unfold truthy, of_Z, Qeq_bool. simpl. rewrite Z.mul_1_r. reflexivity.
Qed.

Lemma trunc_inject_Z (z : Z) : trunc (inject_Z z) = z.
Proof. unfold trunc. simpl. apply Z.quot_1_r. Qed.

End IntegerNumbers.

Create Rewrite HintDb of_Z.
#[global] Hint Rewrite num_add_of_Z num_sub_of_Z num_lt_of_Z num_gt_of_Z
  num_eq_of_Z num_le_of_Z truthy_of_Z trunc_inject_Z : of_Z.

(** ** The calendar *)

Section Calendar.

Lemma DaysInMonth_bounds (y m : Z) : 28 ≤ DaysInMonth y m ≤ 31.
Proof.
  unfold DaysInMonth.
  repeat match goal with |- context [if ?b then _ else _] => destruct b end;
    lia.
Qed.

Lemma last_day_bounds (y m : Z) : 28 ≤ last_day y m ≤ 31.
Proof. apply DaysInMonth_bounds. Qed.

Lemma days_before_bounds (y : Z) (k : nat) :
  0 ≤ days_before y k ≤ 31 * Z.of_nat k.
Proof.
  induction k as [|k IH]; simpl days_before; [lia|].
  pose proof (DaysInMonth_bounds y (Z.of_nat k)). lia.
Qed.

Lemma InLeapYear_two_digits (y : Z) :
  0 < y ≤ 99 → InLeapYear (1900 + y) = InLeapYear y.
Proof.
  intros Hy. unfold InLeapYear.
  replace ((1900 + y) mod 4) with (y mod 4)
    by (rewrite (Z.add_mod 1900 y 4) by lia;
        change (1900 mod 4) with 0; rewrite Z.add_0_l, Z.mod_mod; lia).
  replace ((1900 + y) mod 100) with (y mod 100)
    by (rewrite (Z.add_mod 1900 y 100) by lia;
        change (1900 mod 100) with 0; rewrite Z.add_0_l, Z.mod_mod; lia).
  assert (H1 : ((1900 + y) mod 400 =? 0) = false).
  { apply Z.eqb_neq. intros H.
    apply Z.mod_divide in H; [|lia]. destruct H as [k Hk]. lia. }
  assert (H2 : (y mod 400 =? 0) = false).
  { apply Z.eqb_neq. rewrite Z.mod_small; lia. }
  rewrite H1, H2. reflexivity.
Qed.

Lemma MakeFullYear_days (y m : Z) :
  0 < y → DaysInMonth (MakeFullYear y) m = DaysInMonth y m.
Proof.
  intros Hy. unfold MakeFullYear.
  destruct (Z.leb_spec 0 y); [|lia]. simpl.
  destruct (Z.leb_spec y 99); [|reflexivity].
  unfold DaysInMonth. rewrite InLeapYear_two_digits by lia. reflexivity.
Qed.

Lemma MakeFullYear_range (y : Z) :
  1 ≤ y ≤ 9999 → 1 ≤ MakeFullYear y ≤ 9999.
Proof.
  intros Hy. unfold MakeFullYear.
  destruct (Z.leb_spec 0 y), (Z.leb_spec y 99); simpl; lia.
Qed.

Lemma DayFromYear_bounds (y : Z) :
  1 ≤ y ≤ 10000 → -800000 ≤ DayFromYear y ≤ 3000000.
Proof.
  intros Hy. unfold DayFromYear.
  pose proof (Z.div_mod (y - 1969) 4 ltac:(lia)).
  pose proof (Z.mod_pos_bound (y - 1969) 4 ltac:(lia)).
  pose proof (Z.div_mod (y - 1901) 100 ltac:(lia)).
  pose proof (Z.mod_pos_bound (y - 1901) 100 ltac:(lia)).
  pose proof (Z.div_mod (y - 1601) 400 ltac:(lia)).
  pose proof (Z.mod_pos_bound (y - 1601) 400 ltac:(lia)).
  lia.
Qed.

Lemma MakeDay_in_range (y m : Z) :
  1 ≤ y ≤ 9999 → 1 ≤ m ≤ 12 → in_time_range (MakeDay y m 0) = true.
Proof.
  intros Hy Hm. unfold in_time_range, MakeDay.
  assert (Hq : 0 ≤ m / 12 ≤ 1).
  { split; [apply Z.div_pos; lia|].
    apply Z.div_le_upper_bound; lia. }
  pose proof (Z.mod_pos_bound m 12 ltac:(lia)) as Hr.
  pose proof (DayFromYear_bounds (y + m / 12) ltac:(lia)).
  pose proof (days_before_bounds (y + m / 12) (Z.to_nat (m mod 12))).
  apply Z.leb_le. lia.
Qed.

(** On a month of a four-digit year, [getDaysInMonth] is the length of
    that calendar month. *)
Lemma getDaysInMonth_of_Z (y m : Z) :
  valid_month y m →
  getDaysInMonth (of_Z y) (of_Z (m - 1)) = of_Z (last_day y m).
Proof.
  intros [Hy Hm]. unfold getDaysInMonth. rewrite num_add_of_Z.
  replace (m - 1 + 1) with m by lia.
  unfold last_day_before, of_Z at 1 2. rewrite !trunc_inject_Z.
  rewrite MakeDay_in_range by (auto using MakeFullYear_range).
  f_equal. rewrite Z.div_small, Z.mod_small, Z.add_0_r by lia.
  unfold last_day. rewrite MakeFullYear_days by lia. reflexivity.
Qed.

End Calendar.

(** ** The month walk on well-formed dates *)

Section WalkOnDates.

Variable type : payroll_type.
Variables sy sm ey em : Z.
Variables sD eD : number.

Lemma walk_body_app (sY sM eY eM cY cM : number) (acc : list period) :
  walk_body type sY sM sD eY eM eD cY cM acc =
  acc ++ walk_body type sY sM sD eY eM eD cY cM [].
Proof.
  unfold walk_body. destruct type;
    repeat match goal with |- context [if ?b then _ else _] => destruct b end;
    simpl; rewrite ?app_nil_r, <- ?app_assoc; reflexivity.
Qed.

Lemma advance_of_Z (y m : Z) :
  1 ≤ m ≤ 12 →
  advance (of_Z y) (of_Z (m - 1)) =
  (of_Z (next_month (y, m)).1, of_Z ((next_month (y, m)).2 - 1)).
Proof.
  intros Hm. unfold advance, next_month.
  rewrite num_add_of_Z, num_gt_of_Z, num_add_of_Z.
  replace (m - 1 + 1) with m by lia.
  destruct (Z.ltb_spec 11 m), (Z.eqb_spec m 12); try lia; simpl.
  - reflexivity.
  - do 2 f_equal. lia.
Qed.

Lemma walk_cond_of_Z (y m : Z) :
  walk_cond (of_Z ey) (of_Z (em - 1)) (of_Z y) (of_Z (m - 1)) =
  (y <? ey) || ((y =? ey) && (m <=? em)).
Proof.
  unfold walk_cond. rewrite num_lt_of_Z, num_eq_of_Z, num_le_of_Z.
  do 2 f_equal. destruct (Z.leb_spec (m - 1) (em - 1)), (Z.leb_spec m em);
    try reflexivity; lia.
Qed.

Lemma next_month_valid (y m : Z) :
  1 ≤ m ≤ 12 → 1 ≤ (next_month (y, m)).2 ≤ 12.
Proof. unfold next_month. destruct (Z.eqb_spec m 12); simpl; lia. Qed.

Lemma next_month_index (y m : Z) :
  1 ≤ m ≤ 12 →
  (next_month (y, m)).1 * 12 + (next_month (y, m)).2 = y * 12 + m + 1.
Proof. unfold next_month. destruct (Z.eqb_spec m 12); simpl; lia. Qed.

(** The loop visits the calendar months in order and stops after the end
    month, provided the fuel covers the months to visit. *)
Lemma walk_months (n : nat) :
  ∀ (fuel : nat) (y m : Z) (acc : list period),
    1 ≤ m ≤ 12 → 1 ≤ em ≤ 12 →
    n = Z.to_nat ((ey - y) * 12 + (em - m) + 1) →
    (n ≤ fuel)%nat →
    walk type (of_Z sy) (of_Z (sm - 1)) sD (of_Z ey) (of_Z (em - 1)) eD
      fuel (of_Z y) (of_Z (m - 1)) acc =
    Some (acc ++ flat_map (emitted type sy sm sD ey em eD) (months_from n (y, m))).
Proof.
  induction n as [|n IH]; intros fuel y m acc Hm Hem Hn Hfuel.
  - assert (Hc : (y <? ey) || ((y =? ey) && (m <=? em)) = false).
    { destruct (Z.ltb_spec y ey), (Z.eqb_spec y ey), (Z.leb_spec m em);
        simpl; try reflexivity; lia. }
    destruct fuel; simpl; rewrite walk_cond_of_Z, Hc, app_nil_r;
      reflexivity.
  - assert (Hc : (y <? ey) || ((y =? ey) && (m <=? em)) = true).
    { destruct (Z.ltb_spec y ey), (Z.eqb_spec y ey), (Z.leb_spec m em);
        simpl; try reflexivity; lia. }
    destruct fuel as [|fuel]; [lia|].
    simpl walk. rewrite walk_cond_of_Z, Hc.
    rewrite advance_of_Z by assumption.
    pose proof (next_month_valid y m Hm) as Hv.
    pose proof (next_month_index y m Hm) as Hi.
    destruct (next_month (y, m)) as [y' m'] eqn:Hnext. simpl in Hv, Hi.
    simpl fst; simpl snd.
    rewrite (IH fuel y' m'); [|assumption|assumption|lia|lia].
    rewrite walk_body_app. cbn [months_from flat_map].
    rewrite Hnext, <- app_assoc. reflexivity.
Qed.

Lemma months_from_valid (n : nat) :
  ∀ (y m : Z) (ym : Z * Z),
    1 ≤ y → 1 ≤ m ≤ 12 →
    y * 12 + m + Z.of_nat n ≤ ey * 12 + em + 1 →
    ey ≤ 9999 → 1 ≤ em ≤ 12 →
    In ym (months_from n (y, m)) → valid_month ym.1 ym.2.
Proof.
  induction n as [|n IH]; intros y m ym Hy Hm Hn Hey Hem Hin;
    [destruct Hin|].
  destruct Hin as [<-|Hin].
  - simpl. unfold valid_month. lia.
  - pose proof (next_month_valid y m Hm) as Hv.
    pose proof (next_month_index y m Hm) as Hi.
    destruct (next_month (y, m)) as [y' m'] eqn:Hnext. simpl in Hv, Hi.
    apply (IH y' m'); try assumption; lia.
Qed.

Lemma months_between_valid (ym : Z * Z) :
  valid_month sy sm → valid_month ey em →
  In ym (months_between sy sm ey em) → valid_month ym.1 ym.2.
Proof.
  intros [Hsy Hsm] [Hey Hem]. unfold months_between, months_spanned.
  destruct (Z.le_gt_cases ((ey - sy) * 12 + (em - sm) + 1) 0) as [Hz|Hz].
  - rewrite Z2Nat.nonpos by assumption. intros [].
  - apply months_from_valid; try lia.
Qed.

End WalkOnDates.

(** ** Segmentation of a range between two well-formed dates *)

Section SegmentOnDates.

Variables s e : string.
Variables sy sm sd ey em ed : Z.
Hypothesis Hs : parses_as s sy sm sd.
Hypothesis He : parses_as e ey em ed.
Hypothesis Hvs : valid_month sy sm.
Hypothesis Hve : valid_month ey em.

Lemma parsed_year_nonempty (str : string) (y m d : Z) :
  parses_as str y m d → 1 ≤ y → str_truthy (Some str) = true.
Proof.
  intros Hp Hy. destruct str; [|reflexivity].
  unfold parses_as in Hp. cbv [parseDate includes] in Hp.
  injection Hp as Hp _ _. lia.
Qed.

Lemma getPeriods_on_dates (type : payroll_type) (fuel : nat) :
  (months_spanned sy sm ey em ≤ fuel)%nat →
  getPeriods fuel (Some s) (Some e) type =
  Some (flat_map (emitted type sy sm (of_Z sd) ey em (of_Z ed))
          (months_between sy sm ey em)).
Proof.
  intros Hfuel. destruct Hvs as [Hsy Hsm], Hve as [Hey Hem].
  unfold getPeriods.
  rewrite (parsed_year_nonempty s sy sm sd), (parsed_year_nonempty e ey em ed)
    by (assumption || lia).
  cbn [negb orb]. unfold default, id.
  unfold parses_as in Hs, He. rewrite Hs, He. cbn [idx nth negb orb].
  rewrite !truthy_of_Z.
  destruct (Z.eqb_spec sy 0); [lia|]. destruct (Z.eqb_spec ey 0); [lia|].
  cbn [negb orb isNaN of_Z]. fold (of_Z sy). fold (of_Z ey).
  rewrite !num_sub_of_Z.
  rewrite (walk_months type sy sm ey em (of_Z sd) (of_Z ed)
             (months_spanned sy sm ey em)); try assumption; reflexivity.
Qed.

(** Monthly cycle, in the code's own terms. *)
Lemma emitted_mensual (ym : Z * Z) :
  valid_month ym.1 ym.2 →
  emitted mensual sy sm (of_Z sd) ey em (of_Z ed) ym =
  if negb (is_month sy sm ym && (1 <? sd)) &&
     negb (is_month ey em ym && (ed <? last_day ym.1 ym.2))
  then [render (whole_month ym)] else [].
Proof.
  intros Hv. destruct ym as [y m]. unfold emitted, walk_body, at_start, at_end.
  cbn [fst snd] in *. rewrite getDaysInMonth_of_Z by assumption.
  autorewrite with of_Z. unfold is_month.
  cbn [fst snd].
  replace (m - 1 =? sm - 1) with (m =? sm)
    by (destruct (Z.eqb_spec m sm), (Z.eqb_spec (m - 1) (sm - 1)); lia).
  replace (m - 1 =? em - 1) with (m =? em)
    by (destruct (Z.eqb_spec m em), (Z.eqb_spec (m - 1) (em - 1)); lia).
  destruct ((y =? sy) && (m =? sm) && (1 <? sd)),
    ((y =? ey) && (m =? em) && (ed <? last_day y m)); reflexivity.
Qed.

(** Semi-monthly cycle, in the code's own terms. *)
Lemma emitted_quincenal (ym : Z * Z) :
  valid_month ym.1 ym.2 →
  emitted quincenal sy sm (of_Z sd) ey em (of_Z ed) ym =
  map render (halves sy sm sd ey em ed ym).
Proof.
  intros Hv. destruct ym as [y m].
  unfold emitted, walk_body, at_start, at_end, halves,
    first_half_kept, second_half_kept.
  cbn [fst snd] in *. rewrite getDaysInMonth_of_Z by assumption.
  autorewrite with of_Z. unfold is_month.
  cbn [fst snd].
  replace (m - 1 =? sm - 1) with (m =? sm)
    by (destruct (Z.eqb_spec m sm), (Z.eqb_spec (m - 1) (sm - 1)); lia).
  replace (m - 1 =? em - 1) with (m =? em)
    by (destruct (Z.eqb_spec m em), (Z.eqb_spec (m - 1) (em - 1)); lia).
  destruct ((y =? sy) && (m =? sm)), ((y =? ey) && (m =? em)),
    (1 <? sd), (16 <? sd), (ed <? 15), (ed <? last_day y m); reflexivity.
Qed.

End SegmentOnDates.

(** ** Lists *)

Section ListFacts.

Context {A B : Type}.


Lemma flat_map_map_in {C : Type} (f : A → list B) (g : A → list C)
  (k : C → B) (l : list A) :
  (∀ x, In x l → f x = map k (g x)) →
  flat_map f l = map k (flat_map g l).
Proof.
  induction l as [|a l IH]; intros H; [reflexivity|].
  simpl. rewrite map_app, (H a) by (left; reflexivity).
  rewrite IH; [reflexivity|]. intros x Hx. apply H. right. exact Hx.
Qed.



End ListFacts.

(** ** The periods kept between two dates *)

Section KeptPeriods.

Variables s e : string.
Variables sy sm sd ey em ed : Z.
Hypothesis Hs : parses_as s sy sm sd.
Hypothesis He : parses_as e ey em ed.

Lemma is_month_true (y m : Z) (ym : Z * Z) :
  is_month y m ym = true → ym = (y, m).
Proof.
  destruct ym as [y' m']. unfold is_month. cbn [fst snd].
  intros [H1 H2]%andb_prop. f_equal; lia.
Qed.



Lemma emitted_kept (type : payroll_type) (ym : Z * Z) :
  valid_month ym.1 ym.2 →
  emitted type sy sm (of_Z sd) ey em (of_Z ed) ym =
  map render (kept type sy sm sd ey em ed ym).
Proof.
  intros Hv. destruct type.
  - rewrite (emitted_mensual sy sm sd ey em ed ym Hv).
    unfold kept, whole_month_kept.
    destruct (negb _ && negb _); reflexivity.
  - apply emitted_quincenal. exact Hv.
Qed.

Lemma getPeriods_kept (type : payroll_type) (fuel : nat) :
  valid_month sy sm → valid_month ey em →
  (months_spanned sy sm ey em ≤ fuel)%nat →
  getPeriods fuel (Some s) (Some e) type =
  Some (map render
          (flat_map (kept type sy sm sd ey em ed)
             (months_between sy sm ey em))).
Proof.
  intros Hvs Hve Hfuel.
  rewrite (getPeriods_on_dates s e sy sm sd ey em ed) by assumption.
  f_equal. apply flat_map_map_in. intros ym Hin.
  apply emitted_kept. apply (months_between_valid sy sm ey em); assumption.
Qed.

End KeptPeriods.

(** ** Order of the kept periods *)

Section Order.

Lemma months_from_index (n : nat) :
  ∀ (y m : Z) (ym : Z * Z),
    1 ≤ m ≤ 12 → In ym (months_from n (y, m)) →
    1 ≤ ym.2 ≤ 12 ∧ month_index (y, m) ≤ month_index ym.
Proof.
  induction n as [|n IH]; intros y m ym Hm Hin; [destruct Hin|].
  destruct Hin as [<-|Hin]; [cbn [fst snd]; lia|].
  pose proof (next_month_valid y m Hm) as Hv.
  pose proof (next_month_index y m Hm) as Hi.
  destruct (next_month (y, m)) as [y' m']. cbn [fst snd] in Hv, Hi.
  destruct (IH y' m' ym Hv Hin) as [H1 H2].
  unfold month_index in *. cbn [fst snd] in *. lia.
Qed.


Variables sy sm sd ey em ed : Z.

Lemma kept_in_month (type : payroll_type) (ym : Z * Z) (c : cal_period) :
  In c (kept type sy sm sd ey em ed ym) →
  cp_year c = ym.1 ∧ cp_month c = ym.2 ∧
  1 ≤ cp_first c ≤ cp_last c ∧ cp_last c ≤ last_day ym.1 ym.2 ∧
  (type = quincenal → within_half c).
Proof.
  pose proof (last_day_bounds ym.1 ym.2) as Hl.
  unfold kept, halves, within_half. destruct type.
  - destruct (whole_month_kept _ _ _ _ _ _ _); [|intros []].
    intros [<-|[]]. unfold whole_month. cbn [cp_year cp_month cp_first cp_last].
    repeat split; (lia || discriminate).
  - destruct (first_half_kept _ _ _ _ _ _ _),
      (second_half_kept _ _ _ _ _ _ _); cbn [app In];
      intros H; repeat destruct H as [<-|H]; try destruct H;
      unfold first_half, second_half;
      cbn [cp_year cp_month cp_first cp_last]; repeat split; lia.
Qed.





End Order.

(** ** The two [forEach] loops of [calculateRetroactive] in closed form *)

Section ClosedForm.

Variable data : gmap string string.
Variable payrollType : payroll_type.

Lemma forEach_ot_step (l : list ot_type) :
  ∀ (i : nat) (summary : gmap string value) (details : list detail),
    forEach (ot_step data) l i (summary, details) =
    (fold_left (ot_fields data) l summary,
     details ++ flat_map (λ t, if ot_emits data t then [ot_line data t] else [])
                  l).
Proof.
  induction l as [|t l IH]; intros i summary details.
  - simpl. rewrite app_nil_r. reflexivity.
  - cbn [forEach fold_left flat_map]. rewrite app_assoc, <- (IH (S i)). f_equal.
    unfold ot_step, ot_fields, ot_emits, ot_line.
    fold (qty data t). fold (ot_value data t).
    destruct (num_gt (qty data t) (of_Z 0)); cbn [andb];
      [destruct (num_gt (ot_value data t) (of_Z 0))|];
      rewrite ?app_nil_r; reflexivity.
Qed.

Lemma period_step_first (p : period) (details : list detail)
  (summaries : list (gmap string value)) :
  period_step data payrollType p 0 (details, summaries) =
  (details ++ salary_lines data payrollType p ++ ot_lines data,
   summaries ++ [first_summary data payrollType p]).
Proof.
  unfold period_step, salary_lines, first_summary, salary_summary, ot_lines.
  fold (salary_emits data payrollType).
  destruct (salary_emits data payrollType); cbn [Nat.eqb];
    rewrite forEach_ot_step; cbn [app]; rewrite <- ?app_assoc; reflexivity.
Qed.

Lemma period_step_later (p : period) (i : nat) (details : list detail)
  (summaries : list (gmap string value)) :
  period_step data payrollType p (S i) (details, summaries) =
  (details ++ salary_lines data payrollType p,
   summaries ++ [salary_summary data payrollType p]).
Proof.
  unfold period_step, salary_lines, salary_summary.
  fold (salary_emits data payrollType).
  destruct (salary_emits data payrollType); cbn [Nat.eqb];
    rewrite ?app_nil_r; reflexivity.
Qed.

Lemma forEach_period_step_later (l : list period) :
  ∀ (i : nat) (details : list detail) (summaries : list (gmap string value)),
    forEach (period_step data payrollType) l (S i) (details, summaries) =
    (details ++ flat_map (salary_lines data payrollType) l,
     summaries ++ map (salary_summary data payrollType) l).
Proof.
  induction l as [|p l IH]; intros i details summaries.
  - simpl. rewrite !app_nil_r. reflexivity.
  - cbn [forEach flat_map map]. rewrite period_step_later, IH.
    rewrite <- !app_assoc. reflexivity.
Qed.

(** The result of a call that found the periods [p :: rest]. *)
Lemma calculateRetroactive_closed (fuel : nat) (p : period)
  (rest : list period) :
  getPeriods fuel (data !! "FECHA_INICIO") (data !! "FECHA_FIN") payrollType
  = Some (p :: rest) →
  calculateRetroactive data payrollType fuel =
  Some (salary_lines data payrollType p ++ ot_lines data ++
        flat_map (salary_lines data payrollType) rest,
        first_summary data payrollType p ::
        map (salary_summary data payrollType) rest).
Proof.
  intros H. unfold calculateRetroactive. rewrite H.
  cbn [length Nat.eqb forEach].
  rewrite period_step_first, forEach_period_step_later.
  cbn [app]. rewrite <- app_assoc. reflexivity.
Qed.

End ClosedForm.

(** ** The fields of the summary rows *)

Section SummaryFields.

Variable data : gmap string string.
Variable payrollType : payroll_type.

Lemma new_summary_amount_field (p : period) (k : string) :
  In k amount_fields → new_summary data p !! k = Some (VNumber (of_Z 0)).
Proof.
  intros Hk. cbv [amount_fields otMapping flat_map app reportValKey
                    reportQtyKey] in Hk.
  repeat (destruct Hk as [<-|Hk]; [reflexivity|]). destruct Hk.
Qed.

Lemma salary_summary_period (p : period) :
  salary_summary data payrollType p !! "Comprobante - Período" =
  Some (VString (formattedStartDate p)).
Proof.
  unfold salary_summary. destruct (salary_emits data payrollType);
    reflexivity.
Qed.



Lemma ot_fields_other (s : gmap string value) (t : ot_type) (k : string) :
  reportValKey t ≠ k → reportQtyKey t ≠ k →
  ot_fields data s t !! k = s !! k.
Proof.
  intros Hv Hq. unfold ot_fields.
  destruct (ot_emits data t); [|reflexivity].
  destruct (str_truthy _); [|reflexivity].
  rewrite !lookup_insert_ne by assumption. reflexivity.
Qed.






Lemma first_summary_other (p : period) (k : string) :
  ¬ In k (flat_map (λ t, [reportValKey t; reportQtyKey t]) otMapping) →
  first_summary data payrollType p !! k =
  salary_summary data payrollType p !! k.
Proof.
  intros Hk. unfold first_summary.
  generalize (salary_summary data payrollType p).
  induction otMapping as [|t l IH]; intros s; [reflexivity|].
  cbn [fold_left]. cbn [flat_map app] in Hk.
  rewrite IH by (intros H; apply Hk; right; right; exact H).
  apply ot_fields_other; intros <-; apply Hk; cbn; tauto.
Qed.

End SummaryFields.

(** ** The lines of the detail list, by concept *)

Section DetailLines.

Variable data : gmap string string.
Variable payrollType : payroll_type.







Lemma flat_map_salary_lines (l : list period) :
  flat_map (salary_lines data payrollType) l =
  if salary_emits data payrollType
  then map (salary_line data payrollType) l else [].
Proof.
  unfold salary_lines. destruct (salary_emits data payrollType).
  - induction l as [|p l IH]; [reflexivity|]. simpl. rewrite IH. reflexivity.
  - induction l as [|p l IH]; [reflexivity|]. simpl. exact IH.
Qed.


End DetailLines.

(** ** The text of dates *)

Section DateText.

Lemma includes_append (c : ascii) (a b : string) :
  includes c (a +:+ b) = includes c a || includes c b.
Proof.
  induction a as [|x a IH]; [reflexivity|].
  simpl. rewrite IH. apply orb_assoc.
Qed.

Lemma split_append_sep (sep : ascii) (a b : string) :
  includes sep a = false →
  split sep (a +:+ String sep b) = a :: split sep b.
Proof.
  induction a as [|x a IH]; intros Ha.
  - simpl. rewrite Ascii.eqb_refl. reflexivity.
  - simpl in Ha. apply orb_false_elim in Ha as [Hx Ha].
    simpl. rewrite Hx, (IH Ha). reflexivity.
Qed.

Lemma split_no_sep (sep : ascii) (a : string) :
  includes sep a = false → split sep a = [a].
Proof.
  induction a as [|x a IH]; intros Ha; [reflexivity|].
  simpl in Ha. apply orb_false_elim in Ha as [Hx Ha].
  simpl. rewrite Hx, (IH Ha). reflexivity.
Qed.

Lemma string_of_uint_no_hyphen (u : Decimal.uint) :
  includes hyphen (NilEmpty.string_of_uint u) = false.
Proof. induction u; simpl; assumption || reflexivity. Qed.

Lemma digits_no_hyphen (z : Z) : includes hyphen (digits z) = false.
Proof. apply string_of_uint_no_hyphen. Qed.

Lemma repeat_zero_no_hyphen (n : nat) :
  includes hyphen (repeat_char "0" n) = false.
Proof. induction n as [|n IH]; [reflexivity|]. simpl. exact IH. Qed.

Lemma padStart_no_hyphen (s : string) :
  includes hyphen s = false → includes hyphen (padStart 2 "0" s) = false.
Proof.
  intros Hs. unfold padStart.
  rewrite includes_append, repeat_zero_no_hyphen, Hs. reflexivity.
Qed.

(** A positive integer below 10^21 is printed as its decimal digits. *)
Lemma number_to_string_of_Z (z : Z) :
  0 < z < 10 ^ 21 → number_to_string (of_Z z) = digits z.
Proof.
  intros Hz. unfold number_to_string, of_Z, inject_Z. cbn [Qnum Qden].
  destruct z as [|a|a]; try lia.
  unfold positive_to_string.
  change (Z.log2 1) with 0. cbn [Z.to_nat decimal_scale].
  rewrite Z.mod_1_r, Z.div_1_r. cbn [Z.eqb andb].
  destruct (Z.ltb_spec (Z.pos a) (10 ^ 21)); [reflexivity|lia].
Qed.

Lemma iso_text (y m d : Z) :
  0 < y < 10 ^ 21 → 0 < m < 10 ^ 21 → 0 < d < 10 ^ 21 →
  iso y m d =
  digits y +:+ "-" +:+ padStart 2 "0" (digits m) +:+ "-" +:+
  padStart 2 "0" (digits d).
Proof.
  intros Hy Hm Hd. unfold iso, fmt. rewrite num_add_of_Z.
  replace (m - 1 + 1) with m by lia.
  rewrite !number_to_string_of_Z by assumption. reflexivity.
Qed.


End DateText.

(** ** Reading dates back *)

Section ReadingBack.

Lemma number_eqb_eq (a b : number) : number_eqb a b = true → a = b.
Proof.
  destruct a as [| | |[xn xd]], b as [| | |[yn yd]]; simpl;
    try discriminate; try reflexivity.
  intros [Hn Hd]%andb_prop.
  apply Z.eqb_eq in Hn. apply Pos.eqb_eq in Hd. congruence.
Qed.

Lemma reads_back_four_digits :
  forallb reads_back (map Z.of_nat (seq 0 (Z.to_nat 10000))) = true.
Proof. vm_compute. reflexivity. Qed.

Lemma Number_digits (z : Z) :
  0 ≤ z ≤ 9999 →
  Number (digits z) = of_Z z ∧ Number (padStart 2 "0" (digits z)) = of_Z z.
Proof.
  intros Hz. pose proof reads_back_four_digits as H.
  rewrite forallb_forall in H. specialize (H z).
  assert (Hin : In z (map Z.of_nat (seq 0 (Z.to_nat 10000)))).
  { apply in_map_iff. exists (Z.to_nat z). split; [lia|].
    apply in_seq. lia. }
  apply H in Hin. unfold reads_back in Hin.
  apply andb_prop in Hin as [H1 H2].
  split; apply number_eqb_eq; assumption.
Qed.

Lemma string_of_uint_no_slash (u : Decimal.uint) :
  includes slash (NilEmpty.string_of_uint u) = false.
Proof. induction u; simpl; assumption || reflexivity. Qed.

Lemma padStart_digits_no_slash (z : Z) :
  includes slash (padStart 2 "0" (digits z)) = false.
Proof.
  unfold padStart. rewrite includes_append.
  unfold digits. rewrite string_of_uint_no_slash.
  destruct (2 - _)%nat as [|[|[|n]]]; try reflexivity.
  simpl. clear. induction n as [|n IH]; [reflexivity|]. simpl. exact IH.
Qed.

(** A date written [YYYY-MM-DD] with a year above 1000 is read as
    written. *)
Lemma iso_parses (y m d : Z) :
  1000 < y ≤ 9999 → 1 ≤ m ≤ 99 → 1 ≤ d ≤ 99 → parses_as (iso y m d) y m d.
Proof.
  intros Hy Hm Hd. unfold parses_as. rewrite iso_text by lia.
  unfold parseDate.
  change (?a +:+ "-" +:+ ?b) with (a +:+ String hyphen b).
  rewrite includes_append. replace (includes hyphen (String hyphen _)) with true
    by reflexivity.
  rewrite orb_true_r.
  rewrite split_append_sep by apply digits_no_hyphen.
  change (?a +:+ "-" +:+ ?b) with (a +:+ String hyphen b).
  rewrite split_append_sep by (apply padStart_no_hyphen, digits_no_hyphen).
  rewrite split_no_sep by (apply padStart_no_hyphen, digits_no_hyphen).
  cbn [map idx nth].
  destruct (Number_digits y ltac:(lia)) as [-> _].
  destruct (Number_digits m ltac:(lia)) as [_ ->].
  destruct (Number_digits d ltac:(lia)) as [_ ->].
  rewrite num_gt_of_Z. destruct (Z.ltb_spec 1000 y); [reflexivity|lia].
Qed.

(** A date written [DD/MM/YYYY] is read as written. *)
Lemma dd_mm_yyyy_parses (y m d : Z) :
  1 ≤ y ≤ 9999 → 1 ≤ m ≤ 99 → 1 ≤ d ≤ 99 →
  parses_as (dd_mm_yyyy (y, m, d)) y m d.
Proof.
  intros Hy Hm Hd. unfold parses_as, dd_mm_yyyy.
  destruct (Number_digits y ltac:(lia)) as [Ny _].
  destruct (Number_digits m ltac:(lia)) as [_ Nm].
  destruct (Number_digits d ltac:(lia)) as [_ Nd].
  pose proof (padStart_no_hyphen _ (digits_no_hyphen d)) as Hd1.
  pose proof (padStart_no_hyphen _ (digits_no_hyphen m)) as Hm1.
  pose proof (digits_no_hyphen y) as Hy1.
  pose proof (padStart_digits_no_slash d) as Hd2.
  pose proof (padStart_digits_no_slash m) as Hm2.
  pose proof (string_of_uint_no_slash (N.to_uint (Z.to_N y))) as Hy2.
  fold (digits y) in Hy2.
  set (D := padStart 2 "0" (digits d)) in *.
  set (M := padStart 2 "0" (digits m)) in *.
  set (Y := digits y) in *.
  change (D +:+ "/" +:+ M +:+ "/" +:+ Y)
    with (D +:+ String slash (M +:+ String slash Y)).
  unfold parseDate.
  rewrite !includes_append. cbn [includes]. rewrite !includes_append.
  cbn [includes]. rewrite Hd1, Hm1, Hy1, Hd2, Ascii.eqb_refl.
  change (Ascii.eqb slash hyphen) with false. cbn [orb].
  rewrite !split_append_sep, (split_no_sep slash Y) by assumption.
  cbn [map idx nth]. rewrite Ny, Nm, Nd. reflexivity.
Qed.

End ReadingBack.

(** ** Signs *)

Section Signs.

Lemma num_gt_fin_zero (q : Q) : num_gt (Fin q) (of_Z 0) = false → (q <= 0)%Q.
Proof.
  unfold num_gt, num_lt, of_Z, Qltb. intros H.
  apply negb_false_iff in H. apply Qle_bool_iff in H. exact H.
Qed.

Lemma fin_not_positive (q : Q) : (q <= 0)%Q → num_gt (fin q) (of_Z 0) = false.
Proof.
  intros H. unfold num_gt, num_lt, of_Z, fin, Qltb.
  apply negb_false_iff, Qle_bool_iff. rewrite Qred_correct. exact H.
Qed.

(** A salary difference that is not positive gives a per-period amount
    that is not positive. *)
Lemma salary_emits_false (data : gmap string string) (type : payroll_type) :
  num_gt (baseDiff data) (of_Z 0) = false → salary_emits data type = false.
Proof.
  unfold salary_emits, retroSalaryPerPeriod, salaryFactor.
  destruct (baseDiff data) as [| | |q]; intros H.
  - destruct type; reflexivity.
  - discriminate H.
  - destruct type; reflexivity.
  - apply num_gt_fin_zero in H.
    destruct type; unfold num_mul, of_Z; apply fin_not_positive.
    + rewrite Qmult_1_r. exact H.
    + apply (Qle_trans _ (0 * (1 # 2))); [|discriminate].
      apply Qmult_le_compat_r; [exact H|discriminate].
Qed.

(** A quantity of zero stops the overtime line of its category. *)
Lemma ot_emits_zero (data : gmap string string) (t : ot_type) :
  qty data t = of_Z 0 → ot_emits data t = false.
Proof. unfold ot_emits. intros ->. reflexivity. Qed.

(** Categories that emit nothing leave the row and the list alone. *)
Lemma no_overtime (data : gmap string string) (l : list ot_type) :
  Forall (λ t, ot_emits data t = false) l →
  ∀ s : gmap string value,
    fold_left (ot_fields data) l s = s ∧
    flat_map (λ t, if ot_emits data t then [ot_line data t] else []) l = [].
Proof.
  induction 1 as [|t l Ht _ IH]; intros s; [split; reflexivity|].
  cbn [fold_left flat_map]. unfold ot_fields at 2. rewrite Ht.
  destruct (IH s) as [-> ->]. split; reflexivity.
Qed.

End Signs.

(** ** Rows that agree outside one column *)

Section Agreement.

Variables d1 d2 : gmap string string.
Variable column : string.
Hypothesis agree : ∀ k : string, k ≠ column → d1 !! k = d2 !! k.
Hypothesis unused :
  Forall (λ k, k ≠ column)
    ["SUELDO_ANTERIOR"; "SUELDO_NUEVO"; "FECHA_INICIO"; "FECHA_FIN";
     "CEDULA"; "NOMBRE"; "CODIGO_FICHA_COLABORADOR"].
Hypothesis unused_ot : Forall (λ t, key t ≠ column) otMapping.

Lemma agree_on (k : string) :
  In k ["SUELDO_ANTERIOR"; "SUELDO_NUEVO"; "FECHA_INICIO"; "FECHA_FIN";
        "CEDULA"; "NOMBRE"; "CODIGO_FICHA_COLABORADOR"] →
  d1 !! k = d2 !! k.
Proof.
  intros Hk. apply agree. rewrite List.Forall_forall in unused.
  apply unused. exact Hk.
Qed.

Lemma baseDiff_agree : baseDiff d1 = baseDiff d2.
Proof.
  unfold baseDiff, newSalary, oldSalary.
  rewrite (agree_on "SUELDO_ANTERIOR"), (agree_on "SUELDO_NUEVO")
    by (cbn; tauto).
  reflexivity.
Qed.

Lemma new_summary_agree (p : period) : new_summary d1 p = new_summary d2 p.
Proof.
  unfold new_summary.
  rewrite (agree_on "CEDULA"), (agree_on "NOMBRE"),
    (agree_on "CODIGO_FICHA_COLABORADOR") by (cbn; tauto).
  reflexivity.
Qed.

Lemma ot_step_agree (t : ot_type) (i : nat)
  (st : gmap string value * list detail) :
  key t ≠ column → ot_step d1 t i st = ot_step d2 t i st.
Proof.
  intros Ht. unfold ot_step, hourlyDiff.
  rewrite baseDiff_agree, (agree (key t) Ht),
    (agree_on "CEDULA"), (agree_on "NOMBRE") by (cbn; tauto).
  reflexivity.
Qed.

Lemma forEach_ot_step_agree (l : list ot_type) :
  Forall (λ t, key t ≠ column) l →
  ∀ (i : nat) (st : gmap string value * list detail),
    forEach (ot_step d1) l i st = forEach (ot_step d2) l i st.
Proof.
  induction 1 as [|t l Ht Hl IH]; intros i st; [reflexivity|].
  cbn [forEach]. rewrite (ot_step_agree t i st Ht). apply IH.
Qed.

Lemma period_step_agree (type : payroll_type) (p : period) (i : nat)
  (st : list detail * list (gmap string value)) :
  period_step d1 type p i st = period_step d2 type p i st.
Proof.
  unfold period_step, retroSalaryPerPeriod.
  rewrite baseDiff_agree, new_summary_agree,
    (agree_on "CEDULA"), (agree_on "NOMBRE") by (cbn; tauto).
  destruct st as [details summaries].
  destruct (num_gt _ _); destruct (Nat.eqb i 0);
    rewrite ?(forEach_ot_step_agree otMapping unused_ot); reflexivity.
Qed.

Lemma forEach_period_step_agree (type : payroll_type) (l : list period) :
  ∀ (i : nat) (st : list detail * list (gmap string value)),
    forEach (period_step d1 type) l i st =
    forEach (period_step d2 type) l i st.
Proof.
  induction l as [|p l IH]; intros i st; [reflexivity|].
  cbn [forEach]. rewrite period_step_agree. apply IH.
Qed.

Lemma calculateRetroactive_agree (type : payroll_type) (fuel : nat) :
  calculateRetroactive d1 type fuel = calculateRetroactive d2 type fuel.
Proof.
  unfold calculateRetroactive.
  rewrite (agree_on "FECHA_INICIO"), (agree_on "FECHA_FIN") by (cbn; tauto).
  destruct (getPeriods _ _ _ _) as [periods|]; [|reflexivity].
  destruct (Nat.eqb _ _); [reflexivity|].
  rewrite forEach_period_step_agree. reflexivity.
Qed.

End Agreement.

(** ** The embedding on the examples of the specification *)

Section Examples.

Example parseDate_iso : parseDate "2024-01-31" = [of_Z 2024; of_Z 1; of_Z 31].
Proof. reflexivity. Qed.

Example parseDate_slashes :
  parseDate "31/01/2024" = [of_Z 2024; of_Z 1; of_Z 31].
Proof. reflexivity. Qed.

Example parseDate_day_first_hyphens :
  parseDate "31-01-2024" = [of_Z 2024; of_Z 1; of_Z 31].
Proof. reflexivity. Qed.

Example parseDate_unparseable : parseDate "tomorrow" = [of_Z 0; of_Z 0; of_Z 0].
Proof. reflexivity. Qed.

Example february_2024 :
  getPeriods 1 (Some "2024-02-01") (Some "2024-02-29") mensual =
  Some [ {| start := "2024-02-01"; end_ := "2024-02-29" |} ].
Proof. vm_compute. reflexivity. Qed.

Example february_2023 :
  getDaysInMonth (of_Z 2023) (of_Z 1) = of_Z 28 ∧
  getDaysInMonth (of_Z 1900) (of_Z 1) = of_Z 28 ∧
  getDaysInMonth (of_Z 2000) (of_Z 1) = of_Z 29.
Proof. repeat split; vm_compute; reflexivity. Qed.

Example unaligned_range :
  getPeriods 1 (Some "2024-02-05") (Some "2024-02-20") mensual = Some [] ∧
  calculateRetroactive
    (<["FECHA_INICIO" := "2024-02-05"]>
       (<["FECHA_FIN" := "2024-02-20"]> raise_of_100000)) mensual 1
  = Some ([], []).
Proof. split; vm_compute; reflexivity. Qed.

Example unparseable_dates :
  getPeriods 0 (Some "tomorrow") (Some "2024-02-20") mensual = Some [] ∧
  getPeriods 0 None (Some "2024-02-20") quincenal = Some [] ∧
  getPeriods 0 (Some "2024-03-01") (Some "2024-01-31") mensual = Some [].
Proof. repeat split; vm_compute; reflexivity. Qed.

Example january_monthly :
  option_map fst
    (calculateRetroactive
       (<["FECHA_FIN" := "2024-01-31"]>
          (delete "HEFN_CANTIDAD" raise_of_100000)) mensual 1) =
  Some [ {| CEDULA := VString "1"; NOMBRE := VString "A";
            CONCEPTO := "Retroactivo sueldo";
            DETALLE := "Periodo 01/01/2024";
            VALOR_A_PAGAR := of_Z 100000 |};
         {| CEDULA := VString "1"; NOMBRE := VString "A";
            CONCEPTO := "Retroactivo HE diurna";
            DETALLE := "10 horas";
            VALOR_A_PAGAR := of_Z 5208 |} ].
Proof. vm_compute. reflexivity. Qed.

Example january_first_half :
  option_map fst
    (calculateRetroactive
       (<["FECHA_FIN" := "2024-01-15"]>
          (delete "HED_CANTIDAD" (delete "HEFN_CANTIDAD" raise_of_100000)))
       quincenal 1) =
  Some [ {| CEDULA := VString "1"; NOMBRE := VString "A";
            CONCEPTO := "Retroactivo sueldo";
            DETALLE := "Periodo 01/01/2024";
            VALOR_A_PAGAR := of_Z 50000 |} ].
Proof. vm_compute. reflexivity. Qed.

Example number_texts :
  map number_to_string
    [of_Z 0; of_Z 2024; Fin (25 # 2); Fin (1 # 8); Fin (1 # 10000000); NaN]
  = ["0"; "2024"; "12.5"; "0.125"; "1e-7"; "NaN"].
Proof. vm_compute. reflexivity. Qed.

Example number_parsing :
  map Number ["2024"; " 07 "; ""; "Dec"; "1e3"; "0x1F"; "12px"] =
  [of_Z 2024; of_Z 7; of_Z 0; NaN; of_Z 1000; of_Z 31; NaN] ∧
  map parseFloat ["1100000"; "12.5 h"; ""; "undefined"; "1e"; "-3.25"] =
  [of_Z 1100000; Fin (25 # 2); NaN; NaN; of_Z 1; Fin (-13 # 4)].
Proof. split; vm_compute; reflexivity. Qed.

Example summaries_without_details :
  option_map fst (calculateRetroactive no_raise mensual 2) = Some [] ∧
  option_map (length ∘ snd) (calculateRetroactive no_raise mensual 2) =
  Some 2%nat.
Proof. split; vm_compute; reflexivity. Qed.

(** The two amounts that round to zero do so in binary64 as well. *)
Example small_amounts_binary64 :
  Binary64.rounds_to_zero Binary64.ot_value_raise_of_50 = true ∧
  Binary64.rounds_to_zero Binary64.per_period_raise_of_one_half = true.
Proof. split; vm_compute; reflexivity. Qed.

End Examples.

(** ** Properties of the period segmenter *)

Ltac date_facts :=
  unfold valid_date, valid_month, last_day, DaysInMonth, parses_as;
  repeat split; try (vm_compute; congruence);
  try (unfold months_spanned; vm_compute; lia).











(** *** A month that is not a number *)

(** Once the month counter is [NaN] it stays [NaN], the year is never
    advanced, and the loop goes on for as long as the current year is
    below the end year. *)
Lemma walk_NaN_month (type : payroll_type) (sY sM sD eY eM eD y : number) :
  num_lt y eY = true →
  ∀ (fuel : nat) (periods : list period),
    walk type sY sM sD eY eM eD fuel y NaN periods = None.
Proof.
  intros Hlt fuel. induction fuel as [|fuel IH]; intros periods.
  - simpl. unfold walk_cond. rewrite Hlt. reflexivity.
  - simpl. unfold walk_cond. rewrite Hlt. cbn [orb].
    unfold advance. cbn [num_add num_gt num_lt]. apply IH.
Qed.

(** C4 fails on the code.  With dates that carry month names, a start
    year below the end year and either cycle, [getPeriods] never returns,
    however long it runs, and neither does [calculateRetroactive] on a
    row with these dates. *)
Theorem malformed_month_never_returns (type : payroll_type) (fuel : nat) :
  parseDate "01-Dec-2023" = [of_Z 2023; NaN; of_Z 1] ∧
  getPeriods fuel (Some "01-Dec-2023") (Some "31-Jan-2024") type = None ∧
  calculateRetroactive month_names type fuel = None.
Proof.
  assert (H : getPeriods fuel (Some "01-Dec-2023") (Some "31-Jan-2024") type
              = None).
  { unfold getPeriods.
    change (parseDate "01-Dec-2023") with [of_Z 2023; NaN; of_Z 1].
    change (parseDate "31-Jan-2024") with [of_Z 2024; NaN; of_Z 31].
    cbn -[walk]. apply walk_NaN_month. reflexivity. }
  split; [reflexivity|]. split; [exact H|].
  unfold calculateRetroactive.
  change (month_names !! "FECHA_INICIO") with (Some "01-Dec-2023").
  change (month_names !! "FECHA_FIN") with (Some "31-Jan-2024").
  rewrite H. reflexivity.
Qed.

(** ** Properties of the adjustment calculator *)










(** C9.  The night surcharge is not part of the calculation: no entry of
    the overtime table reads the column RN_CANTIDAD or carries the factor
    0.35, and two rows that agree on every column but RN_CANTIDAD give
    the same result, detail lines and summary rows alike. *)
Theorem night_surcharge_not_used (d1 d2 : gmap string string)
  (type : payroll_type) (fuel : nat) :
  (∀ k : string, k ≠ "RN_CANTIDAD" → d1 !! k = d2 !! k) →
  calculateRetroactive d1 type fuel = calculateRetroactive d2 type fuel ∧
  Forall (λ t, key t ≠ "RN_CANTIDAD" ∧ factor t ≠ RN FACTORS) otMapping.
Proof.
  intros Hagree. split.
  - apply (calculateRetroactive_agree d1 d2 "RN_CANTIDAD" Hagree);
      repeat (apply List.Forall_cons || apply List.Forall_nil); discriminate.
  - repeat (apply List.Forall_cons || apply List.Forall_nil);
      split; discriminate.
Qed.

Lemma night_surcharge_not_used_witness :
  calculateRetroactive raise_of_100000 mensual 2 =
  calculateRetroactive (<["RN_CANTIDAD" := "8"]> raise_of_100000) mensual 2 ∧
  Forall (λ t, key t ≠ "RN_CANTIDAD" ∧ factor t ≠ RN FACTORS) otMapping.
Proof.
  apply (night_surcharge_not_used raise_of_100000
           (<["RN_CANTIDAD" := "8"]> raise_of_100000) mensual 2).
  intros k Hk. symmetry. apply lookup_insert_ne. congruence.
Defined.

(** C10.  Whenever the range segments into N >= 1 periods,
    [calculateRetroactive] returns N summary rows, the i-th carrying the
    start of the i-th period, each created with zero in its nine currency
    and quantity fields.  When the salary difference is zero or negative
    and the four overtime quantities are zero, no field is overwritten
    and the detail list is empty, next to the N summary rows. *)
Theorem one_summary_row_per_period (data : gmap string string)
  (type : payroll_type) (fuel : nat) (periods : list period) :
  getPeriods fuel (data !! "FECHA_INICIO") (data !! "FECHA_FIN") type
  = Some periods →
  periods ≠ [] →
  ∃ (details : list detail) (summaries : list (gmap string value)),
    calculateRetroactive data type fuel = Some (details, summaries) ∧
    length summaries = length periods ∧
    map (λ row, row !! "Comprobante - Período") summaries =
      map (λ p, Some (VString (formattedStartDate p))) periods ∧
    (∀ (p : period) (k : string),
       In k amount_fields →
       new_summary data p !! k = Some (VNumber (of_Z 0))) ∧
    (num_gt (num_sub (newSalary data) (oldSalary data)) (of_Z 0) = false →
     (∀ t : ot_type, In t otMapping →
        num_or (parseFloat_cell (data !! key t)) (of_Z 0) = of_Z 0) →
     details = [] ∧ summaries = map (new_summary data) periods).
Proof.
  intros Hp Hne. destruct periods as [|p rest]; [congruence|].
  eexists _, _. split; [apply calculateRetroactive_closed; exact Hp|].
  split; [cbn [length]; rewrite length_map; reflexivity|].
  split; [|split].
  - cbn [map]. f_equal.
    + rewrite first_summary_other by (cbv; intuition discriminate).
      apply salary_summary_period.
    + rewrite map_map. apply map_ext. intros q. apply salary_summary_period.
  - intros q k. apply new_summary_amount_field.
  - intros Hdiff Hqty.
    pose proof (salary_emits_false data type Hdiff) as Hs.
    assert (Hot : ∀ s, fold_left (ot_fields data) otMapping s = s
                       ∧ ot_lines data = []).
    { apply no_overtime, List.Forall_forall. intros t Ht.
      apply ot_emits_zero, Hqty, Ht. }
    rewrite flat_map_salary_lines.
    unfold first_summary, salary_lines, salary_summary.
    rewrite Hs. destruct (Hot (new_summary data p)) as [-> ->].
    split; reflexivity.
Qed.

Lemma one_summary_row_per_period_witness :
  ∃ (details : list detail) (summaries : list (gmap string value)),
    calculateRetroactive no_raise mensual 2 = Some (details, summaries) ∧
    length summaries =
      length [ {| start := "2024-01-01"; end_ := "2024-01-31" |};
               {| start := "2024-02-01"; end_ := "2024-02-29" |} ] ∧
    map (λ row, row !! "Comprobante - Período") summaries =
      map (λ p, Some (VString (formattedStartDate p)))
        [ {| start := "2024-01-01"; end_ := "2024-01-31" |};
          {| start := "2024-02-01"; end_ := "2024-02-29" |} ] ∧
    (∀ (p : period) (k : string),
       In k amount_fields →
       new_summary no_raise p !! k = Some (VNumber (of_Z 0))) ∧
    (num_gt (num_sub (newSalary no_raise) (oldSalary no_raise)) (of_Z 0)
     = false →
     (∀ t : ot_type, In t otMapping →
        num_or (parseFloat_cell (no_raise !! key t)) (of_Z 0) = of_Z 0) →
     details = [] ∧
     summaries =
       map (new_summary no_raise)
         [ {| start := "2024-01-01"; end_ := "2024-01-31" |};
           {| start := "2024-02-01"; end_ := "2024-02-29" |} ]).
Proof.
  apply (one_summary_row_per_period no_raise mensual 2
           [ {| start := "2024-01-01"; end_ := "2024-01-31" |};
             {| start := "2024-02-01"; end_ := "2024-02-29" |} ]).
  - vm_compute. reflexivity.
  - discriminate.
Defined.
(** * Further properties of the code *)

(** ** Amounts *)

Section Amounts.

Lemma positive_Fin (q : Q) : num_gt (Fin q) (of_Z 0) = true → (0 < q)%Q.
Proof.
  unfold num_gt, num_lt, of_Z, Qltb. intros H. apply negb_true_iff in H.
  destruct (Qlt_le_dec 0 q) as [Hlt|Hle]; [exact Hlt|].
  apply Qle_bool_iff in Hle. unfold inject_Z in H. congruence.
Qed.

Lemma Math_round_whole (n : number) :
  num_gt n (of_Z 0) = true → whole_amount (Math_round n).
Proof.
  destruct n as [| | |q]; try discriminate; intros H.
  - left. reflexivity.
  - right. exists (Qfloor (q + (1 # 2))). split; [|reflexivity].
    apply positive_Fin, Qlt_le_weak in H.
    change 0 with (Qfloor 0). apply Qfloor_resp_le.
    apply (Qle_trans _ (q + 0)).
    + rewrite Qplus_0_r. exact H.
    + apply Qplus_le_r. discriminate.
Qed.

Lemma not_positive_fin (q : Q) : (q <= 0)%Q → not_positive (fin q).
Proof. apply fin_not_positive. Qed.

Lemma not_positive_Fin (q : Q) : not_positive (Fin q) → (q <= 0)%Q.
Proof. apply num_gt_fin_zero. Qed.

Lemma Qsign_nonpos (q : Q) : (q <= 0)%Q → Qsign q = 0 ∨ Qsign q = -1.
Proof.
  unfold Qle, Qsign. destruct q as [n d]. cbn [Qnum Qden].
  intros H. destruct n; cbn; lia.
Qed.

Lemma Qsign_pos (q : Q) : (0 < q)%Q → Qsign q = 1.
Proof.
  unfold Qlt, Qsign. destruct q as [n d]. cbn [Qnum Qden].
  intros H. destruct n; cbn; lia.
Qed.

(** The product of a number that is not positive and a positive one is
    not positive. *)
Lemma num_mul_not_positive (a b : number) :
  not_positive a → num_gt b (of_Z 0) = true → not_positive (num_mul a b).
Proof.
  unfold not_positive.
  destruct a as [| | |x], b as [| | |y]; try discriminate;
    try reflexivity; intros Ha Hb.
  - apply positive_Fin in Hb. cbn [num_mul num_sign].
    rewrite (Qsign_pos y Hb). reflexivity.
  - apply not_positive_Fin in Ha. cbn [num_mul num_sign].
    destruct (Qsign_nonpos x Ha) as [-> | ->]; reflexivity.
  - apply not_positive_Fin in Ha. apply positive_Fin in Hb.
    cbn [num_mul]. apply fin_not_positive.
    apply (Qle_trans _ (0 * y)); [|rewrite Qmult_0_l; apply Qle_refl].
    apply Qmult_le_compat_r; [exact Ha|]. apply Qlt_le_weak. exact Hb.
Qed.

Lemma num_div_240_not_positive (a : number) :
  not_positive a → not_positive (num_div a (of_Z 240)).
Proof.
  unfold not_positive. destruct a as [| | |x]; try discriminate;
    try reflexivity; intros Ha.
  apply not_positive_Fin in Ha.
  unfold num_div, of_Z. change (Qeq_bool (inject_Z 240) 0) with false.
  cbv iota. apply fin_not_positive.
  unfold Qdiv. apply (Qle_trans _ (0 * / inject_Z 240)).
  - apply Qmult_le_compat_r; [exact Ha|]. discriminate.
  - rewrite Qmult_0_l. apply Qle_refl.
Qed.

End Amounts.

(** ** The lines of a row *)

Section Lines.

Variable data : gmap string string.
Variable payrollType : payroll_type.

Lemma factor_positive (t : ot_type) :
  In t otMapping → num_gt (factor t) (of_Z 0) = true.
Proof.
  intros Ht. unfold otMapping in Ht.
  repeat (destruct Ht as [<-|Ht]); try (destruct Ht); reflexivity.
Qed.

(** Without a raise no overtime category passes its two guards. *)
Lemma ot_emits_no_raise (t : ot_type) :
  In t otMapping → not_positive (baseDiff data) → ot_emits data t = false.
Proof.
  intros Ht Hd. unfold ot_emits.
  destruct (num_gt (qty data t) (of_Z 0)) eqn:Hq; [|reflexivity].
  cbn [andb]. unfold ot_value. apply num_mul_not_positive; [|exact Hq].
  apply num_mul_not_positive; [|apply factor_positive; exact Ht].
  apply num_div_240_not_positive. exact Hd.
Qed.

Lemma ot_lines_no_raise : not_positive (baseDiff data) → ot_lines data = [].
Proof.
  intros Hd. unfold ot_lines.
  assert (H : Forall (λ t, ot_emits data t = false) otMapping).
  { apply List.Forall_forall. intros t Ht. apply ot_emits_no_raise; assumption. }
  destruct (no_overtime data otMapping H ∅) as [_ Hl]. exact Hl.
Qed.

(** What holds of every line of a call that found the periods
    [p :: rest]. *)
Lemma detail_lines_forall (P : detail → Prop) (p : period)
  (rest : list period) :
  (∀ q : period, salary_emits data payrollType = true →
                 P (salary_line data payrollType q)) →
  (∀ t : ot_type, In t otMapping → ot_emits data t = true →
                  P (ot_line data t)) →
  Forall P (salary_lines data payrollType p ++ ot_lines data ++
            flat_map (salary_lines data payrollType) rest).
Proof.
  intros Hs Ho. rewrite !List.Forall_app. split; [|split].
  - unfold salary_lines. destruct (salary_emits data payrollType) eqn:He;
      repeat constructor. apply Hs. reflexivity.
  - unfold ot_lines. apply List.Forall_forall. intros d Hd.
    apply in_flat_map in Hd as (t & Ht & Hd).
    destruct (ot_emits data t) eqn:He; [|destruct Hd].
    destruct Hd as [<-|[]]. apply Ho; assumption.
  - apply List.Forall_forall. intros d Hd.
    apply in_flat_map in Hd as (q & _ & Hd). unfold salary_lines in Hd.
    destruct (salary_emits data payrollType) eqn:He; [|destruct Hd].
    destruct Hd as [<-|[]]. apply Hs. reflexivity.
Qed.

(** A call returns as soon as its periods are found, and its lines are
    then those of the periods. *)
Lemma calculateRetroactive_returns (fuel : nat) (periods : list period) :
  getPeriods fuel (data !! "FECHA_INICIO") (data !! "FECHA_FIN") payrollType
  = Some periods →
  ∃ (details : list detail) (summaries : list (gmap string value)),
    calculateRetroactive data payrollType fuel = Some (details, summaries) ∧
    length summaries = length periods ∧
    details =
      match periods with
      | [] => []
      | p :: rest =>
          salary_lines data payrollType p ++ ot_lines data ++
          flat_map (salary_lines data payrollType) rest
      end.
Proof.
  intros Hp. destruct periods as [|p rest].
  - exists [], []. unfold calculateRetroactive. rewrite Hp.
    repeat split; reflexivity.
  - eexists _, _. split; [|split].
    + apply (calculateRetroactive_closed data payrollType fuel p rest Hp).
    + cbn [length]. rewrite length_map. reflexivity.
    + reflexivity.
Qed.

End Lines.

(** ** Rows that agree on the columns of the template *)

Section TemplateColumns.

Variables d1 d2 : gmap string string.
Hypothesis agree : Forall (λ k, d1 !! k = d2 !! k) App.templateHeaders.

Lemma agree_template (k : string) :
  In k App.templateHeaders → d1 !! k = d2 !! k.
Proof. rewrite List.Forall_forall in agree. apply agree. Qed.

Lemma baseDiff_template : baseDiff d1 = baseDiff d2.
Proof.
  unfold baseDiff, newSalary, oldSalary.
  rewrite (agree_template "SUELDO_ANTERIOR"), (agree_template "SUELDO_NUEVO")
    by (cbn; tauto).
  reflexivity.
Qed.

Lemma new_summary_template (p : period) : new_summary d1 p = new_summary d2 p.
Proof.
  unfold new_summary.
  rewrite (agree_template "CEDULA"), (agree_template "NOMBRE"),
    (agree_template "CODIGO_FICHA_COLABORADOR") by (cbn; tauto).
  reflexivity.
Qed.

Lemma ot_step_template (t : ot_type) (i : nat)
  (st : gmap string value * list detail) :
  In t otMapping → ot_step d1 t i st = ot_step d2 t i st.
Proof.
  intros Ht. unfold ot_step, hourlyDiff.
  rewrite baseDiff_template, (agree_template "CEDULA"),
    (agree_template "NOMBRE") by (cbn; tauto).
  rewrite (agree_template (key t)); [reflexivity|].
  unfold otMapping in Ht.
  repeat (destruct Ht as [<-|Ht]); try (destruct Ht); cbn; tauto.
Qed.

Lemma forEach_ot_step_template (l : list ot_type) :
  incl l otMapping →
  ∀ (i : nat) (st : gmap string value * list detail),
    forEach (ot_step d1) l i st = forEach (ot_step d2) l i st.
Proof.
  induction l as [|t l IH]; intros Hl i st; [reflexivity|].
  cbn [forEach]. rewrite (ot_step_template t i st) by (apply Hl; left; reflexivity).
  apply IH. intros x Hx. apply Hl. right. exact Hx.
Qed.

Lemma period_step_template (type : payroll_type) (p : period) (i : nat)
  (st : list detail * list (gmap string value)) :
  period_step d1 type p i st = period_step d2 type p i st.
Proof.
  unfold period_step, retroSalaryPerPeriod.
  rewrite baseDiff_template, new_summary_template,
    (agree_template "CEDULA"), (agree_template "NOMBRE") by (cbn; tauto).
  destruct st as [details summaries].
  destruct (num_gt _ _); destruct (Nat.eqb i 0);
    rewrite ?(forEach_ot_step_template otMapping (incl_refl _)); reflexivity.
Qed.

Lemma forEach_period_step_template (type : payroll_type) (l : list period) :
  ∀ (i : nat) (st : list detail * list (gmap string value)),
    forEach (period_step d1 type) l i st =
    forEach (period_step d2 type) l i st.
Proof.
  induction l as [|p l IH]; intros i st; [reflexivity|].
  cbn [forEach]. rewrite period_step_template. apply IH.
Qed.

End TemplateColumns.

(** ** The months of a range *)

Section MonthsOfRange.

Lemma months_from_below (n : nat) :
  ∀ (y m : Z) (ym : Z * Z),
    1 ≤ m ≤ 12 → In ym (months_from n (y, m)) →
    month_index ym < month_index (y, m) + Z.of_nat n.
Proof.
  induction n as [|n IH]; intros y m ym Hm Hin; [destruct Hin|].
  destruct Hin as [<-|Hin]; [lia|].
  pose proof (next_month_valid y m Hm) as Hv.
  pose proof (next_month_index y m Hm) as Hi.
  destruct (next_month (y, m)) as [y' m']. cbn [fst snd] in Hv, Hi.
  pose proof (IH y' m' ym Hv Hin) as H.
  unfold month_index in *. cbn [fst snd] in *. lia.
Qed.

(** The months visited lie between the start month and the end month. *)
Lemma months_between_bounds (sy sm ey em : Z) (ym : Z * Z) :
  1 ≤ sm ≤ 12 → In ym (months_between sy sm ey em) →
  1 ≤ ym.2 ≤ 12 ∧
  month_index (sy, sm) ≤ month_index ym ≤ month_index (ey, em).
Proof.
  intros Hsm Hin. unfold months_between, months_spanned in Hin.
  destruct (months_from_index _ sy sm ym Hsm Hin) as [H1 H2].
  pose proof (months_from_below _ sy sm ym Hsm Hin) as H3.
  unfold month_index in *. cbn [fst snd] in *. lia.
Qed.

Lemma months_between_single (y m : Z) : months_between y m y m = [(y, m)].
Proof.
  unfold months_between, months_spanned.
  replace ((y - y) * 12 + (m - m) + 1) with 1 by lia. reflexivity.
Qed.

Lemma months_between_reversed (sy sm ey em : Z) :
  month_index (ey, em) < month_index (sy, sm) →
  months_between sy sm ey em = [].
Proof.
  intros H. unfold months_between, months_spanned, month_index in *.
  cbn [fst snd] in H. rewrite Z2Nat.nonpos by lia. reflexivity.
Qed.

Lemma is_month_refl (y m : Z) : is_month y m (y, m) = true.
Proof. unfold is_month. cbn [fst snd]. rewrite !Z.eqb_refl. reflexivity. Qed.

(** The periods kept in a month lie inside the range. *)
Lemma kept_inside (type : payroll_type) (sy sm sd ey em ed : Z)
  (ym : Z * Z) (c : cal_period) :
  month_index (sy, sm) ≤ month_index ym ≤ month_index (ey, em) →
  1 ≤ sm ≤ 12 → 1 ≤ em ≤ 12 → 1 ≤ ym.2 ≤ 12 →
  In c (kept type sy sm sd ey em ed ym) →
  ¬ date_lt (cp_start c) (sy, sm, sd) ∧ ¬ date_lt (ey, em, ed) (cp_end c).
Proof.
  destruct ym as [y m]. unfold month_index. cbn [fst snd].
  intros Hi Hsm Hem Hm Hin.
  unfold kept, halves, whole_month_kept, first_half_kept, second_half_kept,
    is_month in Hin. cbn [fst snd] in Hin.
  pose proof (last_day_bounds y m) as Hl.
  destruct type;
    destruct (Z.eqb_spec y sy), (Z.eqb_spec m sm), (Z.eqb_spec y ey),
      (Z.eqb_spec m em), (Z.ltb_spec 1 sd), (Z.ltb_spec 16 sd),
      (Z.ltb_spec ed 15), (Z.ltb_spec ed (last_day y m));
    cbn [andb orb negb app In] in Hin;
    repeat (destruct Hin as [<-|Hin]); try (destruct Hin);
    unfold date_lt, cp_start, cp_end, whole_month, first_half, second_half;
    cbn [cp_year cp_month cp_first cp_last fst snd]; lia.
Qed.

End MonthsOfRange.

Section FixedPoints.

(** A kept period, taken as a range of its own, keeps itself and
    nothing else. *)
Lemma kept_self (type : payroll_type) (sy sm sd ey em ed : Z)
  (ym : Z * Z) (c : cal_period) :
  In c (kept type sy sm sd ey em ed ym) →
  kept type ym.1 ym.2 (cp_first c) ym.1 ym.2 (cp_last c) ym = [c].
Proof.
  destruct ym as [y m]. cbn [fst snd]. intros Hin.
  pose proof (last_day_bounds y m) as Hl.
  assert (Hc : c = whole_month (y, m) ∧ type = mensual ∨
               type = quincenal ∧
               (c = first_half (y, m) ∨ c = second_half (y, m))).
  { unfold kept, halves in Hin. destruct type.
    - destruct (whole_month_kept _ _ _ _ _ _ _); [|destruct Hin].
      destruct Hin as [<-|[]]. left. split; reflexivity.
    - right. split; [reflexivity|].
      destruct (first_half_kept _ _ _ _ _ _ _),
        (second_half_kept _ _ _ _ _ _ _); cbn [app In] in Hin;
        repeat (destruct Hin as [<-|Hin]); try (destruct Hin); auto. }
  unfold kept, halves, whole_month_kept, first_half_kept, second_half_kept.
  rewrite is_month_refl.
  destruct Hc as [[-> ->]|[-> [-> | ->]]];
    cbn [whole_month first_half second_half cp_first cp_last fst snd
         andb orb negb];
    rewrite ?Z.ltb_irrefl; cbn [andb orb negb app].
  - reflexivity.
  - destruct (Z.ltb_spec 15 (last_day y m)); [reflexivity|lia].
  - reflexivity.
Qed.

End FixedPoints.

Section Reversed.

(** A range whose start is after its end keeps nothing in any month. *)
Lemma kept_reversed_same_month (type : payroll_type) (y m sd ed : Z) :
  ed < sd → kept type y m sd y m ed (y, m) = [].
Proof.
  intros H. pose proof (last_day_bounds y m) as Hl.
  unfold kept, halves, whole_month_kept, first_half_kept, second_half_kept.
  rewrite is_month_refl. cbn [fst snd andb].
  destruct type;
    destruct (Z.ltb_spec 1 sd), (Z.ltb_spec 16 sd), (Z.ltb_spec ed 15),
      (Z.ltb_spec ed (last_day y m)); cbn [andb orb negb app];
    reflexivity || lia.
Qed.

End Reversed.

(** ** Texts that are not dates *)

Section NotDates.

Lemma parseDate_no_separator (s : string) :
  includes hyphen s = false → includes slash s = false →
  parseDate s = [of_Z 0; of_Z 0; of_Z 0].
Proof. intros H1 H2. unfold parseDate. rewrite H1, H2. reflexivity. Qed.

(** A day-first reading of the text that [fmt] writes for a year up to
    1000. *)
Lemma iso_parses_day_first (y m d : Z) :
  1 ≤ y ≤ 1000 → 1 ≤ m ≤ 99 → 1 ≤ d ≤ 99 → parses_as (iso y m d) d m y.
Proof.
  intros Hy Hm Hd. unfold parses_as. rewrite iso_text by lia.
  unfold parseDate.
  change (?a +:+ "-" +:+ ?b) with (a +:+ String hyphen b).
  rewrite includes_append. replace (includes hyphen (String hyphen _)) with true
    by reflexivity.
  rewrite orb_true_r.
  rewrite split_append_sep by apply digits_no_hyphen.
  change (?a +:+ "-" +:+ ?b) with (a +:+ String hyphen b).
  rewrite split_append_sep by (apply padStart_no_hyphen, digits_no_hyphen).
  rewrite split_no_sep by (apply padStart_no_hyphen, digits_no_hyphen).
  cbn [map idx nth].
  destruct (Number_digits y ltac:(lia)) as [-> _].
  destruct (Number_digits m ltac:(lia)) as [_ ->].
  destruct (Number_digits d ltac:(lia)) as [_ ->].
  rewrite num_gt_of_Z. destruct (Z.ltb_spec 1000 y); [lia|reflexivity].
Qed.

End NotDates.

(** ** The two cycles side by side *)

Section TwoCycles.

Variables sy sm sd ey em ed : Z.

Lemma whole_month_both_halves (ym : Z * Z) :
  whole_month_kept sy sm sd ey em ed ym =
  first_half_kept sy sm sd ey em ed ym &&
  second_half_kept sy sm sd ey em ed ym.
Proof.
  pose proof (last_day_bounds ym.1 ym.2) as Hl.
  unfold whole_month_kept, first_half_kept, second_half_kept.
  destruct (is_month sy sm ym), (is_month ey em ym), (Z.ltb_spec 1 sd),
    (Z.ltb_spec 16 sd), (Z.ltb_spec ed 15),
    (Z.ltb_spec ed (last_day ym.1 ym.2));
    cbn [andb orb negb]; reflexivity || lia.
Qed.

Lemma in_whole_months (l : list (Z * Z)) (ym : Z * Z) :
  In (whole_month ym) (flat_map (kept mensual sy sm sd ey em ed) l) ↔
  In ym l ∧ whole_month_kept sy sm sd ey em ed ym = true.
Proof.
  rewrite in_flat_map. unfold kept. split.
  - intros (ym' & Hin & Hc).
    destruct (whole_month_kept sy sm sd ey em ed ym') eqn:Hk; [|destruct Hc].
    destruct Hc as [Hc|[]].
    assert (ym' = ym) as <-.
    { destruct ym, ym'. unfold whole_month in Hc. cbn [fst snd] in Hc.
      injection Hc as -> -> _. reflexivity. }
    split; assumption.
  - intros [Hin Hk]. exists ym. rewrite Hk. split; [exact Hin|left; reflexivity].
Qed.

Lemma in_first_halves (l : list (Z * Z)) (ym : Z * Z) :
  In (first_half ym) (flat_map (kept quincenal sy sm sd ey em ed) l) ↔
  In ym l ∧ first_half_kept sy sm sd ey em ed ym = true.
Proof.
  rewrite in_flat_map. unfold kept, halves. split.
  - intros (ym' & Hin & Hc). apply in_app_or in Hc as [Hc|Hc].
    + destruct (first_half_kept sy sm sd ey em ed ym') eqn:Hk; [|destruct Hc].
      destruct Hc as [Hc|[]].
      assert (ym' = ym) as <-.
      { destruct ym, ym'. unfold first_half in Hc. cbn [fst snd] in Hc.
        injection Hc as -> ->. reflexivity. }
      split; assumption.
    + destruct (second_half_kept sy sm sd ey em ed ym'); [|destruct Hc].
      destruct Hc as [Hc|[]]. discriminate Hc.
  - intros [Hin Hk]. exists ym. rewrite Hk. split; [exact Hin|].
    left. reflexivity.
Qed.

Lemma in_second_halves (l : list (Z * Z)) (ym : Z * Z) :
  In (second_half ym) (flat_map (kept quincenal sy sm sd ey em ed) l) ↔
  In ym l ∧ second_half_kept sy sm sd ey em ed ym = true.
Proof.
  rewrite in_flat_map. unfold kept, halves. split.
  - intros (ym' & Hin & Hc). apply in_app_or in Hc as [Hc|Hc].
    + destruct (first_half_kept sy sm sd ey em ed ym'); [|destruct Hc].
      destruct Hc as [Hc|[]]. discriminate Hc.
    + destruct (second_half_kept sy sm sd ey em ed ym') eqn:Hk; [|destruct Hc].
      destruct Hc as [Hc|[]].
      assert (ym' = ym) as <-.
      { destruct ym, ym'. unfold second_half in Hc. cbn [fst snd] in Hc.
        injection Hc as -> -> _. reflexivity. }
      split; assumption.
  - intros [Hin Hk]. exists ym. rewrite Hk. split; [exact Hin|].
    apply in_or_app. right. left. reflexivity.
Qed.

End TwoCycles.

(** ** Signs of products *)

Section ProductSigns.



Lemma Qle_bool_Qred (q r : Q) : Qle_bool r (Qred q) = Qle_bool r q.
Proof.
  destruct (Qle_bool r q) eqn:H.
  - apply Qle_bool_iff. rewrite Qred_correct. apply Qle_bool_iff. exact H.
  - destruct (Qle_bool r (Qred q)) eqn:H'; [|reflexivity].
    apply Qle_bool_iff in H'. rewrite Qred_correct in H'.
    apply Qle_bool_iff in H'. congruence.
Qed.






End ProductSigns.

(** ** The first revision in closed form *)

Section FirstRevision.

Import Revision1.

Variable data : gmap string value.

Lemma forEach_ot_step_first (l : list ot_kind) :
  ∀ (i : nat) (results : list line),
    forEach (Revision1.ot_step data) l i results =
    results ++
    flat_map (λ t, if Revision1.ot_emits data t
                   then [Revision1.ot_line data t] else []) l.
Proof.
  induction l as [|t l IH]; intros i results.
  - simpl. rewrite app_nil_r. reflexivity.
  - cbn [forEach flat_map]. rewrite app_assoc, <- (IH (S i)). f_equal.
    unfold Revision1.ot_step, Revision1.ot_emits, Revision1.ot_line.
    fold (Revision1.qty data t). fold (Revision1.ot_value data t).
    destruct (num_gt (Revision1.qty data t) (of_Z 0)); cbn [andb];
      [destruct (num_gt (Revision1.ot_value data t) (of_Z 0))|];
      rewrite ?app_nil_r; reflexivity.
Qed.

Lemma calculateRetroactive_first_closed :
  Revision1.calculateRetroactive data =
  (if Revision1.salary_emits data then [Revision1.salary_line data] else [])
  ++ flat_map (λ t, if Revision1.ot_emits data t
                    then [Revision1.ot_line data t] else [])
       Revision1.otTypes.
Proof.
  unfold Revision1.calculateRetroactive. rewrite forEach_ot_step_first.
  unfold Revision1.salary_emits, Revision1.salary_line.
  destruct (num_gt (Revision1.retroSalary data) (of_Z 0)); reflexivity.
Qed.




End FirstRevision.

(** ** The handlers *)

Section Handlers.

Import App.

Lemma require_field_lookup (formData : gmap string string) (k k' : string)
  (m : gmap string bool) :
  require_field formData k m !! k' =
  if decide (k = k') then
    (if str_truthy (formData !! k) then m !! k' else Some true)
  else m !! k'.
Proof.
  unfold require_field.
  destruct (str_truthy (formData !! k)); cbn [negb];
    destruct (decide (k = k')) as [->|Hne]; try reflexivity.
  - apply lookup_insert_eq.
  - apply lookup_insert_ne. exact Hne.
Qed.

Lemma require_field_size (formData : gmap string string) (k : string)
  (m : gmap string bool) :
  str_truthy (formData !! k) = false →
  (0 <? size (require_field formData k m))%nat = true.
Proof.
  intros H. unfold require_field. rewrite H. cbn [negb].
  apply Nat.ltb_lt.
  pose proof (proj2 (map_size_non_empty_iff (<[k := true]> m))
                (insert_non_empty m k true)).
  lia.
Qed.

Lemma require_field_grows (formData : gmap string string) (k : string)
  (m : gmap string bool) :
  (0 <? size m)%nat = true →
  (0 <? size (require_field formData k m))%nat = true.
Proof.
  intros H. unfold require_field.
  destruct (negb (str_truthy (formData !! k))); [|exact H].
  apply Nat.ltb_lt.
  pose proof (proj2 (map_size_non_empty_iff (<[k := true]> m))
                (insert_non_empty m k true)).
  lia.
Qed.

Lemma require_field_present (formData : gmap string string) (k : string)
  (m : gmap string bool) :
  str_truthy (formData !! k) = true → require_field formData k m = m.
Proof. intros H. unfold require_field. rewrite H. reflexivity. Qed.


(** The rows of a sheet, one after the other. *)
Lemma each_row_results (type : payroll_type) (fuel : nat)
  (rows : list (gmap string string)) :
  ∀ (rs : list (list detail * list (gmap string value)))
    (acc : list detail * list (gmap string value)),
    Forall2 (λ row r, calculateRetroactive row type fuel = Some r) rows rs →
    each_row type fuel rows acc =
    Some (acc.1 ++ concat (map fst rs), acc.2 ++ concat (map snd rs)).
Proof.
  induction rows as [|row rows IH]; intros rs acc H.
  - apply Forall2_nil_inv_l in H as ->. cbn. rewrite !app_nil_r.
    destruct acc; reflexivity.
  - apply Forall2_cons_inv_l in H as ([details summaries] & rs' & Hr & H & ->).
    cbn [each_row]. rewrite Hr. rewrite (IH rs' _ H).
    cbn [fst snd map concat]. rewrite <- !app_assoc. reflexivity.
Qed.

Lemma each_row_inv (type : payroll_type) (fuel : nat)
  (rows : list (gmap string string)) :
  ∀ (acc all : list detail * list (gmap string value)),
    each_row type fuel rows acc = Some all →
    ∃ rs : list (list detail * list (gmap string value)),
      Forall2 (λ row r, calculateRetroactive row type fuel = Some r) rows rs.
Proof.
  induction rows as [|row rows IH]; intros acc all H.
  - exists []. constructor.
  - cbn [each_row] in H.
    destruct (calculateRetroactive row type fuel) as [[details summaries]|]
      eqn:Hr; [|discriminate H].
    destruct (IH _ _ H) as (rs & Hrs).
    exists ((details, summaries) :: rs). constructor; assumption.
Qed.

Lemma each_row_stuck (type : payroll_type) (fuel : nat)
  (rows : list (gmap string string)) (row : gmap string string) :
  In row rows → calculateRetroactive row type fuel = None →
  ∀ acc : list detail * list (gmap string value),
    each_row type fuel rows acc = None.
Proof.
  induction rows as [|r rows IH]; intros Hin Hrow acc; [destruct Hin|].
  cbn [each_row]. destruct Hin as [->|Hin].
  - rewrite Hrow. reflexivity.
  - destruct (calculateRetroactive r type fuel) as [[d s]|]; [|reflexivity].
    apply IH; assumption.
Qed.


End Handlers.

Section FormRows.

Variable formData : gmap string string.

(** The row that [handleIndividualCalculate] builds from the form. *)
Lemma form_row_lookup (k : string) :
  k ≠ "CEDULA" → k ≠ "NOMBRE" → k ≠ "CODIGO_FICHA_COLABORADOR" →
  (<["CODIGO_FICHA_COLABORADOR" := "-"]>
     (<["NOMBRE" := "Simulación"]> (<["CEDULA" := "-"]> formData))) !! k
  = formData !! k.
Proof.
  intros H1 H2 H3. rewrite !lookup_insert_ne by congruence. reflexivity.
Qed.

Lemma form_row_baseDiff :
  baseDiff
    (<["CODIGO_FICHA_COLABORADOR" := "-"]>
       (<["NOMBRE" := "Simulación"]> (<["CEDULA" := "-"]> formData)))
  = baseDiff formData.
Proof.
  unfold baseDiff, newSalary, oldSalary.
  rewrite !form_row_lookup by discriminate. reflexivity.
Qed.

End FormRows.

(** Without a raise a call returns no line. *)
Lemma calculateRetroactive_no_raise (data : gmap string string)
  (type : payroll_type) (fuel : nat) (periods : list period) :
  not_positive (baseDiff data) →
  getPeriods fuel (data !! "FECHA_INICIO") (data !! "FECHA_FIN") type
  = Some periods →
  ∃ summaries : list (gmap string value),
    calculateRetroactive data type fuel = Some ([], summaries) ∧
    length summaries = length periods.
Proof.
  intros Hd Hp.
  destruct (calculateRetroactive_returns data type fuel periods Hp)
    as (details & summaries & Hc & Hl & Hlines).
  exists summaries. split; [|exact Hl]. rewrite Hc. do 2 f_equal.
  subst details. destruct periods as [|p rest]; [reflexivity|].
  rewrite (ot_lines_no_raise data Hd).
  change (salary_lines data type p ++ [] ++
          flat_map (salary_lines data type) rest)
    with (flat_map (salary_lines data type) (p :: rest)).
  rewrite flat_map_salary_lines.
  rewrite (salary_emits_false data type Hd). reflexivity.
Qed.

Section Upload.

Import App.

Variable payrollType : payroll_type.
Variable fuel : nat.

Lemma process_too_long (jsonData : list (gmap string string)) :
  10000 < Z.of_nat (length jsonData) →
  process payrollType fuel jsonData =
  Some (inl "El archivo excede el límite de 10.000 filas.").
Proof.
  intros H. unfold process.
  destruct (length jsonData) as [|n] eqn:Hn; [lia|]. cbn [Nat.eqb].
  destruct (Z.ltb_spec 10000 (Z.of_nat (S n))); [reflexivity|lia].
Qed.

(** A sheet within the limits whose first row has the four keys. *)
Lemma process_rows (first : gmap string string)
  (rest : list (gmap string string)) :
  Z.of_nat (length (first :: rest)) ≤ 10000 →
  Forall (λ k, has_key first k = true) requiredKeys →
  process payrollType fuel (first :: rest) =
  match each_row payrollType fuel (first :: rest) ([], []) with
  | None => None
  | Some all => Some (inr all)
  end.
Proof.
  intros Hlen Hkeys. unfold process. cbn [length Nat.eqb].
  destruct (Z.ltb_spec 10000 (Z.of_nat (S (length rest))));
    [cbn [length] in Hlen; lia|].
  change (default ∅ (head (first :: rest))) with first.
  unfold requiredKeys in *.
  apply Forall_cons_1 in Hkeys as [H1 Hkeys].
  apply Forall_cons_1 in Hkeys as [H2 Hkeys].
  apply Forall_cons_1 in Hkeys as [H3 Hkeys].
  apply Forall_cons_1 in Hkeys as [H4 _].
  cbn [List.filter]. rewrite H1, H2, H3, H4. reflexivity.
Qed.

(** A first row without one of the four keys. *)
Lemma process_missing (first : gmap string string)
  (rest : list (gmap string string)) (k : string) :
  Z.of_nat (length (first :: rest)) ≤ 10000 →
  In k requiredKeys → has_key first k = false →
  process payrollType fuel (first :: rest) =
  Some (inl ("Faltan columnas requeridas en el archivo: " +:+
             join ", " (List.filter (λ k, negb (has_key first k)) requiredKeys)
             +:+ ". Por favor use la plantilla.")).
Proof.
  intros Hlen Hk Hmiss. unfold process. cbn [length Nat.eqb].
  destruct (Z.ltb_spec 10000 (Z.of_nat (S (length rest))));
    [cbn [length] in Hlen; lia|].
  change (default ∅ (head (first :: rest))) with first.
  assert (Hin : In k (List.filter (λ k, negb (has_key first k)) requiredKeys)).
  { apply filter_In. split; [exact Hk|]. rewrite Hmiss. reflexivity. }
  destruct (List.filter (λ k, negb (has_key first k)) requiredKeys)
    as [|x l]; [destruct Hin|]. reflexivity.
Qed.

End Upload.

(** A call whose periods are found returns. *)
Lemma row_returns (data : gmap string string) (type : payroll_type)
  (fuel : nat) (periods : list period) :
  getPeriods fuel (data !! "FECHA_INICIO") (data !! "FECHA_FIN") type
  = Some periods →
  ∃ (details : list detail) (summaries : list (gmap string value)),
    calculateRetroactive data type fuel = Some (details, summaries).
Proof.
  intros Hp.
  destruct (calculateRetroactive_returns data type fuel periods Hp)
    as (details & summaries & Hc & _).
  exists details, summaries. exact Hc.
Qed.

(** The row with month names never gets its periods. *)
Lemma month_names_never_returns (type : payroll_type) (fuel : nat) :
  calculateRetroactive month_names type fuel = None.
Proof.
  assert (H : getPeriods fuel (Some "01-Dec-2023") (Some "31-Jan-2024") type
              = None).
  { unfold getPeriods.
    change (parseDate "01-Dec-2023") with [of_Z 2023; NaN; of_Z 1].
    change (parseDate "31-Jan-2024") with [of_Z 2024; NaN; of_Z 31].
    cbn -[walk]. apply walk_NaN_month. reflexivity. }
  unfold calculateRetroactive.
  change (month_names !! "FECHA_INICIO") with (Some "01-Dec-2023").
  change (month_names !! "FECHA_FIN") with (Some "31-Jan-2024").
  rewrite H. reflexivity.
Qed.

Section Invariant.

Import App.





End Invariant.

(** ** The calendar *)

Section CalendarDays.

Import Calendar.

Lemma date_text_iso (d : date) :
  date_text d = iso (getFullYear d) (getMonth d + 1) (getDate d).
Proof.
  unfold date_text, iso, fmt.
  replace (getMonth d + 1 - 1) with (getMonth d) by lia. reflexivity.
Qed.

Lemma on_calendar_valid (d : date) :
  on_calendar d → valid_month (getFullYear d) (getMonth d + 1).
Proof. intros (Hy & Hm & _). unfold valid_month. lia. Qed.

Lemma date_text_parses (d : date) :
  on_calendar d →
  parses_as (date_text d) (getFullYear d) (getMonth d + 1) (getDate d).
Proof.
  intros (Hy & Hm & Hd). rewrite date_text_iso.
  pose proof (DaysInMonth_bounds (getFullYear d) (getMonth d)).
  apply iso_parses; lia.
Qed.

Lemma lastDay_of_Z (d : date) :
  on_calendar d →
  last_day_before (of_Z (getFullYear d))
    (num_add (of_Z (getMonth d)) (of_Z 1)) =
  of_Z (last_day (getFullYear d) (getMonth d + 1)).
Proof.
  intros Hd. fold (getDaysInMonth (of_Z (getFullYear d)) (of_Z (getMonth d))).
  replace (getMonth d) with (getMonth d + 1 - 1) at 1 by lia.
  apply getDaysInMonth_of_Z. apply on_calendar_valid. exact Hd.
Qed.

(** The days the calendar lets the user choose for the start. *)
Lemma start_day_aligned (type : payroll_type) (d : date) :
  checkPayrollValidation (Some (payroll_text type)) (Some "start") d = true →
  aligned_start type (getDate d).
Proof.
  destruct type; unfold checkPayrollValidation, payroll_text, aligned_start;
    cbn -[last_day_before num_add of_Z num_eq]; rewrite !num_eq_of_Z;
    intros H.
  - lia.
  - apply orb_prop in H. lia.
Qed.

(** The days the calendar lets the user choose for the end. *)
Lemma end_day_aligned (type : payroll_type) (d : date) :
  on_calendar d →
  checkPayrollValidation (Some (payroll_text type)) (Some "end") d = true →
  aligned_end type (getFullYear d) (getMonth d + 1) (getDate d).
Proof.
  intros Hd.
  destruct type; unfold checkPayrollValidation, payroll_text, aligned_end;
    cbn -[last_day_before num_add of_Z num_eq];
    rewrite (lastDay_of_Z d Hd), !num_eq_of_Z; intros H.
  - lia.
  - apply orb_prop in H. lia.
Qed.

End CalendarDays.

(** ** The two ends of an aligned range *)

Section RangeEnds.

Lemma months_from_snoc (n : nat) :
  ∀ y m : Z, 1 ≤ m ≤ 12 →
    ∃ ym : Z * Z,
      months_from (S n) (y, m) = months_from n (y, m) ++ [ym] ∧
      1 ≤ ym.2 ≤ 12 ∧
      month_index ym = month_index (y, m) + Z.of_nat n.
Proof.
  induction n as [|n IH]; intros y m Hm.
  - exists (y, m). cbn [months_from app fst snd]. repeat split; lia.
  - pose proof (next_month_valid y m Hm) as Hv.
    pose proof (next_month_index y m Hm) as Hi.
    change (months_from (S (S n)) (y, m))
      with ((y, m) :: months_from (S n) (next_month (y, m))).
    change (months_from (S n) (y, m))
      with ((y, m) :: months_from n (next_month (y, m))).
    destruct (next_month (y, m)) as [y' m']. cbn [fst snd] in Hv, Hi.
    destruct (IH y' m' Hv) as (ym & -> & Hym & Hidx).
    exists ym. split; [reflexivity|]. split; [exact Hym|].
    unfold month_index in *. cbn [fst snd] in *. lia.
Qed.

Lemma month_index_inj (a b : Z * Z) :
  1 ≤ a.2 ≤ 12 → 1 ≤ b.2 ≤ 12 → month_index a = month_index b → a = b.
Proof.
  destruct a as [y m], b as [y' m']. unfold month_index. cbn [fst snd].
  intros Ha Hb H. f_equal; lia.
Qed.

(** A range that does not end before its start month goes from the
    start month to the end month. *)
Lemma months_between_ends (sy sm ey em : Z) :
  1 ≤ sm ≤ 12 → 1 ≤ em ≤ 12 →
  month_index (sy, sm) ≤ month_index (ey, em) →
  (∃ tl, months_between sy sm ey em = (sy, sm) :: tl) ∧
  (∃ init, months_between sy sm ey em = init ++ [(ey, em)]).
Proof.
  intros Hsm Hem Hle. unfold months_between, months_spanned.
  unfold month_index in Hle. cbn [fst snd] in Hle.
  destruct (Z.to_nat ((ey - sy) * 12 + (em - sm) + 1)) as [|n] eqn:Hn; [lia|].
  split.
  - eexists. reflexivity.
  - destruct (months_from_snoc n sy sm Hsm) as (ym & -> & Hym & Hidx).
    exists (months_from n (sy, sm)). do 2 f_equal.
    apply month_index_inj; [exact Hym|exact Hem|].
    unfold month_index in *. cbn [fst snd] in *. lia.
Qed.

Lemma is_month_other (y m : Z) (ym : Z * Z) :
  ym ≠ (y, m) → is_month y m ym = false.
Proof.
  intros H. destruct (is_month y m ym) eqn:E; [|reflexivity].
  apply is_month_true in E. congruence.
Qed.

Variable type : payroll_type.
Variables sy sm sd ey em ed : Z.

Lemma kept_first_month :
  aligned_start type sd →
  ((sy, sm) = (ey, em) → aligned_end type ey em ed ∧ sd ≤ ed) →
  ∃ (c : cal_period) (rest : list cal_period),
    kept type sy sm sd ey em ed (sy, sm) = c :: rest ∧
    cp_start c = (sy, sm, sd).
Proof.
  intros Hs Hsame. pose proof (last_day_bounds sy sm) as Hl.
  unfold kept, halves, whole_month_kept, first_half_kept, second_half_kept.
  rewrite is_month_refl. cbn [fst snd].
  destruct (decide ((sy, sm) = (ey, em))) as [E|E].
  - destruct (Hsame E) as [He Hle]. injection E as <- <-.
    rewrite is_month_refl.
    destruct type; cbn [aligned_start aligned_end] in Hs, He;
      destruct (Z.ltb_spec 1 sd), (Z.ltb_spec 16 sd), (Z.ltb_spec ed 15),
        (Z.ltb_spec ed (last_day sy sm)); try lia;
      cbn [andb orb negb app]; eexists _, _;
      (split; [reflexivity|]);
      unfold cp_start, whole_month, first_half, second_half;
      cbn [cp_year cp_month cp_first fst snd]; f_equal; lia.
  - rewrite (is_month_other ey em (sy, sm)) by congruence.
    destruct type; cbn [aligned_start] in Hs;
      destruct (Z.ltb_spec 1 sd), (Z.ltb_spec 16 sd); try lia;
      cbn [andb orb negb app]; eexists _, _;
      (split; [reflexivity|]);
      unfold cp_start, whole_month, first_half, second_half;
      cbn [cp_year cp_month cp_first fst snd]; f_equal; lia.
Qed.

Lemma kept_last_month :
  aligned_end type ey em ed →
  ((sy, sm) = (ey, em) → aligned_start type sd ∧ sd ≤ ed) →
  ∃ (init : list cal_period) (c : cal_period),
    kept type sy sm sd ey em ed (ey, em) = init ++ [c] ∧
    cp_end c = (ey, em, ed).
Proof.
  intros He Hsame. pose proof (last_day_bounds ey em) as Hl.
  unfold kept, halves, whole_month_kept, first_half_kept, second_half_kept.
  rewrite is_month_refl. cbn [fst snd].
  destruct (decide ((sy, sm) = (ey, em))) as [E|E].
  - destruct (Hsame E) as [Hs Hle]. injection E as -> ->.
    rewrite is_month_refl.
    destruct type; cbn [aligned_start aligned_end] in Hs, He;
      destruct (Z.ltb_spec 1 sd), (Z.ltb_spec 16 sd), (Z.ltb_spec ed 15),
        (Z.ltb_spec ed (last_day ey em)); try lia;
      cbn [andb orb negb app];
      first [ exists [], (whole_month (ey, em)); split; [reflexivity|]
            | exists [first_half (ey, em)], (second_half (ey, em));
              split; [reflexivity|]
            | exists [], (first_half (ey, em)); split; [reflexivity|]
            | exists [], (second_half (ey, em)); split; [reflexivity|] ];
      unfold cp_end, whole_month, first_half, second_half;
      cbn [cp_year cp_month cp_last fst snd]; f_equal; lia.
  - rewrite (is_month_other sy sm (ey, em)) by congruence.
    destruct type; cbn [aligned_end] in He;
      destruct (Z.ltb_spec ed 15), (Z.ltb_spec ed (last_day ey em)); try lia;
      cbn [andb orb negb app];
      first [ exists [], (whole_month (ey, em)); split; [reflexivity|]
            | exists [first_half (ey, em)], (second_half (ey, em));
              split; [reflexivity|]
            | exists [], (first_half (ey, em)); split; [reflexivity|] ];
      unfold cp_end, whole_month, first_half, second_half;
      cbn [cp_year cp_month cp_last fst snd]; f_equal; lia.
Qed.

(** The periods kept of an aligned range begin on its first day and end
    on its last. *)
Lemma kept_range_ends :
  1 ≤ sm ≤ 12 → 1 ≤ em ≤ 12 →
  aligned_start type sd → aligned_end type ey em ed →
  (sy, sm, sd) = (ey, em, ed) ∨ date_lt (sy, sm, sd) (ey, em, ed) →
  ∃ (c : cal_period) (rest : list cal_period),
    flat_map (kept type sy sm sd ey em ed) (months_between sy sm ey em)
    = c :: rest ∧
    cp_start c = (sy, sm, sd) ∧
    cp_end (List.last (c :: rest) c) = (ey, em, ed).
Proof.
  intros Hsm Hem Hs He Hle.
  assert (Hidx : month_index (sy, sm) ≤ month_index (ey, em)).
  { unfold month_index. cbn [fst snd]. unfold date_lt in Hle.
    destruct Hle as [E|Hlt]; [injection E as -> -> ->; lia|lia]. }
  assert (Hsame : (sy, sm) = (ey, em) → sd ≤ ed).
  { intros E. injection E as -> ->. unfold date_lt in Hle.
    destruct Hle as [E|Hlt]; [injection E as ->; lia|lia]. }
  destruct (months_between_ends sy sm ey em Hsm Hem Hidx)
    as [(tl & Htl) (init & Hinit)].
  destruct kept_first_month as (c & rest0 & Hk & Hc); [exact Hs|auto|].
  destruct kept_last_month as (init0 & c' & Hk' & Hc'); [exact He|auto|].
  set (L := flat_map (kept type sy sm sd ey em ed)
              (months_between sy sm ey em)).
  assert (H1 : L = c :: (rest0 ++ flat_map (kept type sy sm sd ey em ed) tl)).
  { unfold L. rewrite Htl. cbn [flat_map]. rewrite Hk. reflexivity. }
  assert (H2 : L = (flat_map (kept type sy sm sd ey em ed) init ++ init0)
                   ++ [c']).
  { unfold L. rewrite Hinit, flat_map_app. cbn [flat_map].
    rewrite Hk', app_nil_r, app_assoc. reflexivity. }
  exists c, (rest0 ++ flat_map (kept type sy sm sd ey em ed) tl).
  split; [exact H1|]. split; [exact Hc|].
  rewrite <- H1, H2, List.last_last. exact Hc'.
Qed.

End RangeEnds.

Lemma last_map {A B : Type} (f : A → B) (l : list A) (d : A) :
  List.last (map f l) (f d) = f (List.last l d).
Proof.
  induction l as [|x l IH]; [reflexivity|].
  destruct l as [|y l]; [reflexivity|]. exact IH.
Qed.

(** ** The grid of the calendar *)

Section Grid.

Import CalendarGrid.

Lemma days_before_12 (y : Z) :
  days_before y 12 = if InLeapYear y then 366 else 365.
Proof.
  cbn [days_before]. unfold DaysInMonth. cbn.
  destruct (InLeapYear y); reflexivity.
Qed.

Lemma DayFromYear_succ (y : Z) :
  DayFromYear (y + 1) = DayFromYear y + days_before y 12.
Proof.
  rewrite days_before_12. unfold DayFromYear, InLeapYear.
  replace (y + 1 - 1969) with (y - 1968) by lia.
  replace (y + 1 - 1901) with (y - 1900) by lia.
  replace (y + 1 - 1601) with (y - 1600) by lia.
  replace (y + 1 - 1970) with (y - 1970 + 1) by lia.
  destruct (Z.eqb_spec (y mod 4) 0), (Z.eqb_spec (y mod 100) 0),
    (Z.eqb_spec (y mod 400) 0); cbn [andb orb negb];
    Z.div_mod_to_equations; lia.
Qed.

Lemma MakeDay_date (y m d : Z) : MakeDay y m d = MakeDay y m 1 + d - 1.
Proof. unfold MakeDay. lia. Qed.

(** The first of a month comes as many days after the first of the month
    before as that month has. *)
Lemma MakeDay_next_month (y m : Z) :
  MakeDay y (m + 1) 1 = MakeDay y m 1 + DaysInMonth (y + m / 12) (m mod 12).
Proof.
  unfold MakeDay.
  pose proof (Z.mod_pos_bound m 12 ltac:(lia)) as Hr.
  destruct (Z.eq_dec (m mod 12) 11) as [E|E].
  - assert (Hq : (m + 1) / 12 = m / 12 + 1) by (Z.div_mod_to_equations; lia).
    assert (Hm : (m + 1) mod 12 = 0) by (Z.div_mod_to_equations; lia).
    rewrite Hq, Hm, E, Z.add_assoc, DayFromYear_succ.
    change (Z.to_nat 0) with 0%nat. change (Z.to_nat 11) with 11%nat.
    change (days_before (y + m / 12) 12)
      with (days_before (y + m / 12) 11 + DaysInMonth (y + m / 12) 11).
    cbn [days_before]. lia.
  - assert (Hq : (m + 1) / 12 = m / 12) by (Z.div_mod_to_equations; lia).
    assert (Hm : (m + 1) mod 12 = m mod 12 + 1)
      by (Z.div_mod_to_equations; lia).
    rewrite Hq, Hm, Z2Nat.inj_add by lia.
    change (Z.to_nat 1) with 1%nat. rewrite Nat.add_1_r.
    cbn [days_before]. rewrite Z2Nat.id by lia. lia.
Qed.

Lemma getDay_bounds (d : Z) : 0 ≤ getDay d ≤ 6.
Proof. unfold getDay. pose proof (Z.mod_pos_bound (d + 4) 7). lia. Qed.

Lemma getDay_week_start (d : Z) : getDay (week_start d) = 0.
Proof. unfold week_start, getDay. Z.div_mod_to_equations. lia. Qed.

Lemma map_seq_offset {A : Type} (n : nat) :
  ∀ (f : nat → A) (a : nat),
    map f (seq a n) = map (λ j, f (a + j)%nat) (seq 0 n).
Proof.
  induction n as [|n IH]; intros f a; [reflexivity|].
  cbn [seq map]. rewrite Nat.add_0_r. f_equal.
  rewrite (IH f (S a)), (IH (λ j, f (a + j)%nat) 1%nat).
  apply map_ext. intros j. f_equal. lia.
Qed.

End Grid.

(** ** Further properties of [calculateRetroactive] *)

(** X1.  Once the periods of a row are found, [calculateRetroactive]
    returns, and every amount to pay on its detail lines is a whole
    number that is not negative, or [Infinity]: never a fraction, a
    negative value or [NaN]. *)
Theorem amounts_are_whole (data : gmap string string) (type : payroll_type)
  (fuel : nat) (periods : list period) :
  getPeriods fuel (data !! "FECHA_INICIO") (data !! "FECHA_FIN") type
  = Some periods →
  ∃ (details : list detail) (summaries : list (gmap string value)),
    calculateRetroactive data type fuel = Some (details, summaries) ∧
    Forall (λ d, whole_amount (VALOR_A_PAGAR d)) details.
Proof.
  intros Hp.
  destruct (calculateRetroactive_returns data type fuel periods Hp)
    as (details & summaries & Hc & _ & Hd).
  exists details, summaries. split; [exact Hc|]. subst details.
  destruct periods as [|p rest]; [constructor|].
  apply detail_lines_forall.
  - intros q He. apply Math_round_whole. exact He.
  - intros t _ He. apply andb_prop in He as [_ He].
    apply Math_round_whole. exact He.
Qed.

Lemma amounts_are_whole_witness :
  ∃ (details : list detail) (summaries : list (gmap string value)),
    calculateRetroactive raise_of_100000 mensual 2 = Some (details, summaries) ∧
    Forall (λ d, whole_amount (VALOR_A_PAGAR d)) details.
Proof.
  apply (amounts_are_whole raise_of_100000 mensual 2
           [ {| start := "2024-01-01"; end_ := "2024-01-31" |};
             {| start := "2024-02-01"; end_ := "2024-02-29" |} ]).
  vm_compute. reflexivity.
Defined.

(** X2.  When the new salary is not above the old one (the difference is
    zero, negative or not a number), [calculateRetroactive] returns no
    detail line at all, whatever overtime hours the row carries, and
    still one summary row per period. *)
Theorem no_raise_no_detail_lines (data : gmap string string)
  (type : payroll_type) (fuel : nat) (periods : list period) :
  not_positive (baseDiff data) →
  getPeriods fuel (data !! "FECHA_INICIO") (data !! "FECHA_FIN") type
  = Some periods →
  ∃ summaries : list (gmap string value),
    calculateRetroactive data type fuel = Some ([], summaries) ∧
    length summaries = length periods.
Proof.
  intros Hd Hp.
  destruct (calculateRetroactive_no_raise data type fuel periods Hd Hp)
    as (summaries & Hc & Hl).
  exists summaries. split; [exact Hc|exact Hl].
Qed.

Lemma no_raise_no_detail_lines_witness :
  ∃ summaries : list (gmap string value),
    calculateRetroactive pay_cut mensual 1 = Some ([], summaries) ∧
    length summaries =
    length [ {| start := "2024-01-01"; end_ := "2024-01-31" |} ].
Proof.
  apply (no_raise_no_detail_lines pay_cut mensual 1
           [ {| start := "2024-01-01"; end_ := "2024-01-31" |} ]).
  - vm_compute. reflexivity.
  - vm_compute. reflexivity.
Defined.

(** X3.  Every detail line of a row carries the identity columns of that
    row as they were read ([CEDULA] and [NOMBRE], [undefined] when
    missing) and one of the five concepts: the salary one or the label of
    an overtime category. *)
Theorem lines_carry_identity (data : gmap string string)
  (type : payroll_type) (fuel : nat) (periods : list period) :
  getPeriods fuel (data !! "FECHA_INICIO") (data !! "FECHA_FIN") type
  = Some periods →
  ∃ (details : list detail) (summaries : list (gmap string value)),
    calculateRetroactive data type fuel = Some (details, summaries) ∧
    Forall (λ d, CEDULA d = cell (data !! "CEDULA") ∧
                 NOMBRE d = cell (data !! "NOMBRE") ∧
                 In (CONCEPTO d) concepts) details.
Proof.
  intros Hp.
  destruct (calculateRetroactive_returns data type fuel periods Hp)
    as (details & summaries & Hc & _ & Hd).
  exists details, summaries. split; [exact Hc|]. subst details.
  destruct periods as [|p rest]; [constructor|].
  apply detail_lines_forall.
  - intros q _. repeat split. left. reflexivity.
  - intros t Ht _. repeat split. right.
    exact (List.in_map label otMapping t Ht).
Qed.

Lemma lines_carry_identity_witness :
  ∃ (details : list detail) (summaries : list (gmap string value)),
    calculateRetroactive raise_of_100000 quincenal 2
    = Some (details, summaries) ∧
    Forall (λ d, CEDULA d = cell (raise_of_100000 !! "CEDULA") ∧
                 NOMBRE d = cell (raise_of_100000 !! "NOMBRE") ∧
                 In (CONCEPTO d) concepts) details.
Proof.
  apply (lines_carry_identity raise_of_100000 quincenal 2
           [ {| start := "2024-01-01"; end_ := "2024-01-15" |};
             {| start := "2024-01-16"; end_ := "2024-01-31" |};
             {| start := "2024-02-01"; end_ := "2024-02-15" |};
             {| start := "2024-02-16"; end_ := "2024-02-29" |} ]).
  vm_compute. reflexivity.
Defined.

(** X4.  [calculateRetroactive] reads nothing of a row but the eleven
    columns of the template that [downloadTemplate] writes: two rows that
    agree on these columns get the same result, or both get none. *)
Theorem template_columns_suffice (d1 d2 : gmap string string)
  (type : payroll_type) (fuel : nat) :
  Forall (λ k, d1 !! k = d2 !! k) App.templateHeaders →
  calculateRetroactive d1 type fuel = calculateRetroactive d2 type fuel.
Proof.
  intros Hagree. unfold calculateRetroactive.
  rewrite (agree_template d1 d2 Hagree "FECHA_INICIO"),
    (agree_template d1 d2 Hagree "FECHA_FIN") by (cbn; tauto).
  destruct (getPeriods _ _ _ _) as [periods|]; [|reflexivity].
  destruct (Nat.eqb _ _); [reflexivity|].
  rewrite (forEach_period_step_template d1 d2 Hagree). reflexivity.
Qed.

Lemma template_columns_suffice_witness :
  calculateRetroactive (<["OBSERVACIONES" := "x"]> raise_of_100000) mensual 2
  = calculateRetroactive raise_of_100000 mensual 2.
Proof.
  apply (template_columns_suffice
           (<["OBSERVACIONES" := "x"]> raise_of_100000) raise_of_100000).
  repeat constructor.
Defined.

(** ** Further properties of [getPeriods] *)

(** X5.  Between two parseable dates, under either cycle, no period that
    [getPeriods] returns reaches outside the range: none starts before
    the start date and none ends after the end date. *)
Theorem periods_within_range (type : payroll_type) (s e : string)
  (sy sm sd ey em ed : Z) (fuel : nat) :
  parses_as s sy sm sd → valid_month sy sm →
  parses_as e ey em ed → valid_month ey em →
  (months_spanned sy sm ey em ≤ fuel)%nat →
  ∃ l : list cal_period,
    getPeriods fuel (Some s) (Some e) type = Some (map render l) ∧
    Forall (λ c, ¬ date_lt (cp_start c) (sy, sm, sd) ∧
                 ¬ date_lt (ey, em, ed) (cp_end c)) l.
Proof.
  intros Hs Hvs He Hve Hfuel.
  exists (flat_map (kept type sy sm sd ey em ed) (months_between sy sm ey em)).
  split; [apply getPeriods_kept; assumption|].
  apply List.Forall_forall. intros c Hc.
  apply in_flat_map in Hc as (ym & Hym & Hc).
  destruct (months_between_bounds sy sm ey em ym (proj2 Hvs) Hym) as [H1 H2].
  apply (kept_inside type sy sm sd ey em ed ym c); try assumption.
  - apply Hvs.
  - apply Hve.
Qed.

Lemma periods_within_range_witness :
  ∃ l : list cal_period,
    getPeriods 3 (Some "2023-12-10") (Some "20/02/2024") quincenal
    = Some (map render l) ∧
    Forall (λ c, ¬ date_lt (cp_start c) (2023, 12, 10) ∧
                 ¬ date_lt (2024, 2, 20) (cp_end c)) l.
Proof.
  apply (periods_within_range quincenal "2023-12-10" "20/02/2024"
           2023 12 10 2024 2 20); date_facts.
Defined.

(** X6.  A period that [getPeriods] returns is a closed period of its
    cycle: given back as a range of its own, from its start text to its
    end text, it is returned alone and unchanged.  The years are above
    1000, where the texts of [fmt] are read back year first. *)
Theorem returned_periods_are_closed (type : payroll_type) (s e : string)
  (sy sm sd ey em ed : Z) (fuel : nat) :
  parses_as s sy sm sd → valid_month sy sm →
  parses_as e ey em ed → valid_month ey em →
  1000 < sy →
  (months_spanned sy sm ey em ≤ fuel)%nat →
  ∃ periods : list period,
    getPeriods fuel (Some s) (Some e) type = Some periods ∧
    Forall (λ p, getPeriods 1 (Some (start p)) (Some (end_ p)) type
                 = Some [p]) periods.
Proof.
  intros Hs Hvs He Hve Hy Hfuel. eexists. split.
  { apply (getPeriods_kept s e sy sm sd ey em ed); assumption. }
  apply List.Forall_forall. intros p Hp.
  apply in_map_iff in Hp as (c & <- & Hc).
  apply in_flat_map in Hc as (ym & Hym & Hc).
  pose proof (months_between_valid sy sm ey em ym Hvs Hve Hym) as Hv.
  destruct (months_between_bounds sy sm ey em ym (proj2 Hvs) Hym)
    as [_ [Hlow _]].
  pose proof (kept_self type sy sm sd ey em ed ym c Hc) as Hself.
  apply kept_in_month in Hc as (Hcy & Hcm & Hd & Hl & _).
  pose proof (last_day_bounds ym.1 ym.2) as Hb.
  destruct Hv as [Hvy Hvm]. destruct Hvs as [_ Hsm].
  assert (Hyear : 1000 < ym.1).
  { unfold month_index in Hlow. cbn [fst snd] in Hlow. lia. }
  unfold render. cbn [start end_]. rewrite Hcy, Hcm.
  rewrite (getPeriods_kept _ _ ym.1 ym.2 (cp_first c) ym.1 ym.2 (cp_last c)).
  - rewrite months_between_single. cbn [flat_map].
    rewrite app_nil_r.
    change (ym.1, ym.2) with (ym.1, ym.2).
    replace (ym.1, ym.2) with ym by (destruct ym; reflexivity).
    rewrite Hself. cbn [map]. unfold render. rewrite Hcy, Hcm. reflexivity.
  - apply iso_parses; lia.
  - apply iso_parses; lia.
  - split; lia.
  - split; lia.
  - unfold months_spanned.
    replace ((ym.1 - ym.1) * 12 + (ym.2 - ym.2) + 1) with 1 by lia.
    apply Nat.le_refl.
Qed.

Lemma returned_periods_are_closed_witness :
  ∃ periods : list period,
    getPeriods 3 (Some "2023-12-10") (Some "20/02/2024") quincenal
    = Some periods ∧
    Forall (λ p, getPeriods 1 (Some (start p)) (Some (end_ p)) quincenal
                 = Some [p]) periods.
Proof.
  apply (returned_periods_are_closed quincenal "2023-12-10" "20/02/2024"
           2023 12 10 2024 2 20); date_facts; lia.
Defined.

(** X7.  A range whose start date is after its end date gives no period
    under either cycle, and [getPeriods] returns at once: one pass of
    the loop is enough. *)
Theorem reversed_range_is_empty (type : payroll_type) (s e : string)
  (sy sm sd ey em ed : Z) (fuel : nat) :
  parses_as s sy sm sd → valid_month sy sm →
  parses_as e ey em ed → valid_month ey em →
  date_lt (ey, em, ed) (sy, sm, sd) →
  (1 ≤ fuel)%nat →
  getPeriods fuel (Some s) (Some e) type = Some [].
Proof.
  intros Hs Hvs He Hve Hlt Hfuel.
  destruct Hvs as [Hsy Hsm], Hve as [Hey Hem].
  assert (Hcases : month_index (ey, em) < month_index (sy, sm) ∨
                   (ey = sy ∧ em = sm ∧ ed < sd)).
  { unfold date_lt in Hlt. unfold month_index. cbn [fst snd]. lia. }
  destruct Hcases as [Hm|(-> & -> & Hd)].
  - rewrite (getPeriods_kept s e sy sm sd ey em ed); try assumption;
      try (split; assumption).
    + rewrite months_between_reversed by assumption. reflexivity.
    + unfold months_spanned, month_index in *. cbn [fst snd] in Hm.
      rewrite Z2Nat.nonpos by lia. lia.
  - rewrite (getPeriods_kept s e sy sm sd sy sm ed); try assumption;
      try (split; assumption).
    + rewrite months_between_single. cbn [flat_map].
      rewrite kept_reversed_same_month by assumption. reflexivity.
    + unfold months_spanned.
      replace ((sy - sy) * 12 + (sm - sm) + 1) with 1 by lia. exact Hfuel.
Qed.

Lemma reversed_range_is_empty_witness :
  getPeriods 1 (Some "2024-03-16") (Some "15/03/2024") quincenal = Some [].
Proof.
  apply (reversed_range_is_empty quincenal "2024-03-16" "15/03/2024"
           2024 3 16 2024 3 15); date_facts; unfold date_lt; lia.
Defined.

(** X8.  A date cell that is missing, empty or holds a text with neither
    a hyphen nor a slash is not a date: whatever the other date is,
    [getPeriods] returns no period and [calculateRetroactive] no line and
    no row, both at once (no pass of the loop is made). *)
Theorem text_without_separator_is_no_date (data : gmap string string)
  (type : payroll_type) (fuel : nat) (k : string) :
  k = "FECHA_INICIO" ∨ k = "FECHA_FIN" →
  includes hyphen (default "" (data !! k)) = false →
  includes slash (default "" (data !! k)) = false →
  getPeriods fuel (data !! "FECHA_INICIO") (data !! "FECHA_FIN") type
  = Some [] ∧
  calculateRetroactive data type fuel = Some ([], []).
Proof.
  intros Hk H1 H2.
  assert (H : getPeriods fuel (data !! "FECHA_INICIO") (data !! "FECHA_FIN")
                type = Some []).
  { pose proof (parseDate_no_separator _ H1 H2) as Hp.
    unfold getPeriods.
    destruct (negb (str_truthy (data !! "FECHA_INICIO")) ||
              negb (str_truthy (data !! "FECHA_FIN"))); [reflexivity|].
    destruct Hk as [-> | ->]; rewrite Hp; cbn [idx nth].
    - reflexivity.
    - change (truthy (of_Z 0)) with false. cbn [negb].
      rewrite orb_true_r. reflexivity. }
  split; [exact H|]. unfold calculateRetroactive. rewrite H. reflexivity.
Qed.

Lemma text_without_separator_is_no_date_witness :
  getPeriods 0
    (<["FECHA_INICIO" := "20240101"]> raise_of_100000 !! "FECHA_INICIO")
    (<["FECHA_INICIO" := "20240101"]> raise_of_100000 !! "FECHA_FIN") mensual
  = Some [] ∧
  calculateRetroactive (<["FECHA_INICIO" := "20240101"]> raise_of_100000)
    mensual 0 = Some ([], []).
Proof.
  apply (text_without_separator_is_no_date
           (<["FECHA_INICIO" := "20240101"]> raise_of_100000) mensual 0
           "FECHA_INICIO"); [left|vm_compute|vm_compute]; reflexivity.
Defined.

(** X9.  The parser tells the two hyphenated orders apart by the first
    number alone: above 1000 it is a year, otherwise a day.  So the text
    that [fmt] writes for a date of the years 1 to 1000 is read back
    with day and year exchanged, while from 1001 on it is read back as
    written. *)
Theorem year_threshold (y m d : Z) :
  1 ≤ y ≤ 9999 → 1 ≤ m ≤ 12 → 1 ≤ d ≤ 31 →
  parseDate (fmt (of_Z y) (of_Z (m - 1)) (of_Z d)) =
  if y <=? 1000 then [of_Z d; of_Z m; of_Z y]
  else [of_Z y; of_Z m; of_Z d].
Proof.
  intros Hy Hm Hd. fold (iso y m d).
  destruct (Z.leb_spec y 1000).
  - apply iso_parses_day_first; lia.
  - apply iso_parses; lia.
Qed.

Lemma year_threshold_witness :
  parseDate (fmt (of_Z 1000) (of_Z (12 - 1)) (of_Z 31)) =
  (if 1000 <=? 1000 then [of_Z 31; of_Z 12; of_Z 1000]
   else [of_Z 1000; of_Z 12; of_Z 31]) ∧
  parseDate (fmt (of_Z 1001) (of_Z (1 - 1)) (of_Z 1)) =
  (if 1001 <=? 1000 then [of_Z 1; of_Z 1; of_Z 1001]
   else [of_Z 1001; of_Z 1; of_Z 1]).
Proof.
  split.
  - apply (year_threshold 1000 12 31); lia.
  - apply (year_threshold 1001 1 1); lia.
Defined.

(** X10.  The two cycles agree on the same range: a calendar month is
    returned as a whole under the monthly cycle exactly when both of its
    halves are returned under the semi-monthly cycle. *)
Theorem whole_month_iff_both_halves (s e : string) (sy sm sd ey em ed : Z)
  (fuel : nat) :
  parses_as s sy sm sd → valid_month sy sm →
  parses_as e ey em ed → valid_month ey em →
  (months_spanned sy sm ey em ≤ fuel)%nat →
  ∃ monthly semimonthly : list cal_period,
    getPeriods fuel (Some s) (Some e) mensual = Some (map render monthly) ∧
    getPeriods fuel (Some s) (Some e) quincenal
    = Some (map render semimonthly) ∧
    ∀ ym : Z * Z,
      In (whole_month ym) monthly ↔
      In (first_half ym) semimonthly ∧ In (second_half ym) semimonthly.
Proof.
  intros Hs Hvs He Hve Hfuel.
  exists (flat_map (kept mensual sy sm sd ey em ed)
            (months_between sy sm ey em)),
         (flat_map (kept quincenal sy sm sd ey em ed)
            (months_between sy sm ey em)).
  split; [apply getPeriods_kept; assumption|].
  split; [apply getPeriods_kept; assumption|].
  intros ym. rewrite in_whole_months, in_first_halves, in_second_halves.
  rewrite whole_month_both_halves, andb_true_iff. tauto.
Qed.

Lemma whole_month_iff_both_halves_witness :
  ∃ monthly semimonthly : list cal_period,
    getPeriods 3 (Some "2023-12-16") (Some "29/02/2024") mensual
    = Some (map render monthly) ∧
    getPeriods 3 (Some "2023-12-16") (Some "29/02/2024") quincenal
    = Some (map render semimonthly) ∧
    ∀ ym : Z * Z,
      In (whole_month ym) monthly ↔
      In (first_half ym) semimonthly ∧ In (second_half ym) semimonthly.
Proof.
  apply (whole_month_iff_both_halves "2023-12-16" "29/02/2024"
           2023 12 16 2024 2 29); date_facts.
Defined.

(** ** The first revision of [calculateRetroactive] *)

(** X11.  The first revision returns at most six lines for a row, every
    one with the identity columns of the row and an amount that is a
    whole number, not negative, or [Infinity]. *)
Theorem first_revision_lines (data : gmap string value) :
  (length (Revision1.calculateRetroactive data) ≤ 6)%nat ∧
  Forall (λ l, whole_amount (Revision1.VALOR_A_PAGAR l) ∧
               Revision1.CEDULA l = Revision1.field (data !! "CEDULA") ∧
               Revision1.NOMBRE l = Revision1.field (data !! "NOMBRE"))
    (Revision1.calculateRetroactive data).
Proof.
  rewrite calculateRetroactive_first_closed. split.
  - rewrite length_app. unfold Revision1.otTypes. cbn [flat_map].
    destruct (Revision1.salary_emits data);
      repeat (destruct (Revision1.ot_emits data _)); cbn; lia.
  - apply List.Forall_app. split.
    + destruct (Revision1.salary_emits data) eqn:He; [|constructor].
      apply List.Forall_cons; [|constructor].
      split; [|split; reflexivity]. apply Math_round_whole. exact He.
    + apply List.Forall_forall. intros l Hl.
      apply in_flat_map in Hl as (t & _ & Hl).
      destruct (Revision1.ot_emits data t) eqn:He; [|destruct Hl].
      destruct Hl as [<-|[]]. split; [|split; reflexivity].
      apply andb_prop in He as [_ He]. apply Math_round_whole. exact He.
Qed.





(** ** The handlers of the application *)

(** X14.  With a required field of the form left empty (old salary, new
    salary, start date or end date), [handleIndividualCalculate] does not
    calculate: whatever the other fields hold, it returns at once, leaves
    the results, the report and the error message as they were, and flags
    exactly the required fields that are empty. *)
Theorem missing_fields_block_calculation (formData : gmap string string)
  (payrollType : payroll_type) (fuel : nat) (st : App.state) (k : string) :
  In k App.requiredKeys → str_truthy (formData !! k) = false →
  ∃ st' : App.state,
    App.handleIndividualCalculate formData payrollType fuel st = Some st' ∧
    App.results st' = App.results st ∧
    App.reportData st' = App.reportData st ∧
    App.error st' = App.error st ∧
    ∀ k' : string,
      App.fieldErrors st' !! k' = Some true ↔
      In k' App.requiredKeys ∧ str_truthy (formData !! k') = false.
Proof.
  intros Hk Hempty. unfold App.handleIndividualCalculate.
  set (newErrors :=
         App.require_field formData "FECHA_FIN"
           (App.require_field formData "FECHA_INICIO"
              (App.require_field formData "SUELDO_NUEVO"
                 (App.require_field formData "SUELDO_ANTERIOR" ∅)))).
  assert (Hsize : (0 <? size newErrors)%nat = true).
  { unfold newErrors. unfold App.requiredKeys in Hk.
    destruct Hk as [<-|[<-|[<-|[<-|[]]]]].
    - do 1 apply require_field_grows. apply require_field_size. exact Hempty.
    - apply require_field_size. exact Hempty.
    - do 3 apply require_field_grows. apply require_field_size. exact Hempty.
    - do 2 apply require_field_grows. apply require_field_size. exact Hempty. }
  rewrite Hsize. eexists. split; [reflexivity|].
  cbn [App.results App.reportData App.error App.fieldErrors].
  repeat (split; [reflexivity|]).
  intros k'. unfold newErrors. rewrite !require_field_lookup, lookup_empty.
  unfold App.requiredKeys. cbn [In].
  repeat case_decide; subst;
    repeat match goal with
           | |- context [str_truthy ?o] => destruct (str_truthy o) eqn:?
           end;
    split; intros; try discriminate; try congruence; try tauto;
    intuition congruence.
Qed.

Lemma missing_fields_block_calculation_witness :
  ∃ st' : App.state,
    App.handleIndividualCalculate (<["SUELDO_NUEVO" := "1100000"]> ∅)
      mensual 0 App.initial = Some st' ∧
    App.results st' = App.results App.initial ∧
    App.reportData st' = App.reportData App.initial ∧
    App.error st' = App.error App.initial ∧
    ∀ k' : string,
      App.fieldErrors st' !! k' = Some true ↔
      In k' App.requiredKeys ∧
      str_truthy ((<["SUELDO_NUEVO" := "1100000"]> ∅ : gmap string string)
                    !! k') = false.
Proof.
  apply (missing_fields_block_calculation
           (<["SUELDO_NUEVO" := "1100000"]> ∅) mensual 0 App.initial
           "FECHA_INICIO").
  - cbn. tauto.
  - reflexivity.
Defined.

(** X15.  A form with its four required fields filled, dates that give
    periods, and a new salary that is not above the old one: the
    calculation returns one summary row per period and no line, and
    [handleIndividualCalculate] then shows no result, drops the summary
    rows, and sets the message that tells the user to check the dates. *)
Theorem no_raise_blames_dates (formData : gmap string string)
  (payrollType : payroll_type) (fuel : nat) (st : App.state)
  (periods : list period) :
  Forall (λ k, str_truthy (formData !! k) = true) App.requiredKeys →
  not_positive (baseDiff formData) →
  getPeriods fuel (formData !! "FECHA_INICIO") (formData !! "FECHA_FIN")
    payrollType = Some periods →
  App.handleIndividualCalculate formData payrollType fuel st =
  Some {| App.results := [];
          App.reportData := [];
          App.isProcessing := App.isProcessing st;
          App.error := Some "No se generaron resultados. Verifique que las fechas cubran periodos cerrados completos.";
          App.fieldErrors := ∅ |}.
Proof.
  intros Hreq Hd Hp. unfold App.requiredKeys in Hreq.
  apply Forall_cons_1 in Hreq as [H1 Hreq].
  apply Forall_cons_1 in Hreq as [H2 Hreq].
  apply Forall_cons_1 in Hreq as [H3 Hreq].
  apply Forall_cons_1 in Hreq as [H4 _].
  unfold App.handleIndividualCalculate.
  rewrite !require_field_present by assumption.
  change (0 <? size (∅ : gmap string bool))%nat with false. cbv iota.
  set (row := <["CODIGO_FICHA_COLABORADOR" := "-"]> _).
  destruct (calculateRetroactive_no_raise row payrollType fuel periods)
    as (summaries & Hc & _).
  - unfold row. rewrite form_row_baseDiff. exact Hd.
  - unfold row. rewrite !form_row_lookup by discriminate. exact Hp.
  - rewrite Hc. reflexivity.
Qed.

Lemma no_raise_blames_dates_witness :
  App.handleIndividualCalculate pay_cut mensual 1 App.initial =
  Some {| App.results := [];
          App.reportData := [];
          App.isProcessing := App.isProcessing App.initial;
          App.error := Some "No se generaron resultados. Verifique que las fechas cubran periodos cerrados completos.";
          App.fieldErrors := ∅ |}.
Proof.
  apply (no_raise_blames_dates pay_cut mensual 1 App.initial
           [ {| start := "2024-01-01"; end_ := "2024-01-31" |} ]).
  - repeat constructor.
  - vm_compute. reflexivity.
  - vm_compute. reflexivity.
Defined.

(** X16.  A sheet of more than 10000 rows is refused by
    [handleFileUpload] before any row is calculated: whatever the rows
    hold, the handler returns at once with the message of the limit, no
    result and no report.  A sheet of at most 10000 rows never gets this
    message. *)
Theorem upload_row_limit (jsonData : list (gmap string string))
  (payrollType : payroll_type) (fuel : nat) (st : App.state) :
  (10000 < Z.of_nat (length jsonData) →
   App.handleFileUpload (App.Rows jsonData) payrollType fuel st =
   Some {| App.results := [];
           App.reportData := [];
           App.isProcessing := false;
           App.error := Some "El archivo excede el límite de 10.000 filas.";
           App.fieldErrors := App.fieldErrors st |}) ∧
  (Z.of_nat (length jsonData) ≤ 10000 →
   ∀ st' : App.state,
     App.handleFileUpload (App.Rows jsonData) payrollType fuel st = Some st' →
     App.error st' ≠ Some "El archivo excede el límite de 10.000 filas.").
Proof.
  split.
  - intros H. unfold App.handleFileUpload.
    rewrite process_too_long by exact H. reflexivity.
  - intros H st' Hst. unfold App.handleFileUpload, App.process in Hst.
    destruct (length jsonData =? 0)%nat.
    { injection Hst as <-. discriminate. }
    destruct (Z.ltb_spec 10000 (Z.of_nat (length jsonData))); [lia|].
    destruct (0 <? length _)%nat.
    { injection Hst as <-. discriminate. }
    destruct (App.each_row _ _ _ _) as [[allDetails allSummaries]|];
      [|discriminate Hst].
    destruct (length allDetails =? 0)%nat; injection Hst as <-; discriminate.
Qed.

Lemma upload_row_limit_witness :
  App.handleFileUpload (App.Rows (sheet_of (Z.to_nat 10001) month_names))
    mensual 0 App.initial =
  Some {| App.results := [];
          App.reportData := [];
          App.isProcessing := false;
          App.error := Some "El archivo excede el límite de 10.000 filas.";
          App.fieldErrors := App.fieldErrors App.initial |} ∧
  ∀ st' : App.state,
    App.handleFileUpload (App.Rows (sheet_of (Z.to_nat 10000) raise_of_100000))
      mensual 2 App.initial = Some st' →
    App.error st' ≠ Some "El archivo excede el límite de 10.000 filas.".
Proof.
  split.
  - apply (proj1 (upload_row_limit (sheet_of (Z.to_nat 10001) month_names)
                    mensual 0 App.initial)).
    unfold sheet_of. rewrite repeat_length. lia.
  - apply (proj2 (upload_row_limit
                    (sheet_of (Z.to_nat 10000) raise_of_100000)
                    mensual 2 App.initial)).
    unfold sheet_of. rewrite repeat_length. lia.
Defined.

(** X17.  The columns of a sheet are checked on its first row alone.  If
    that row lacks one of the four required keys, the sheet is refused
    whatever the other rows hold, before any row is calculated,
    and the message lists the keys the first row lacks, in the order
    start date, end date, old salary, new salary. *)
Theorem upload_checks_first_row (first : gmap string string)
  (rest : list (gmap string string)) (payrollType : payroll_type)
  (fuel : nat) (st : App.state) (k : string) :
  Z.of_nat (length (first :: rest)) ≤ 10000 →
  In k App.requiredKeys → first !! k = None →
  App.handleFileUpload (App.Rows (first :: rest)) payrollType fuel st =
  Some {| App.results := [];
          App.reportData := [];
          App.isProcessing := false;
          App.error :=
            Some ("Faltan columnas requeridas en el archivo: " +:+
                  App.join ", "
                    (List.filter (λ k, bool_decide (first !! k = None))
                       App.requiredKeys)
                  +:+ ". Por favor use la plantilla.");
          App.fieldErrors := App.fieldErrors st |}.
Proof.
  intros Hlen Hk Hmiss. unfold App.handleFileUpload.
  rewrite (process_missing payrollType fuel first rest k Hlen Hk).
  - assert (Hf : List.filter (λ k, negb (App.has_key first k))
                   App.requiredKeys =
                 List.filter (λ k, bool_decide (first !! k = None))
                   App.requiredKeys).
    { apply filter_ext. intros a. unfold App.has_key.
      destruct (first !! a) as [v|].
      - rewrite bool_decide_eq_true_2 by eauto.
        rewrite bool_decide_eq_false_2 by discriminate. reflexivity.
      - rewrite bool_decide_eq_false_2 by (intros [v Hv]; discriminate Hv).
        rewrite bool_decide_eq_true_2 by reflexivity. reflexivity. }
    rewrite Hf. reflexivity.
  - unfold App.has_key. rewrite Hmiss.
    apply bool_decide_eq_false_2. intros [v Hv]. discriminate Hv.
Qed.

Lemma upload_checks_first_row_witness :
  App.handleFileUpload (App.Rows [no_end_date; raise_of_100000]) mensual 0
    App.initial =
  Some {| App.results := [];
          App.reportData := [];
          App.isProcessing := false;
          App.error :=
            Some ("Faltan columnas requeridas en el archivo: " +:+
                  App.join ", "
                    (List.filter (λ k, bool_decide (no_end_date !! k = None))
                       App.requiredKeys)
                  +:+ ". Por favor use la plantilla.");
          App.fieldErrors := App.fieldErrors App.initial |}.
Proof.
  apply (upload_checks_first_row no_end_date [raise_of_100000] mensual 0
           App.initial "FECHA_FIN").
  - cbn. lia.
  - cbn. tauto.
  - reflexivity.
Defined.

(** X18.  A sheet of 1 to 10000 rows whose first row has the four
    required keys: when every row is calculated, the results shown are
    the detail lines of the rows one after the other, in the order of the
    sheet, and the report holds their summary rows in the same order; when
    no row gives a line, the message about the dates is set, and neither
    results nor report are kept. *)
Theorem upload_concatenates_rows (first : gmap string string)
  (rest : list (gmap string string)) (payrollType : payroll_type)
  (fuel : nat) (st : App.state)
  (rs : list (list detail * list (gmap string value))) :
  Z.of_nat (length (first :: rest)) ≤ 10000 →
  Forall (λ k, is_Some (first !! k)) App.requiredKeys →
  Forall2 (λ row r, calculateRetroactive row payrollType fuel = Some r)
    (first :: rest) rs →
  App.handleFileUpload (App.Rows (first :: rest)) payrollType fuel st =
  Some (if Nat.eqb (length (concat (map fst rs))) 0 then
          {| App.results := [];
             App.reportData := [];
             App.isProcessing := false;
             App.error := Some "El archivo se procesó pero no se generaron resultados. Verifique que las fechas tengan el formato correcto (AAAA-MM-DD o DD/MM/AAAA) y cubran periodos válidos.";
             App.fieldErrors := App.fieldErrors st |}
        else
          {| App.results := concat (map fst rs);
             App.reportData := concat (map snd rs);
             App.isProcessing := false;
             App.error := None;
             App.fieldErrors := App.fieldErrors st |}).
Proof.
  intros Hlen Hkeys Hrows. unfold App.handleFileUpload.
  rewrite process_rows; [|exact Hlen|].
  - rewrite (each_row_results payrollType fuel (first :: rest) rs ([], [])
               Hrows).
    cbn [fst snd app].
    destruct (Nat.eqb (length (concat (map fst rs))) 0); reflexivity.
  - eapply List.Forall_impl; [|exact Hkeys]. intros k Hk.
    unfold App.has_key. apply bool_decide_eq_true_2. exact Hk.
Qed.

Lemma upload_concatenates_rows_witness :
  ∃ rs : list (list detail * list (gmap string value)),
    length rs = 2%nat ∧
    App.handleFileUpload (App.Rows [raise_of_100000; raise_of_50]) mensual 2
      App.initial =
    Some (if Nat.eqb (length (concat (map fst rs))) 0 then
            {| App.results := [];
               App.reportData := [];
               App.isProcessing := false;
               App.error := Some "El archivo se procesó pero no se generaron resultados. Verifique que las fechas tengan el formato correcto (AAAA-MM-DD o DD/MM/AAAA) y cubran periodos válidos.";
               App.fieldErrors := App.fieldErrors App.initial |}
          else
            {| App.results := concat (map fst rs);
               App.reportData := concat (map snd rs);
               App.isProcessing := false;
               App.error := None;
               App.fieldErrors := App.fieldErrors App.initial |}).
Proof.
  destruct (row_returns raise_of_100000 mensual 2
              [ {| start := "2024-01-01"; end_ := "2024-01-31" |};
                {| start := "2024-02-01"; end_ := "2024-02-29" |} ])
    as (d1 & s1 & H1); [vm_compute; reflexivity|].
  destruct (row_returns raise_of_50 mensual 2
              [ {| start := "2024-01-01"; end_ := "2024-01-31" |} ])
    as (d2 & s2 & H2); [vm_compute; reflexivity|].
  exists [(d1, s1); (d2, s2)]. split; [reflexivity|].
  apply (upload_concatenates_rows raise_of_100000 [raise_of_50] mensual 2
           App.initial).
  - cbn. lia.
  - repeat constructor; eexists; reflexivity.
  - repeat constructor; assumption.
Defined.

(** X19.  One row that [calculateRetroactive] never returns from stops
    the whole sheet: if the sheet passes the checks of size and columns
    and holds such a row anywhere, [handleFileUpload] never returns,
    however long it runs, so that no row of the sheet gets a result. *)
Theorem upload_stuck_on_one_row (first : gmap string string)
  (rest : list (gmap string string)) (payrollType : payroll_type)
  (st : App.state) (row : gmap string string) :
  Z.of_nat (length (first :: rest)) ≤ 10000 →
  Forall (λ k, is_Some (first !! k)) App.requiredKeys →
  In row (first :: rest) →
  (∀ fuel : nat, calculateRetroactive row payrollType fuel = None) →
  ∀ fuel : nat,
    App.handleFileUpload (App.Rows (first :: rest)) payrollType fuel st = None.
Proof.
  intros Hlen Hkeys Hin Hrow fuel. unfold App.handleFileUpload.
  rewrite process_rows; [|exact Hlen|].
  - rewrite (each_row_stuck payrollType fuel (first :: rest) row Hin
               (Hrow fuel)).
    reflexivity.
  - eapply List.Forall_impl; [|exact Hkeys]. intros k Hk.
    unfold App.has_key. apply bool_decide_eq_true_2. exact Hk.
Qed.

Lemma upload_stuck_on_one_row_witness :
  App.handleFileUpload (App.Rows [raise_of_100000; month_names]) mensual
    100 App.initial = None.
Proof.
  refine (upload_stuck_on_one_row raise_of_100000 [month_names] mensual
            App.initial month_names _ _ _ _ 100%nat).
  - cbn. lia.
  - repeat constructor; eexists; reflexivity.
  - right. left. reflexivity.
  - apply month_names_never_returns.
Defined.



(** X21.  The form and the sheet agree: with the four required fields
    filled, a sheet of the one row that the form stands for gives the
    results and the report that submitting the form gives, and an error
    message in the same cases. *)
Theorem one_row_sheet_is_the_form (formData : gmap string string)
  (payrollType : payroll_type) (fuel : nat) (st st1 : App.state) :
  Forall (λ k, str_truthy (formData !! k) = true) App.requiredKeys →
  App.handleIndividualCalculate formData payrollType fuel st = Some st1 →
  ∃ st2 : App.state,
    App.handleFileUpload (App.Rows [form_row formData]) payrollType fuel st
    = Some st2 ∧
    App.results st2 = App.results st1 ∧
    App.reportData st2 = App.reportData st1 ∧
    (App.error st2 = None ↔ App.error st1 = None).
Proof.
  intros Hreq H1. unfold App.handleFileUpload.
  rewrite process_rows.
  - unfold App.handleIndividualCalculate in H1. unfold App.requiredKeys in Hreq.
    apply Forall_cons_1 in Hreq as [K1 Hreq].
    apply Forall_cons_1 in Hreq as [K2 Hreq].
    apply Forall_cons_1 in Hreq as [K3 Hreq].
    apply Forall_cons_1 in Hreq as [K4 _].
    rewrite !require_field_present in H1 by assumption.
    change (0 <? size (∅ : gmap string bool))%nat with false in H1.
    cbv iota in H1. fold (form_row formData) in H1.
    cbn [App.each_row].
    destruct (calculateRetroactive (form_row formData) payrollType fuel)
      as [[details summaries]|]; [|discriminate H1].
    cbn [fst snd app].
    destruct (Nat.eqb (length details) 0); injection H1 as <-;
      eexists; (split; [reflexivity|]); cbn; repeat split; congruence.
  - cbn. lia.
  - eapply List.Forall_impl; [|exact Hreq]. intros k Hk. cbv beta in Hk.
    unfold App.has_key. apply bool_decide_eq_true_2.
    assert (Hrow : form_row formData !! k = formData !! k ∨
                   is_Some (form_row formData !! k)).
    { unfold form_row.
      destruct (decide (k = "CODIGO_FICHA_COLABORADOR")) as [->|N1];
        [right; rewrite lookup_insert_eq; eauto|].
      rewrite lookup_insert_ne by congruence.
      destruct (decide (k = "NOMBRE")) as [->|N2];
        [right; rewrite lookup_insert_eq; eauto|].
      rewrite lookup_insert_ne by congruence.
      destruct (decide (k = "CEDULA")) as [->|N3];
        [right; rewrite lookup_insert_eq; eauto|].
      rewrite lookup_insert_ne by congruence. left. reflexivity. }
    destruct Hrow as [-> | Hs]; [|exact Hs].
    destruct (formData !! k) as [v|]; [eauto|discriminate Hk].
Qed.

Lemma one_row_sheet_is_the_form_witness :
  ∃ st1 st2 : App.state,
    App.handleIndividualCalculate raise_of_50 mensual 1 App.initial
    = Some st1 ∧
    App.handleFileUpload (App.Rows [form_row raise_of_50]) mensual 1
      App.initial = Some st2 ∧
    App.results st2 = App.results st1 ∧
    App.reportData st2 = App.reportData st1 ∧
    (App.error st2 = None ↔ App.error st1 = None).
Proof.
  destruct (App.handleIndividualCalculate raise_of_50 mensual 1 App.initial)
    as [st1|] eqn:H1.
  - exists st1.
    destruct (one_row_sheet_is_the_form raise_of_50 mensual 1 App.initial st1)
      as (st2 & H2 & H3); [repeat constructor|exact H1|].
    exists st2. split; [reflexivity|]. split; [exact H2|exact H3].
  - exfalso. unfold App.handleIndividualCalculate in H1.
    rewrite !require_field_present in H1 by reflexivity.
    change (0 <? size (∅ : gmap string bool))%nat with false in H1.
    cbv iota in H1.
    destruct (row_returns (form_row raise_of_50) mensual 1
                [ {| start := "2024-01-01"; end_ := "2024-01-31" |} ])
      as (d & s & Hc); [vm_compute; reflexivity|].
    unfold form_row in Hc. rewrite Hc in H1.
    destruct (Nat.eqb (length d) 0); discriminate H1.
Defined.

(** ** The calendar of the form *)

(** X22.  The days that the calendar lets the user choose fit the
    segmenter.  For a start day and an end day that
    [checkPayrollValidation] accepts for the cycle, the start not after
    the end, [getPeriods] on the two texts that the form stores returns
    at least one period, the first one begins on the chosen start day and
    the last one ends on the chosen end day. *)
Theorem calendar_choices_fit_periods (type : payroll_type)
  (ds de : Calendar.date) (fuel : nat) :
  Calendar.on_calendar ds → Calendar.on_calendar de →
  Calendar.checkPayrollValidation
    (Some (Calendar.payroll_text type)) (Some "start") ds = true →
  Calendar.checkPayrollValidation
    (Some (Calendar.payroll_text type)) (Some "end") de = true →
  Calendar.not_after ds de →
  (months_spanned (Calendar.getFullYear ds) (Calendar.getMonth ds + 1)
     (Calendar.getFullYear de) (Calendar.getMonth de + 1) ≤ fuel)%nat →
  ∃ (p : period) (rest : list period),
    getPeriods fuel (Some (Calendar.date_text ds))
      (Some (Calendar.date_text de)) type = Some (p :: rest) ∧
    start p = Calendar.date_text ds ∧
    end_ (List.last (p :: rest) p) = Calendar.date_text de.
Proof.
  intros Hds Hde Hs He Hle Hfuel.
  apply start_day_aligned in Hs. apply end_day_aligned in He; [|exact Hde].
  pose proof (on_calendar_valid ds Hds) as Hvs.
  pose proof (on_calendar_valid de Hde) as Hve.
  destruct (kept_range_ends type
              (Calendar.getFullYear ds) (Calendar.getMonth ds + 1)
              (Calendar.getDate ds)
              (Calendar.getFullYear de) (Calendar.getMonth de + 1)
              (Calendar.getDate de))
    as (c & rest & HL & Hc & Hc');
    [apply Hvs|apply Hve|exact Hs|exact He|exact Hle|].
  exists (render c), (map render rest).
  rewrite (getPeriods_kept _ _ _ _ _ _ _ _
             (date_text_parses ds Hds) (date_text_parses de Hde)
             type fuel Hvs Hve Hfuel).
  rewrite HL. split; [reflexivity|]. split.
  - rewrite date_text_iso. unfold render. cbn [start].
    unfold cp_start in Hc. injection Hc as E1 E2 E3.
    rewrite E1, E2, E3. reflexivity.
  - change (render c :: map render rest) with (map render (c :: rest)).
    rewrite last_map, date_text_iso.
    set (x := List.last (c :: rest) c) in *.
    unfold render. cbn [end_].
    unfold cp_end in Hc'. injection Hc' as E1 E2 E3.
    rewrite E1, E2, E3. reflexivity.
Qed.

Lemma calendar_choices_fit_periods_witness :
  ∃ (p : period) (rest : list period),
    getPeriods 3
      (Some (Calendar.date_text
               {| Calendar.getFullYear := 2023; Calendar.getMonth := 11;
                  Calendar.getDate := 16 |}))
      (Some (Calendar.date_text
               {| Calendar.getFullYear := 2024; Calendar.getMonth := 1;
                  Calendar.getDate := 15 |})) quincenal
    = Some (p :: rest) ∧
    start p =
      Calendar.date_text
        {| Calendar.getFullYear := 2023; Calendar.getMonth := 11;
           Calendar.getDate := 16 |} ∧
    end_ (List.last (p :: rest) p) =
      Calendar.date_text
        {| Calendar.getFullYear := 2024; Calendar.getMonth := 1;
           Calendar.getDate := 15 |}.
Proof.
  apply (calendar_choices_fit_periods quincenal
           {| Calendar.getFullYear := 2023; Calendar.getMonth := 11;
              Calendar.getDate := 16 |}
           {| Calendar.getFullYear := 2024; Calendar.getMonth := 1;
              Calendar.getDate := 15 |} 3).
  - unfold Calendar.on_calendar. repeat split; vm_compute; congruence.
  - unfold Calendar.on_calendar. repeat split; vm_compute; congruence.
  - vm_compute. reflexivity.
  - vm_compute. reflexivity.
  - right. unfold Calendar.ymd, date_lt. cbn. lia.
  - vm_compute. lia.
Defined.

(** X23.  The grid of the calendar.  For a month of the years 100 to
    9999 on view, [days] holds 42 cells: six whole weeks of consecutive
    days that begin on the Sunday of the week in which the month begins,
    where exactly the days of the month on view, from its first to its
    last, are marked as those of the current month. *)
Theorem calendar_grid_six_weeks (year month : Z) :
  100 ≤ year ≤ 9999 → 0 ≤ month ≤ 11 →
  CalendarGrid.days year month =
  CalendarGrid.six_weeks
    (CalendarGrid.week_start (CalendarGrid.new_Date year month 1))
    (CalendarGrid.new_Date year month 1)
    (CalendarGrid.new_Date year month 1 + DaysInMonth year month - 1) ∧
  CalendarGrid.getDay
    (CalendarGrid.week_start (CalendarGrid.new_Date year month 1)) = 0.
Proof.
  intros Hy Hm. split; [|apply getDay_week_start].
  unfold CalendarGrid.days, CalendarGrid.six_weeks, CalendarGrid.week_start,
    CalendarGrid.new_Date.
  assert (Hfull : MakeFullYear year = year).
  { unfold MakeFullYear. destruct (Z.leb_spec 0 year), (Z.leb_spec year 99);
      cbn [andb]; lia. }
  unfold CalendarGrid.getDate_of_day_0. rewrite Hfull.
  replace (month + 1 - 1) with month by lia.
  rewrite (Z.div_small month 12), (Z.mod_small month 12), Z.add_0_r by lia.
  set (F := MakeDay year month 1).
  set (n := DaysInMonth year month).
  pose proof (DaysInMonth_bounds year month) as Hn. fold n in Hn.
  pose proof (getDay_bounds F) as Hw.
  set (w := CalendarGrid.getDay F) in *.
  set (pl := DaysInMonth (year + (month - 1) / 12) ((month - 1) mod 12)).
  assert (Hprev : ∀ d, MakeDay year (month - 1) d = F - pl + d - 1).
  { intros d. rewrite MakeDay_date. unfold F, pl.
    pose proof (MakeDay_next_month year (month - 1)) as H.
    replace (month - 1 + 1) with month in H by lia. lia. }
  assert (Hnext : ∀ d, MakeDay year (month + 1) d = F + n + d - 1).
  { intros d. rewrite MakeDay_date. unfold F, n.
    pose proof (MakeDay_next_month year month) as H.
    rewrite (Z.div_small month 12), (Z.mod_small month 12), Z.add_0_r in H
      by lia.
    lia. }
  assert (Hcur : ∀ d, MakeDay year month d = F + d - 1).
  { intros d. rewrite MakeDay_date. reflexivity. }
  unfold CalendarGrid.count_down, CalendarGrid.count_up. rewrite !length_map, !length_seq, !map_map.
  replace (w - 1 + 1) with w by lia.
  rewrite !Z2Nat.id by lia.
  assert (Hsplit : seq 0 42 =
                   seq 0 (Z.to_nat w) ++
                   seq (Z.to_nat w) (Z.to_nat n) ++
                   seq (Z.to_nat w + Z.to_nat n) (Z.to_nat (42 - (w + n)))).
  { rewrite <- !seq_app. f_equal. lia. }
  rewrite Hsplit, !map_app.
  rewrite (map_seq_offset _ _ (Z.to_nat w)),
    (map_seq_offset _ _ (Z.to_nat w + Z.to_nat n)).
  f_equal; [|f_equal]; apply map_ext_in; intros k Hk; apply in_seq in Hk;
    cbv zeta; rewrite ?Hprev, ?Hnext, ?Hcur; f_equal; try lia.
  - destruct (Z.leb_spec F (F - w + Z.of_nat (Z.to_nat w + k))),
      (Z.leb_spec (F - w + Z.of_nat (Z.to_nat w + k)) (F + n - 1));
      cbn [andb]; reflexivity || lia.
  - destruct
      (Z.leb_spec (F - w + Z.of_nat (Z.to_nat w + Z.to_nat n + k))
         (F + n - 1)); [lia|]. rewrite andb_false_r. reflexivity.
Qed.

Lemma calendar_grid_six_weeks_witness :
  (CalendarGrid.days 2024 1 =
   CalendarGrid.six_weeks
     (CalendarGrid.week_start (CalendarGrid.new_Date 2024 1 1))
     (CalendarGrid.new_Date 2024 1 1)
     (CalendarGrid.new_Date 2024 1 1 + DaysInMonth 2024 1 - 1) ∧
   CalendarGrid.getDay
     (CalendarGrid.week_start (CalendarGrid.new_Date 2024 1 1)) = 0) ∧
  CalendarGrid.new_Date 2024 1 1 -
  CalendarGrid.week_start (CalendarGrid.new_Date 2024 1 1) = 4.
Proof.
  split; [apply (calendar_grid_six_weeks 2024 1); lia|].
  vm_compute. reflexivity.
Defined.

(** ** The two notations of a date *)

(** X24.  The two notations of a date are read alike: for a date of the
    years 1001 to 9999, [getPeriods] gives the same answer whether the
    date is written [YYYY-MM-DD] or [DD/MM/YYYY], as the start of the
    range or as its end, whatever the other date is. *)
Theorem date_notations_agree (y m d : Z) (other : option string)
  (type : payroll_type) (fuel : nat) :
  1000 < y ≤ 9999 → 1 ≤ m ≤ 12 → 1 ≤ d ≤ 31 →
  getPeriods fuel (Some (iso y m d)) other type =
  getPeriods fuel (Some (dd_mm_yyyy (y, m, d))) other type ∧
  getPeriods fuel other (Some (iso y m d)) type =
  getPeriods fuel other (Some (dd_mm_yyyy (y, m, d))) type.
Proof.
  intros Hy Hm Hd.
  pose proof (iso_parses y m d Hy ltac:(lia) ltac:(lia)) as H1.
  pose proof (dd_mm_yyyy_parses y m d ltac:(lia) ltac:(lia) ltac:(lia)) as H2.
  pose proof (parsed_year_nonempty _ y m d H1 ltac:(lia)) as T1.
  pose proof (parsed_year_nonempty _ y m d H2 ltac:(lia)) as T2.
  unfold parses_as in H1, H2. unfold getPeriods.
  rewrite T1, T2. unfold default, id. rewrite H1, H2.
  split; reflexivity.
Qed.

Lemma date_notations_agree_witness :
  getPeriods 2 (Some (iso 2024 1 16)) (Some "2024-02-29") quincenal =
  getPeriods 2 (Some (dd_mm_yyyy (2024, 1, 16))) (Some "2024-02-29") quincenal ∧
  getPeriods 2 (Some "2024-02-29") (Some (iso 2024 1 16)) quincenal =
  getPeriods 2 (Some "2024-02-29") (Some (dd_mm_yyyy (2024, 1, 16))) quincenal.
Proof.
  apply (date_notations_agree 2024 1 16 (Some "2024-02-29") quincenal 2); lia.
Defined.

